(** * An Introduction to Pipelines in Scikit-Learn: the notebook's code

  A shallow embedding of the code cells of
  [An_Introduction_to_Pipelines_in_Scikit_Learn.ipynb]: the custom
  transformers [MyScaler], [CustomSelector], [CustomCategoricalImputer]
  and [CustomCategoricalEncoder], the [FeatureUnion] example, and the
  manual Titanic preprocessing.

  The NumPy, pandas and scikit-learn operations the cells call are
  embedded at the level of their documented behaviour:
  - a float is a real number or one of the three IEEE specials
    (rounding and overflow are not modelled);
  - a 2-D array is the list of its columns (axis 1), each column being
    the list of its entries along axis 0;
  - a pandas frame is a row index together with named columns whose
    cells may be missing (NaN);
  - Python objects live in a store and are passed by reference. *)

From Stdlib Require Import Reals Lra Lia QArith ZArith.
From stdpp Require Import list strings.

Set Default Proof Using "Type".
Set Warnings "-register-all".

(** ** Python results and call arguments *)

Module Py.

(** The exception classes the modelled operations raise. *)
Inductive exn : Type :=
| TypeError
| AttributeError
| ValueError
| KeyError
| IndexError.

(** Outcome of a call: a value, or a raised exception. *)
Inductive result (A : Type) : Type :=
| Ok (a : A)
| Raise (e : exn).
Arguments Ok {A} a.
Arguments Raise {A} e.

Definition rbind {A B} (r : result A) (k : A -> result B) : result B :=
  match r with
  | Ok a => k a
  | Raise e => Raise e
  end.

(** An argument of a call: left out by the caller, or passed. A
    parameter declared [y=None] receives [None] when left out; a
    parameter declared without a default makes the call raise
    [TypeError] when left out. *)
Inductive arg (A : Type) : Type :=
| Omitted
| Passed (a : A).
Arguments Omitted {A}.
Arguments Passed {A} a.

(** [def f(..., y=None)]: the value bound to [y]. *)
Definition with_default {A} (d : A) (a : arg A) : A :=
  match a with
  | Omitted => d
  | Passed v => v
  end.

(** [def f(..., y)]: binding a parameter that has no default. *)
Definition required {A} (a : arg A) : result A :=
  match a with
  | Omitted => Raise TypeError
  | Passed v => Ok v
  end.

End Py.

(** ** NumPy: floats and arrays *)

Module Numpy.
Import Py.

(** A float64 without rounding: a real, or an IEEE special. *)
Inductive f64 : Type :=
| Fin (r : R)
| PInf
| NInf
| NaN.


Definition fneg (x : f64) : f64 :=
  match x with
  | Fin r => Fin (- r)
  | PInf => NInf
  | NInf => PInf
  | NaN => NaN
  end.

Definition fadd (x y : f64) : f64 :=
  match x, y with
  | NaN, _ | _, NaN => NaN
  | Fin a, Fin b => Fin (a + b)
  | PInf, NInf | NInf, PInf => NaN
  | PInf, _ | _, PInf => PInf
  | NInf, _ | _, NInf => NInf
  end.

Definition fsub (x y : f64) : f64 := fadd x (fneg y).

(** Sign of an infinite product or quotient: [pos] says whether the
    infinite operand is positive, [r] is the finite operand. A zero
    finite operand is handled by the callers. *)
Definition inf_signed (pos : bool) (r : R) : f64 :=
  if Rlt_dec r 0 then (if pos then NInf else PInf)
  else (if pos then PInf else NInf).

Definition fmul (x y : f64) : f64 :=
  match x, y with
  | NaN, _ | _, NaN => NaN
  | Fin a, Fin b => Fin (a * b)
  | Fin a, PInf | PInf, Fin a =>
      if Req_dec_T a 0 then NaN else inf_signed true a
  | Fin a, NInf | NInf, Fin a =>
      if Req_dec_T a 0 then NaN else inf_signed false a
  | PInf, PInf | NInf, NInf => PInf
  | PInf, NInf | NInf, PInf => NaN
  end.

(** True division. A zero divisor never raises: NumPy emits a
    RuntimeWarning and stores [nan] for [0/0] and a signed infinity
    otherwise (the zero is taken as [+0.0], which is what [np.std]
    produces). *)
Definition fdiv (x y : f64) : f64 :=
  match x, y with
  | NaN, _ | _, NaN => NaN
  | Fin a, Fin b =>
      if Req_dec_T b 0 then
        (if Req_dec_T a 0 then NaN else inf_signed true a)
      else Fin (a / b)
  | Fin _, PInf | Fin _, NInf => Fin 0
  | PInf, Fin b => inf_signed true b
  | NInf, Fin b => inf_signed false b
  | PInf, PInf | PInf, NInf | NInf, PInf | NInf, NInf => NaN
  end.

Definition fsqrt (x : f64) : f64 :=
  match x with
  | Fin r => if Rlt_dec r 0 then NaN else Fin (sqrt r)
  | PInf => PInf
  | NInf => NaN
  | NaN => NaN
  end.

(** A 2-D array, kept as the list of its columns. *)
Abbreviation ndarray := (list (list f64)) (only parsing).

(** [add.reduce] along axis 0 of one column. *)
Definition fsum (c : list f64) : f64 := foldr fadd (Fin 0) c.

(** The row count as a float. *)
Definition count (c : list f64) : f64 := Fin (INR (length c)).

(** [np.mean] of one column: the sum over the count. *)
Definition mean1 (c : list f64) : f64 := fdiv (fsum c) (count c).

(** [np.var] of one column ([ddof=0]): the mean of the squared
    deviations from the mean. *)
Definition var1 (c : list f64) : f64 :=
  let m := mean1 c in
  let d := map (fun x => fsub x m) c in
  fdiv (fsum (map (fun x => fmul x x) d)) (count c).

(** [np.std] of one column: the square root of [np.var]. *)
Definition std1 (c : list f64) : f64 := fsqrt (var1 c).

(** [np.mean(X, axis=0)], [np.var(X, axis=0)], [np.std(X, axis=0)]. *)
Definition np_mean (X : ndarray) : list f64 := map mean1 X.
Definition np_var (X : ndarray) : list f64 := map var1 X.
Definition np_std (X : ndarray) : list f64 := map std1 X.

(** [np.sqrt(X)] and [X ** 2], entry by entry. *)
Definition np_sqrt (X : ndarray) : ndarray := map (map fsqrt) X.
Definition np_square (X : ndarray) : ndarray :=
  map (map (fun x => fmul x x)) X.


(** In-place [X op= v] for a 2-D [X] and a 1-D [v]: [v] is broadcast
    along axis 0, so entry [j] of [v] meets column [j] of [X]; a
    one-entry [v] meets every column; any other length is a
    [ValueError]. *)
Definition broadcast_inplace (op : f64 -> f64 -> f64)
    (X : ndarray) (v : list f64) : result ndarray :=
  if decide (length v = length X) then
    Ok (zip_with (fun c m => map (fun x => op x m) c) X v)
  else
    match v with
    | [m] => Ok (map (map (fun x => op x m)) X)
    | _ => Raise ValueError
    end.

End Numpy.

(** ** pandas: values, Series and frames *)

Module Pandas.
Import Py.

(** What a cell of the Titanic table holds. *)
Inductive value : Type :=
| VInt (z : Z)
| VFloat (q : Q)
| VStr (s : string).

(** A cell: [None] is the missing value (NaN). *)
Definition cell : Type := option value.

#[global] Instance Q_eq_dec : EqDecision Q.
Proof. solve_decision. Defined.
#[global] Instance value_eq_dec : EqDecision value.
Proof. solve_decision. Defined.

(** Python's [==] on cell values: numbers compare by value, whatever
    their type; a number never equals a string. *)
Definition value_eqb (a b : value) : bool :=
  match a, b with
  | VInt x, VInt y => Z.eqb x y
  | VInt x, VFloat q | VFloat q, VInt x => Qeq_bool (inject_Z x) q
  | VFloat p, VFloat q => Qeq_bool p q
  | VStr s, VStr t => String.eqb s t
  | _, _ => false
  end.

Definition num (v : value) : option Q :=
  match v with
  | VInt z => Some (inject_Z z)
  | VFloat q => Some q
  | VStr _ => None
  end.

(** The order pandas sorts category values in: numbers by value, then
    strings in lexicographic order. *)
Definition value_leb (a b : value) : bool :=
  match num a, num b with
  | Some p, Some q => Qle_bool p q
  | Some _, None => true
  | None, Some _ => false
  | None, None =>
      match a, b with
      | VStr s, VStr t => String.leb s t
      | _, _ => true
      end
  end.

(** Insertion sort, stable. *)
Fixpoint insert_sorted {A} (leb : A -> A -> bool) (x : A) (l : list A)
    : list A :=
  match l with
  | [] => [x]
  | y :: l' => if leb x y then x :: l else y :: insert_sorted leb x l'
  end.

Definition isort {A} (leb : A -> A -> bool) (l : list A) : list A :=
  foldr (insert_sorted leb) [] l.

(** The first occurrence of every value, in order of appearance. *)
Fixpoint dedup (l : list value) : list value :=
  match l with
  | [] => []
  | v :: l' =>
      v :: List.filter (fun w => negb (value_eqb v w)) (dedup l')
  end.

(** The non-missing values of a column. *)
Definition present (s : list cell) : list value :=
  omap (fun x : cell => x) s.

Definition count_val (v : value) (vs : list value) : nat :=
  length (List.filter (value_eqb v) vs).

Definition max_count (vs : list value) : nat :=
  foldr Nat.max 0%nat (map (fun v => count_val v vs) vs).

(** The modes of a column: the non-missing values that occur most
    often, each once, sorted. Empty when every cell is missing. *)
Definition mode1 (s : list cell) : list value :=
  let vs := present s in
  isort value_leb
    (dedup (List.filter (fun v => Nat.eqb (count_val v vs) (max_count vs)) vs)).

(** A column label: a plain name, or the label [prefix_value] that
    [get_dummies] builds, kept structured. *)
Inductive colname : Type :=
| Name (s : string)
| Dummy (prefix : string) (v : value).

#[global] Instance colname_eq_dec : EqDecision colname.
Proof. solve_decision. Defined.

(** A Series whose index has labels of type [L]. *)
Definition Series (L : Type) : Type := list (L * cell).

Fixpoint assoc {L} `{EqDecision L} {V} (k : L) (s : list (L * V))
    : option V :=
  match s with
  | [] => None
  | (k', v) :: s' => if decide (k = k') then Some v else assoc k s'
  end.

(** A frame: the row labels and the named columns, each column with one
    cell per row label. *)
Record DataFrame : Type := mkFrame {
  index : list Z;
  columns : list (colname * list cell)
}.

(** [X[col]]: the cells of the column named [col]. *)
Definition getitem (col : string) (X : DataFrame)
    : result (list cell) :=
  match assoc (Name col) (columns X) with
  | Some s => Ok s
  | None => Raise KeyError
  end.

(** [X[[c1, ..., cn]]]: a new frame with these columns, in this order. *)
Fixpoint select (cols : list string) (X : DataFrame)
    : result (list (colname * list cell)) :=
  match cols with
  | [] => Ok []
  | c :: cols' =>
      rbind (getitem c X) (fun s =>
      rbind (select cols' X) (fun rest =>
      Ok ((Name c, s) :: rest)))
  end.

Definition getitem_cols (cols : list string) (X : DataFrame)
    : result DataFrame :=
  rbind (select cols X) (fun cs => Ok (mkFrame (index X) cs)).

(** [X[col] = s]: replace the column named [col]. *)
Fixpoint setcol (col : colname) (s : list cell)
    (cols : list (colname * list cell)) : list (colname * list cell) :=
  match cols with
  | [] => []
  | (c, old) :: cols' =>
      if decide (col = c) then (c, s) :: cols'
      else (c, old) :: setcol col s cols'
  end.

Definition pad (k : nat) (s : list cell) : list cell :=
  s ++ replicate (k - length s) None.

(** [X.mode()]: one row per mode, the columns with fewer modes filled
    up with NaN; the rows are labelled [0, 1, ...]. *)
Definition DataFrame_mode (X : DataFrame) : DataFrame :=
  let ms := map (fun p => (p.1, map Some (mode1 p.2))) (columns X) in
  let k := foldr Nat.max 0%nat (map (fun p => length p.2) ms) in
  mkFrame (seqZ 0 (Z.of_nat k)) (map (fun p => (p.1, pad k p.2)) ms).

(** [X.iloc[0]]: the first row as a Series over the column labels. *)
Definition iloc0 (X : DataFrame) : result (Series colname) :=
  match index X with
  | [] => Raise IndexError
  | _ :: _ => Ok (map (fun p => (p.1, default None (head p.2))) (columns X))
  end.

(** [s.mode()]: the modes as a Series labelled [0, 1, ...]. *)
Definition Series_mode (s : list cell) : Series Z :=
  imap (fun i v => (Z.of_nat i, Some v)) (mode1 s).

(** Filling one cell: a missing cell takes [v], any other is kept. *)
Definition fill_cell (v : cell) (x : cell) : cell :=
  match x with
  | None => v
  | Some _ => x
  end.

(** [s.fillna(v)] for a scalar [v]. *)
Definition fillna_scalar (v : cell) (s : list cell) : list cell :=
  map (fill_cell v) s.

(** [s.fillna(t)] for a Series [t]: [t] is aligned on the row labels
    of [s]; a missing cell takes the value [t] has at its own label,
    and stays missing when [t] has no such label. *)
Definition fillna_aligned (idx : list Z) (t : Series Z) (s : list cell)
    : list cell :=
  imap (fun i x =>
          fill_cell (default None (l ← idx !! i; assoc l t)) x) s.

(** [X.fillna(fill)] for a Series [fill] over column labels: every
    column takes the fill value stored under its own label; a column
    without one is left as it is. The result is a new frame. *)
Definition DataFrame_fillna (fill : Series colname) (X : DataFrame)
    : DataFrame :=
  mkFrame (index X)
    (map (fun p =>
            (p.1, match assoc p.1 fill with
                  | Some v => fillna_scalar v p.2
                  | None => p.2
                  end))
         (columns X)).

(** The numbers of a column, missing cells skipped; a string makes the
    numeric reduction raise [TypeError]. *)
Fixpoint numbers (s : list cell) : result (list Q) :=
  match s with
  | [] => Ok []
  | None :: s' => numbers s'
  | Some v :: s' =>
      match num v with
      | None => Raise TypeError
      | Some q => rbind (numbers s') (fun qs => Ok (q :: qs))
      end
  end.

(** The median of the sorted numbers [qs]: the middle one, or the mean
    of the two middle ones; NaN when there is none. *)
Definition median_sorted (qs : list Q) : cell :=
  let n := length qs in
  if Nat.eqb n 0 then None
  else if Nat.odd n then
    (fun q => VFloat (Qred q)) <$> qs !! (n / 2)%nat
  else
    a ← qs !! (n / 2 - 1)%nat;
    b ← qs !! (n / 2)%nat;
    Some (VFloat (Qred ((a + b) / 2))).

(** [s.median()], missing cells skipped. *)
Definition median (s : list cell) : result cell :=
  rbind (numbers s) (fun qs => Ok (median_sorted (isort Qle_bool qs))).

(** The categories of a column: its distinct non-missing values,
    sorted. *)
Definition levels (s : list cell) : list value :=
  isort value_leb (dedup (present s)).

Definition indicator (v : value) (x : cell) : cell :=
  match x with
  | Some w => Some (VInt (if value_eqb w v then 1 else 0))
  | None => Some (VInt 0)
  end.

(** [pd.get_dummies(s, prefix=prefix, drop_first=True)]: one 0/1
    column per category but the first; a missing cell is 0 in all. *)
Definition get_dummies (prefix : string) (idx : list Z) (s : list cell)
    : DataFrame :=
  mkFrame idx
    (map (fun v => (Dummy prefix v, map (indicator v) s))
         (tail (levels s))).

(** [pd.concat([X, D], axis=1)] for two frames over the same row
    labels: a new frame, the columns of [D] after those of [X]. *)
Definition concat_axis1 (X D : DataFrame) : DataFrame :=
  mkFrame (index X) (columns X ++ columns D).

(** [X.drop(col, axis=1)]: without the columns named [col]; a
    [KeyError] when there is none. *)
Definition drop (col : string) (X : DataFrame) : result DataFrame :=
  match assoc (Name col) (columns X) with
  | None => Raise KeyError
  | Some _ =>
      Ok (mkFrame (index X)
            (List.filter (fun p => negb (bool_decide (p.1 = Name col)))
                         (columns X)))
  end.

End Pandas.

(** ** scikit-learn: FunctionTransformer and FeatureUnion *)

Module Sklearn.
Import Numpy.

(** [FunctionTransformer(func)]: [func=None] stands for the identity. *)
Record FunctionTransformer : Type := mkFunctionTransformer {
  func : option (ndarray -> ndarray)
}.




(** [FeatureUnion(transformer_list)]: the named transformers. *)
Definition FeatureUnion : Type := list (string * FunctionTransformer).


End Sklearn.

(** ** The FeatureUnion example *)

Module FeatureUnionExample.
Import Numpy Sklearn.

(** [feat_union] of the notebook. *)
Definition feat_union : FeatureUnion :=
  [ ("identity", mkFunctionTransformer None);
    ("sqrt", mkFunctionTransformer (Some np_sqrt));
    ("square", mkFunctionTransformer (Some (fun x => np_square x))) ].

End FeatureUnionExample.

(** ** The object store *)

Module Heap.
Import Py Numpy Pandas.

(** A reference to an object. *)
Abbreviation loc := nat (only parsing).

(** The objects the transformers work with. An attribute that [fit] has
    not set yet is [None]. *)
Inductive obj : Type :=
| ONdarray (a : ndarray)
| OFrame (d : DataFrame)
| OMyScaler (mean scale : option (list f64))
| OCustomSelector (categorical : bool)
| OCustomCategoricalImputer (fill : option (Series colname))
| OCustomCategoricalEncoder.

(** The store: object [l] is the [l]-th entry; objects are never freed. *)
Abbreviation store := (list obj) (only parsing).

(** A computation on the store that may raise. The store is threaded
    through a raise too: what was mutated stays mutated. *)
Definition M (A : Type) : Type := store -> result A * store.

Definition ret {A} (a : A) : M A := fun s => (Ok a, s).

Definition bind {A B} (m : M A) (k : A -> M B) : M B :=
  fun s =>
    match m s with
    | (Ok a, s') => k a s'
    | (Raise e, s') => (Raise e, s')
    end.

Definition lift {A} (r : result A) : M A := fun s => (r, s).

(** A new object, at the next free reference. *)
Definition alloc (o : obj) : M loc := fun s => (Ok (length s), s ++ [o]).

(** Overwrite the object behind a reference. *)
Definition put (l : loc) (o : obj) : M unit :=
  fun s => (Ok tt, <[l := o]> s).

(** The array behind [l]. The scaler is embedded for NumPy arrays: on
    any other object the call is cut short with a [TypeError]. *)
Definition get_ndarray (l : loc) : M ndarray :=
  fun s =>
    match s !! l with
    | Some (ONdarray a) => (Ok a, s)
    | _ => (Raise TypeError, s)
    end.

(** The frame behind [l]. The Titanic transformers are embedded for
    pandas frames: on any other object the call is cut short with a
    [TypeError]. *)
Definition get_frame (l : loc) : M DataFrame :=
  fun s =>
    match s !! l with
    | Some (OFrame d) => (Ok d, s)
    | _ => (Raise TypeError, s)
    end.

(** Reading an attribute: [AttributeError] while it is not set. *)
Definition attr {A} (a : option A) : M A :=
  match a with
  | Some v => ret v
  | None => lift (Raise AttributeError)
  end.

(** A [for] loop that rebinds one variable of the enclosing scope. *)
Fixpoint for_each {A S} (xs : list A) (body : S -> A -> M S) (s : S)
    : M S :=
  match xs with
  | [] => ret s
  | x :: xs' => bind (body s x) (for_each xs' body)
  end.

End Heap.

Declare Scope py_scope.
Delimit Scope py_scope with py.
Notation "'let*' x := m 'in' k" := (Heap.bind m (fun x => k))
  (at level 10, x name, m at level 100, k at level 200) : py_scope.
Notation "m ;; k" := (Heap.bind m (fun _ => k))
  (at level 100, k at level 200, right associativity) : py_scope.

(** ** The custom transformers of the notebook *)

Module Transformers.
Import Py Numpy Pandas Heap.
Local Open Scope py_scope.

(** The label argument [y] of [fit]: a reference, or Python's [None]. *)
Definition labels : Type := option loc.

(** *** MyScaler *)

Definition MyScaler_attrs (self : loc)
    : M (option (list f64) * option (list f64)) :=
  fun s =>
    match s !! self with
    | Some (OMyScaler m sc) => (Ok (m, sc), s)
    | _ => (Raise TypeError, s)
    end.

(** [def fit(self, X, y)]: [y] has no default. *)
Definition MyScaler_fit (self X : loc) (y : arg labels) : M loc :=
  let* _ := lift (required y) in
  (* self.mean = np.mean(X, axis=0) *)
  let* a := get_ndarray X in
  let* old := MyScaler_attrs self in
  put self (OMyScaler (Some (np_mean a)) old.2) ;;
  (* self.scale = np.std(X, axis=0) *)
  let* a := get_ndarray X in
  let* old := MyScaler_attrs self in
  put self (OMyScaler old.1 (Some (np_std a))) ;;
  ret self.

(** [Xt op= v] on the array behind [Xt]. *)
Definition inplace (op : f64 -> f64 -> f64) (Xt : loc) (v : list f64)
    : M unit :=
  let* a := get_ndarray Xt in
  let* a' := lift (broadcast_inplace op a v) in
  put Xt (ONdarray a').

Definition MyScaler_transform (self X : loc) : M loc :=
  (* Xt = X.copy() *)
  let* a := get_ndarray X in
  let* Xt := alloc (ONdarray a) in
  (* Xt -= self.mean *)
  let* at1 := MyScaler_attrs self in
  let* mean := attr at1.1 in
  inplace fsub Xt mean ;;
  (* Xt /= self.scale *)
  let* at2 := MyScaler_attrs self in
  let* scale := attr at2.2 in
  inplace fdiv Xt scale ;;
  ret Xt.

(** *** CustomSelector *)

(** [def __init__(self, categorical=True)] *)
Definition CustomSelector_new (categorical : arg bool) : M loc :=
  alloc (OCustomSelector (with_default true categorical)).

(** [def fit(self, X, y=None): return self] *)
Definition CustomSelector_fit (self X : loc) (y : arg labels) : M loc :=
  let _ := with_default None y in
  ret self.

Definition CustomSelector_categorical (self : loc) : M bool :=
  fun s =>
    match s !! self with
    | Some (OCustomSelector c) => (Ok c, s)
    | _ => (Raise TypeError, s)
    end.

Definition CustomSelector_transform (self X : loc) : M loc :=
  let* c := CustomSelector_categorical self in
  let* d := get_frame X in
  if c : bool then
    let* r := lift (getitem_cols ["Sex"; "Embarked"; "Pclass"] d) in
    alloc (OFrame r)
  else
    let* r := lift (getitem_cols ["Fare"; "Age"; "SibSp"; "Parch"] d) in
    alloc (OFrame r).

(** *** CustomCategoricalImputer *)

Definition CustomCategoricalImputer_fill (self : loc)
    : M (option (Series colname)) :=
  fun s =>
    match s !! self with
    | Some (OCustomCategoricalImputer f) => (Ok f, s)
    | _ => (Raise TypeError, s)
    end.

Definition CustomCategoricalImputer_fit (self X : loc) (y : arg labels)
    : M loc :=
  let _ := with_default None y in
  (* self.fill = X.mode().iloc[0] *)
  let* d := get_frame X in
  let* row := lift (iloc0 (DataFrame_mode d)) in
  let* _ := CustomCategoricalImputer_fill self in
  put self (OCustomCategoricalImputer (Some row)) ;;
  ret self.

Definition CustomCategoricalImputer_transform (self X : loc) : M loc :=
  (* return X.fillna(self.fill) *)
  let* d := get_frame X in
  let* f := CustomCategoricalImputer_fill self in
  let* fill := attr f in
  alloc (OFrame (DataFrame_fillna fill d)).

(** *** CustomCategoricalEncoder *)

(** [def fit(self, X, y=None): return self] *)
Definition CustomCategoricalEncoder_fit (self X : loc) (y : arg labels)
    : M loc :=
  let _ := with_default None y in
  ret self.

(** One turn of the loop; [X] is the local variable, rebound to the
    concatenated frame before the in-place [drop]. *)
Definition encode_column (X : loc) (col : string) : M loc :=
  (* X = pd.concat([X, pd.get_dummies(X[col], prefix=col,
                                      drop_first=True)], axis=1) *)
  let* d := get_frame X in
  let* s := lift (getitem col d) in
  let* X' := alloc (OFrame (concat_axis1 d (get_dummies col (index d) s))) in
  (* X.drop(col, inplace=True, axis=1) *)
  let* d' := get_frame X' in
  let* d'' := lift (drop col d') in
  put X' (OFrame d'') ;;
  ret X'.

Definition CustomCategoricalEncoder_transform (self X : loc) : M loc :=
  for_each ["Sex"; "Embarked"; "Pclass"] encode_column X.

(** The four transformer classes, and their methods by class. *)
Inductive transformer : Type :=
| MyScaler
| CustomSelector
| CustomCategoricalImputer
| CustomCategoricalEncoder.

Definition fit (t : transformer) : loc -> loc -> arg labels -> M loc :=
  match t with
  | MyScaler => MyScaler_fit
  | CustomSelector => CustomSelector_fit
  | CustomCategoricalImputer => CustomCategoricalImputer_fit
  | CustomCategoricalEncoder => CustomCategoricalEncoder_fit
  end.

Definition transform (t : transformer) : loc -> loc -> M loc :=
  match t with
  | MyScaler => MyScaler_transform
  | CustomSelector => CustomSelector_transform
  | CustomCategoricalImputer => CustomCategoricalImputer_transform
  | CustomCategoricalEncoder => CustomCategoricalEncoder_transform
  end.

End Transformers.

(** ** The manual Titanic preprocessing: the imputation block *)

Module ManualTitanic.
Import Py Pandas.

(** The two frames the cell keeps in [X_train] and [X_test]. *)
Record frames : Type := mkFrames {
  X_train : DataFrame;
  X_test : DataFrame
}.

(** [target[col].fillna(source[col].median(), inplace=True)]. The
    receiver [target[col]] is the frame's own column, so the in-place
    fill shows in [target] (the cell silences pandas' chained-assignment
    warning for this idiom). *)
Definition fillna_median (col : string) (target source : DataFrame)
    : result DataFrame :=
  rbind (getitem col target) (fun s =>
  rbind (getitem col source) (fun t =>
  rbind (median t) (fun m =>
  Ok (mkFrame (index target)
        (setcol (Name col) (fillna_scalar m s) (columns target)))))).

(** [target[col].fillna(source[col].mode(), inplace=True)]: the fill
    value is the Series [mode()] returns. *)
Definition fillna_mode (col : string) (target source : DataFrame)
    : result DataFrame :=
  rbind (getitem col target) (fun s =>
  rbind (getitem col source) (fun t =>
  Ok (mkFrame (index target)
        (setcol (Name col)
           (fillna_aligned (index target) (Series_mode t) s)
           (columns target))))).

(** The three fills of [X_train]. *)
Definition impute_train (f : frames) : result frames :=
  rbind (fillna_median "Fare" (X_train f) (X_test f)) (fun tr1 =>
  rbind (fillna_median "Age" tr1 (X_test f)) (fun tr2 =>
  rbind (fillna_mode "Embarked" tr2 (X_test f)) (fun tr3 =>
  Ok (mkFrames tr3 (X_test f))))).

(** The three fills of [X_test]. *)
Definition impute_test (f : frames) : result frames :=
  rbind (fillna_median "Fare" (X_test f) (X_test f)) (fun te1 =>
  rbind (fillna_median "Age" te1 te1) (fun te2 =>
  rbind (fillna_mode "Embarked" te2 te2) (fun te3 =>
  Ok (mkFrames (X_train f) te3)))).

(** The block "Impute missing values" of the cell. *)
Definition impute (f : frames) : result frames :=
  rbind (impute_train f) impute_test.

(** The cell at row [i] of the column named [col]. *)
Definition at_row (col : string) (i : nat) (X : DataFrame) : option cell :=
  s ← assoc (Name col) (columns X); s !! i.

(** The frame has a column named [col] whose cells are numbers or
    missing. *)
Definition numeric_column (col : string) (X : DataFrame) : Prop :=
  exists s, assoc (Name col) (columns X) = Some s /\
            Forall (fun x : cell => forall v, x = Some v -> num v <> None) s.

Definition has_column (col : string) (X : DataFrame) : Prop :=
  exists s, assoc (Name col) (columns X) = Some s.

End ManualTitanic.

(** ** The cells as programs over the libraries

    The control flow of the code cells and of the methods they define,
    with every library or interpreter operation left as a call whose
    behaviour is a parameter. *)

Module Notebook.

(** Python values as the cells handle them. *)
Inductive pyval : Type :=
| PNone
| PBool (b : bool)
| PInt (z : Z)
| PStr (s : string)
| PList (l : list pyval)
| PTuple (l : list pyval)
| PDict (d : list (string * pyval))
| PName (s : string)
| PObj (n : nat).

(** How a call ends: with a value, or with a raised exception object. *)
Inductive outcome : Type :=
| Returned (v : pyval)
| Raised (e : pyval).

(** A program: return; call an operation and go on with its value; or
    [try: body / except e: handler], then go on. *)
Inductive prog : Type :=
| Ret (v : pyval)
| Call (f : string) (args : list pyval) (kwargs : list (string * pyval))
       (k : pyval -> prog)
| Try (body : prog) (handler : pyval -> prog) (k : pyval -> prog).

(** The operations: together with the state of the world (files, the
    objects, the random generators) they decide every call. *)
Definition library (world : Type) : Type :=
  world -> string -> list pyval -> list (string * pyval) -> outcome * world.

Fixpoint run {world} (lib : library world) (w : world) (p : prog)
    : outcome * world :=
  match p with
  | Ret v => (Returned v, w)
  | Call f args kwargs k =>
      match lib w f args kwargs with
      | (Returned v, w') => run lib w' (k v)
      | (Raised e, w') => (Raised e, w')
      end
  | Try body handler k =>
      match run lib w body with
      | (Returned v, w') => run lib w' (k v)
      | (Raised e, w') =>
          match run lib w' (handler e) with
          | (Returned v, w'') => run lib w'' (k v)
          | (Raised e', w'') => (Raised e', w'')
          end
      end
  end.

(** An operation reached while running [p] from [w] raises [e]. *)
Inductive raises {world} (lib : library world)
    : world -> prog -> pyval -> Prop :=
| raises_call w f args kwargs k e w' :
    lib w f args kwargs = (Raised e, w') ->
    raises lib w (Call f args kwargs k) e
| raises_next w f args kwargs k v w' e :
    lib w f args kwargs = (Returned v, w') ->
    raises lib w' (k v) e ->
    raises lib w (Call f args kwargs k) e
| raises_body w body handler k e :
    raises lib w body e ->
    raises lib w (Try body handler k) e
| raises_handler w body handler k e0 w' e :
    run lib w body = (Raised e0, w') ->
    raises lib w' (handler e0) e ->
    raises lib w (Try body handler k) e
| raises_after w body handler k v w' e :
    run lib w body = (Returned v, w') ->
    raises lib w' (k v) e ->
    raises lib w (Try body handler k) e.

(** No [try] anywhere in the program. *)
Fixpoint handler_free (p : prog) : Prop :=
  match p with
  | Ret _ => True
  | Call _ _ _ k => forall v, handler_free (k v)
  | Try _ _ _ => False
  end.

Declare Scope cell_scope.
Delimit Scope cell_scope with cell.
Notation "'py' x := f a kw 'in' k" := (Call f a kw (fun x => k))
  (at level 10, x name, f at level 0, a at level 0, kw at level 0,
   k at level 200) : cell_scope.
Local Open Scope cell_scope.

Definition strs (l : list string) : pyval := PList (map PStr l).

(** Component [i] of an unpacked tuple. *)
Definition item (i : nat) (t : pyval) : pyval :=
  match t with
  | PTuple l | PList l => nth i l PNone
  | _ => PNone
  end.

(** A [for] loop over names that rebinds variables of the cell. *)
Fixpoint for_names {S} (xs : list string)
    (body : string -> S -> (S -> prog) -> prog) (s : S) (k : S -> prog)
    : prog :=
  match xs with
  | [] => k s
  | x :: xs' => body x s (fun s' => for_names xs' body s' k)
  end.

(** *** The first pipeline example *)

Definition intro_cell : prog :=
  py _ := "import" [PStr "sklearn.pipeline"; strs ["Pipeline"]] [] in
  py _ := "import" [PStr "sklearn.model_selection";
                    strs ["train_test_split"]] [] in
  py _ := "import" [PStr "sklearn.preprocessing";
                    strs ["StandardScaler"; "Imputer"]] [] in
  py _ := "import" [PStr "sklearn.linear_model";
                    strs ["LogisticRegression"]] [] in
  py _ := "import" [PStr "sklearn.datasets";
                    strs ["make_classification"]] [] in
  py imputer := "Imputer" [] [("strategy", PStr "median")] in
  py scaler := "StandardScaler" [] [] in
  py model := "LogisticRegression" [] [] in
  py pipeline := "Pipeline"
      [PList [PTuple [PStr "imputer"; imputer];
              PTuple [PStr "std_scaler"; scaler];
              PTuple [PStr "logistic_model"; model]]] [] in
  py data := "make_classification" []
      [("n_features", PInt 2); ("n_redundant", PInt 0);
       ("n_informative", PInt 2); ("n_clusters_per_class", PInt 1)] in
  py Xy := "unpack" [data; PInt 2] [] in
  py sp := "train_test_split" [item 0 Xy; item 1 Xy] [] in
  py parts := "unpack" [sp; PInt 4] [] in
  py _ := "fit" [pipeline; item 0 parts; item 2 parts] [] in
  py y_pred := "predict" [pipeline; item 1 parts] [] in
  py _ := "print" [y_pred] [] in
  Ret PNone.

(** *** The FeatureUnion example *)

Definition feat_union_cell : prog :=
  py _ := "import" [PStr "numpy"] [] in
  py _ := "import" [PStr "sklearn.preprocessing";
                    strs ["FunctionTransformer"]] [] in
  py _ := "import" [PStr "sklearn.pipeline"; strs ["FeatureUnion"]] [] in
  py X := "np.random.random" [PTuple [PInt 5; PInt 1]] [] in
  py t1 := "FunctionTransformer" [] [] in
  py t2 := "FunctionTransformer" [PName "np.sqrt"] [] in
  py t3 := "FunctionTransformer" [PName "lambda x: x**2"] [] in
  py feat_union := "FeatureUnion"
      [PList [PTuple [PStr "identity"; t1];
              PTuple [PStr "sqrt"; t2];
              PTuple [PStr "square"; t3]]] [] in
  py out := "fit_transform" [feat_union; X] [] in
  py _ := "print" [out] [] in
  Ret PNone.

(** *** The methods of the custom transformers *)

Definition MyScaler_fit (self X y : pyval) : prog :=
  py m := "np.mean" [X] [("axis", PInt 0)] in
  py _ := "setattr" [self; PStr "mean"; m] [] in
  py s := "np.std" [X] [("axis", PInt 0)] in
  py _ := "setattr" [self; PStr "scale"; s] [] in
  Ret self.

Definition MyScaler_transform (self X : pyval) : prog :=
  py Xt := "copy" [X] [] in
  py m := "getattr" [self; PStr "mean"] [] in
  py Xt := "isub" [Xt; m] [] in
  py s := "getattr" [self; PStr "scale"] [] in
  py Xt := "itruediv" [Xt; s] [] in
  Ret Xt.

Definition CustomSelector_init (self categorical : pyval) : prog :=
  py _ := "setattr" [self; PStr "categorical"; categorical] [] in
  Ret PNone.

Definition CustomSelector_fit (self X y : pyval) : prog := Ret self.

Definition CustomSelector_transform (self X : pyval) : prog :=
  py c := "getattr" [self; PStr "categorical"] [] in
  py b := "bool" [c] [] in
  match b with
  | PBool true =>
      py r := "getitem" [X; strs ["Sex"; "Embarked"; "Pclass"]] [] in
      Ret r
  | _ =>
      py r := "getitem" [X; strs ["Fare"; "Age"; "SibSp"; "Parch"]] [] in
      Ret r
  end.

Definition CustomCategoricalImputer_fit (self X y : pyval) : prog :=
  py m := "mode" [X] [] in
  py il := "getattr" [m; PStr "iloc"] [] in
  py row := "getitem" [il; PInt 0] [] in
  py _ := "setattr" [self; PStr "fill"; row] [] in
  Ret self.

Definition CustomCategoricalImputer_transform (self X : pyval) : prog :=
  py f := "getattr" [self; PStr "fill"] [] in
  py r := "fillna" [X; f] [] in
  Ret r.

Definition CustomCategoricalEncoder_fit (self X y : pyval) : prog :=
  Ret self.

(** One turn of the one-hot loop on the frame [X]. *)
Definition one_hot (col : string) (X : pyval) (k : pyval -> prog) : prog :=
  py s := "getitem" [X; PStr col] [] in
  py d := "pd.get_dummies" [s]
      [("prefix", PStr col); ("drop_first", PBool true)] in
  py X := "pd.concat" [PList [X; d]] [("axis", PInt 1)] in
  py _ := "drop" [X; PStr col] [("inplace", PBool true); ("axis", PInt 1)] in
  k X.

Definition CustomCategoricalEncoder_transform (self X : pyval) : prog :=
  for_names ["Sex"; "Embarked"; "Pclass"] one_hot X Ret.

(** *** The Titanic cells *)

Definition titanic_columns : list string :=
  ["Sex"; "Embarked"; "Pclass"; "Fare"; "Age"; "SibSp"; "Parch"; "Survived"].

(** Loading the table and splitting it; the same five statements open
    both Titanic cells. [k] receives [X_train, X_test, y_train, y_test]. *)
Definition load_and_split (k : pyval -> prog) : prog :=
  py df := "pd.read_csv" [PStr "../data/titanic.csv"] [] in
  py df_features := "getitem" [df; strs titanic_columns] [] in
  py y := "pop" [df_features; PStr "Survived"] [] in
  py sp := "train_test_split" [df_features; y]
      [("stratify", y); ("random_state", PInt 0)] in
  py parts := "unpack" [sp; PInt 4] [] in
  k parts.

(** [target[col].fillna(source[col].stat(), inplace=True)] *)
Definition fill_with (stat col : string) (target source : pyval)
    (k : prog) : prog :=
  py s := "getitem" [target; PStr col] [] in
  py t := "getitem" [source; PStr col] [] in
  py v := stat [t] [] in
  py _ := "fillna" [s; v] [("inplace", PBool true)] in
  k.

(** [X[features] = scaler.transform(X[features])] *)
Definition rescale (scaler features X : pyval) (k : prog) : prog :=
  py a := "getitem" [X; features] [] in
  py b := "transform" [scaler; a] [] in
  py _ := "setitem" [X; features; b] [] in
  k.

(** The hyperparameter grid; [prefix] is empty in the manual cell and
    [rf__] in the pipeline cell. *)
Definition param_grid (prefix : string) (k : pyval -> prog) : prog :=
  py r1 := "np.arange" [PInt 1; PInt 9; PInt 1] [] in
  py r2 := "np.arange" [PInt 2; PInt 100; PInt 10] [] in
  py r3 := "np.arange" [PInt 2; PInt 100; PInt 100] [] in
  k (PDict [ (prefix +:+ "max_depth", PList [PNone]);
             (prefix +:+ "max_features", r1);
             (prefix +:+ "min_samples_split", r2);
             (prefix +:+ "min_samples_leaf", r3);
             (prefix +:+ "bootstrap", PList [PBool true; PBool false]);
             (prefix +:+ "n_estimators",
              PList [PInt 100; PInt 200; PInt 300]);
             (prefix +:+ "criterion", PList [PStr "gini"]) ]).

(** Fitting the search, predicting, printing the accuracy. *)
Definition fit_and_score (g X_train y_train X_test y_test : pyval) : prog :=
  py _ := "fit" [g; X_train; y_train] [] in
  py y_pred := "predict" [g; X_test] [] in
  py acc := "accuracy_score" [y_test; y_pred] [] in
  py _ := "print" [PStr "Final Model Accuracy: "; acc] [] in
  Ret PNone.

(** "The Non-Pipeline Way". *)
Definition manual_cell : prog :=
  py _ := "import" [PStr "numpy"] [] in
  py _ := "import" [PStr "pandas"] [] in
  py _ := "import" [PStr "sklearn.model_selection";
                    strs ["train_test_split"; "GridSearchCV"]] [] in
  py _ := "import" [PStr "sklearn.preprocessing";
                    strs ["StandardScaler"]] [] in
  py _ := "import" [PStr "sklearn.ensemble";
                    strs ["RandomForestClassifier"]] [] in
  py _ := "import" [PStr "sklearn.metrics"; strs ["accuracy_score"]] [] in
  py _ := "setattr" [PName "pd.options.mode"; PStr "chained_assignment";
                     PNone] [] in
  load_and_split (fun parts =>
  let X_train := item 0 parts in
  let X_test := item 1 parts in
  let y_train := item 2 parts in
  let y_test := item 3 parts in
  fill_with "median" "Fare" X_train X_test (
  fill_with "median" "Age" X_train X_test (
  fill_with "mode" "Embarked" X_train X_test (
  fill_with "median" "Fare" X_test X_test (
  fill_with "median" "Age" X_test X_test (
  fill_with "mode" "Embarked" X_test X_test (
  for_names ["Sex"; "Embarked"; "Pclass"]
    (fun col (Xs : pyval * pyval) k =>
       one_hot col Xs.1 (fun X_train =>
       one_hot col Xs.2 (fun X_test => k (X_train, X_test))))
    (X_train, X_test)
    (fun Xs =>
  let X_train := Xs.1 in
  let X_test := Xs.2 in
  let features_to_scale := strs ["Fare"; "Age"; "SibSp"; "Parch"] in
  py scaler := "StandardScaler" [] [] in
  py a := "getitem" [X_train; features_to_scale] [] in
  py _ := "fit" [scaler; a] [] in
  rescale scaler features_to_scale X_train (
  rescale scaler features_to_scale X_test (
  param_grid EmptyString (fun random_forest_param_list =>
  py rf := "RandomForestClassifier" [] [] in
  py g := "GridSearchCV" [rf; random_forest_param_list]
      [("scoring", PStr "accuracy"); ("cv", PInt 3);
       ("n_jobs", PInt (-1))] in
  fit_and_score g X_train y_train X_test y_test))))))))))).

(** A [class] statement: the class object is built from its name, its
    bases and its methods. *)
Definition class_def (name : string) (methods : list string) (k : prog)
    : prog :=
  py _ := "class" [PStr name;
                   PTuple [PName "TransformerMixin"; PName "BaseEstimator"];
                   strs methods] [] in
  k.

(** "The Pipeline Way". *)
Definition pipeline_cell : prog :=
  py _ := "import" [PStr "numpy"] [] in
  py _ := "import" [PStr "pandas"] [] in
  py _ := "import" [PStr "sklearn.pipeline";
                    strs ["Pipeline"; "FeatureUnion"]] [] in
  py _ := "import" [PStr "sklearn.base";
                    strs ["BaseEstimator"; "TransformerMixin"]] [] in
  py _ := "import" [PStr "sklearn.model_selection";
                    strs ["train_test_split"; "GridSearchCV"]] [] in
  py _ := "import" [PStr "sklearn.preprocessing";
                    strs ["Imputer"; "StandardScaler"]] [] in
  py _ := "import" [PStr "sklearn.ensemble";
                    strs ["RandomForestClassifier"]] [] in
  py _ := "import" [PStr "sklearn.metrics"; strs ["accuracy_score"]] [] in
  class_def "CustomSelector" ["__init__"; "fit"; "transform"] (
  class_def "CustomCategoricalImputer" ["fit"; "transform"] (
  class_def "CustomCategoricalEncoder" ["fit"; "transform"] (
  load_and_split (fun parts =>
  let X_train := item 0 parts in
  let X_test := item 1 parts in
  let y_train := item 2 parts in
  let y_test := item 3 parts in
  py sel_num := "CustomSelector" [] [("categorical", PBool false)] in
  py imp_num := "Imputer" [] [("strategy", PStr "median")] in
  py scaler := "StandardScaler" [] [] in
  py num_pipeline := "Pipeline"
      [PList [PTuple [PStr "selector"; sel_num];
              PTuple [PStr "imputer"; imp_num];
              PTuple [PStr "scaler"; scaler]]] [] in
  py sel_cat := "CustomSelector" [] [("categorical", PBool true)] in
  py imp_cat := "CustomCategoricalImputer" [] [] in
  py enc := "CustomCategoricalEncoder" [] [] in
  py cat_pipeline := "Pipeline"
      [PList [PTuple [PStr "selector"; sel_cat];
              PTuple [PStr "imputer"; imp_cat];
              PTuple [PStr "cat_encoder"; enc]]] [] in
  py union := "FeatureUnion" []
      [("transformer_list",
        PList [PTuple [PStr "num_pipeline"; num_pipeline];
               PTuple [PStr "cat_pipeline"; cat_pipeline]])] in
  py rf := "RandomForestClassifier" [] [] in
  py full_pipeline := "Pipeline"
      [PList [PTuple [PStr "feat_union"; union];
              PTuple [PStr "rf"; rf]]] [] in
  param_grid "rf__" (fun random_forest_param_list =>
  py grid := "GridSearchCV" [full_pipeline]
      [("param_grid", random_forest_param_list);
       ("scoring", PStr "accuracy"); ("cv", PInt 3);
       ("n_jobs", PInt (-1))] in
  fit_and_score grid X_train y_train X_test y_test))))).

(** The code of the notebook: its cells, and the methods of its classes
    on any arguments. *)
Inductive notebook_code : prog -> Prop :=
| code_intro_cell : notebook_code intro_cell
| code_feat_union_cell : notebook_code feat_union_cell
| code_manual_cell : notebook_code manual_cell
| code_pipeline_cell : notebook_code pipeline_cell
| code_MyScaler_fit self X y : notebook_code (MyScaler_fit self X y)
| code_MyScaler_transform self X :
    notebook_code (MyScaler_transform self X)
| code_CustomSelector_init self c :
    notebook_code (CustomSelector_init self c)
| code_CustomSelector_fit self X y :
    notebook_code (CustomSelector_fit self X y)
| code_CustomSelector_transform self X :
    notebook_code (CustomSelector_transform self X)
| code_CustomCategoricalImputer_fit self X y :
    notebook_code (CustomCategoricalImputer_fit self X y)
| code_CustomCategoricalImputer_transform self X :
    notebook_code (CustomCategoricalImputer_transform self X)
| code_CustomCategoricalEncoder_fit self X y :
    notebook_code (CustomCategoricalEncoder_fit self X y)
| code_CustomCategoricalEncoder_transform self X :
    notebook_code (CustomCategoricalEncoder_transform self X).

End Notebook.

(** ** Notions the statements use *)

Module Stats.
Import Numpy.
Local Open Scope R_scope.

(** A dataset of real numbers, column by column, as a float array. *)
Definition dataset (cols : list (list R)) : ndarray := map (map Fin) cols.





(** What [MyScaler.transform] makes of the column [c] once [fit] has
    seen the column [c0]. *)
Definition scaled (c0 c : list f64) : list f64 :=
  map (fun x => fdiv x (std1 c0)) (map (fun x => fsub x (mean1 c0)) c).

(** The row [CustomCategoricalImputer.fit] stores: for every column its
    first mode, or NaN when the column has none. *)
Definition first_modes (d : Pandas.DataFrame) : Pandas.Series Pandas.colname :=
  map (fun p => (p.1, head (Pandas.mode1 p.2))) (Pandas.columns d).

End Stats.

(** ** What the contracts talk about *)

Module Contracts.
Import Py Numpy Pandas Heap Transformers.

(** No cell of the frame holds a value: every column is empty or all
    NaN. *)
Definition all_missing (d : DataFrame) : Prop :=
  Forall (fun p => present p.2 = []) (columns d).

(** The inputs on which [fit] is stated to return: none are excluded for
    [CustomSelector] and [CustomCategoricalEncoder]; the imputer wants a
    frame with a value in it; the scaler wants an array and its label
    argument. *)
Definition fit_returns (t : transformer) (s : store) (self X : loc)
    (y : arg labels) : Prop :=
  match t with
  | CustomSelector | CustomCategoricalEncoder => True
  | CustomCategoricalImputer =>
      exists d f, s !! X = Some (OFrame d) /\
                  s !! self = Some (OCustomCategoricalImputer f) /\
                  ~ all_missing d
  | MyScaler =>
      exists a m sc lbl, s !! X = Some (ONdarray a) /\
                         s !! self = Some (OMyScaler m sc) /\
                         y = Passed lbl
  end.

(** Arrays and frames are the tables. *)
Definition is_table (o : obj) : Prop :=
  match o with
  | ONdarray _ | OFrame _ => True
  | _ => False
  end.

(** What every [transform] guarantees from the store [s] on: the
    objects of [s] are all still there, unchanged, and a returned
    reference is a new one, to a table. *)
Definition framed (s : store) (r : result loc * store) : Prop :=
  s `prefix_of` r.2 /\
  forall Xt, r.1 = Ok Xt ->
    length s <= Xt /\ exists o, r.2 !! Xt = Some o /\ is_table o.

(** A split of the Titanic table as the manual cell needs it: the
    training frame has the three imputed columns, and so has the test
    frame, whose fares and ages are numbers. *)
Definition titanic_split (f : ManualTitanic.frames) : Prop :=
  ManualTitanic.has_column "Fare" (ManualTitanic.X_train f) /\
  ManualTitanic.has_column "Age" (ManualTitanic.X_train f) /\
  ManualTitanic.has_column "Embarked" (ManualTitanic.X_train f) /\
  ManualTitanic.numeric_column "Fare" (ManualTitanic.X_test f) /\
  ManualTitanic.numeric_column "Age" (ManualTitanic.X_test f) /\
  ManualTitanic.has_column "Embarked" (ManualTitanic.X_test f).

(** [X[col].stat()] on the frame [X]. *)
Definition column_median (col : string) (X : DataFrame) : result cell :=
  rbind (getitem col X) median.

(** The sorted modes of [X[col]]; none if there is no such column. *)
Definition column_modes (col : string) (X : DataFrame) : list value :=
  match assoc (Name col) (columns X) with
  | Some s => mode1 s
  | None => []
  end.

(** The value [s.mode()] carries at the row label [l]: the modes are
    labelled [0, 1, ...]. *)
Definition mode_at (modes : list value) (l : Z) : cell :=
  if decide (0 <= l)%Z then modes !! Z.to_nat l else None.

(** A 1-D array that broadcasts against the columns of [a]. *)
Definition broadcastable (v : list f64) (a : list (list f64)) : Prop :=
  length v = length a \/ length v = 1%nat.

(** The inputs a [transform] is written for: a fitted scaler and an
    array its statistics broadcast against; a frame with the columns the
    selector or the encoder reads; a fitted imputer and a frame. *)
Definition transform_defined (t : transformer) (s : store) (self X : loc)
    : Prop :=
  match t with
  | MyScaler =>
      exists a m sc, s !! X = Some (ONdarray a) /\
                     s !! self = Some (OMyScaler (Some m) (Some sc)) /\
                     broadcastable m a /\ broadcastable sc a
  | CustomSelector =>
      exists d c, s !! X = Some (OFrame d) /\
                  s !! self = Some (OCustomSelector c) /\
                  Forall (fun n => ManualTitanic.has_column n d)
                         (if c : bool then ["Sex"; "Embarked"; "Pclass"]
                          else ["Fare"; "Age"; "SibSp"; "Parch"])
  | CustomCategoricalImputer =>
      exists d fill, s !! X = Some (OFrame d) /\
                     s !! self = Some (OCustomCategoricalImputer (Some fill))
  | CustomCategoricalEncoder =>
      exists d, s !! X = Some (OFrame d) /\
                Forall (fun n => ManualTitanic.has_column n d)
                       ["Sex"; "Embarked"; "Pclass"]
  end.

(** The frame one turn of the encoder's loop leaves behind: the
    indicator columns of [col] appended, the column [col] dropped. *)
Definition encoded (col : string) (d : DataFrame) (c : list cell)
    : DataFrame :=
  mkFrame (index d)
    (List.filter (fun p => negb (bool_decide (p.1 = Name col)))
       (columns d ++ columns (get_dummies col (index d) c))).

End Contracts.

(** ** Concrete inputs *)

Module Examples.
Import Py Numpy Pandas Heap Transformers Stats.
Local Open Scope R_scope.

(** One feature with the values 1 and 3. *)
Definition two_values : list (list R) := [[1; 3]].


(** A store with an array at reference 0 and a fresh [MyScaler] at 1. *)
Definition scaler_store (cols : list (list R)) : store :=
  [ONdarray (dataset cols); OMyScaler None None].

(** A table without rows. *)
Definition no_rows : DataFrame :=
  mkFrame [] [(Name "Sex", []); (Name "Embarked", []); (Name "Pclass", [])].

(** Three passengers; one port and one class are not recorded. *)
Definition passengers : DataFrame :=
  mkFrame [5; 0; 7]%Z
    [ (Name "Sex",
       [Some (VStr "male"); Some (VStr "female"); Some (VStr "male")]);
      (Name "Embarked", [None; Some (VStr "S"); Some (VStr "C")]);
      (Name "Pclass", [Some (VInt 3); Some (VInt 1); None]) ].

(** One passenger whose port is not recorded. *)
Definition port_unknown : DataFrame :=
  mkFrame [0]%Z
    [ (Name "Sex", [Some (VStr "male")]); (Name "Embarked", [None]) ].

(** A store with a frame at reference 0 and a fresh imputer at 1. *)
Definition imputer_store (d : DataFrame) : store :=
  [OFrame d; OCustomCategoricalImputer None].

(** A training frame and a test frame of two passengers each; the
    training rows carry the labels 0 and 3. *)
Definition small_split : ManualTitanic.frames :=
  ManualTitanic.mkFrames
    (mkFrame [0; 3]%Z
       [ (Name "Fare", [None; Some (VFloat (71 # 10))]);
         (Name "Age", [Some (VFloat 22); None]);
         (Name "Embarked", [None; None]) ])
    (mkFrame [1; 2]%Z
       [ (Name "Fare", [Some (VFloat 8); Some (VFloat 10)]);
         (Name "Age", [None; Some (VFloat 30)]);
         (Name "Embarked", [Some (VStr "S"); None]) ]).

(** A library in which the data file is not there: [pd.read_csv]
    raises, every other operation returns [None]. The world has no
    state. *)
Definition no_data_file : Notebook.library unit :=
  fun w f args kwargs =>
    if String.eqb f "pd.read_csv"
    then (Notebook.Raised (Notebook.PName "FileNotFoundError"), w)
    else (Notebook.Returned Notebook.PNone, w).

(** Reading the file under [try], with a handler that gives [None]. *)
Definition guarded_read : Notebook.prog :=
  Notebook.Try
    (Notebook.Call "pd.read_csv" [Notebook.PStr "../data/titanic.csv"] []
       Notebook.Ret)
    (fun _ => Notebook.Ret Notebook.PNone)
    Notebook.Ret.

End Examples.

(** ** TransformerMixin and Pipeline over the notebook's transformers *)

Module Mixin.
Import Py Numpy Pandas Heap Transformers.
Local Open Scope py_scope.

(** [TransformerMixin.fit_transform(X, y=None)], which the four classes
    inherit: [self.fit(X).transform(X)] when [y] is [None], and
    [self.fit(X, y).transform(X)] otherwise. *)
Definition fit_transform (t : transformer) (self X : loc) (y : labels)
    : M loc :=
  let* fitted := match y with
                 | None => fit t self X Omitted
                 | Some _ => fit t self X (Passed y)
                 end in
  transform t fitted X.

(** The steps of a [Pipeline] of transformers: name, class, instance. *)
Abbreviation steps := (list (string * transformer * loc)) (only parsing).

(** [Pipeline.fit_transform(X, y)]: every step is fitted on the output
    of the steps before it and applied to it. *)
Fixpoint Pipeline_fit_transform (p : steps) (X : loc) (y : labels)
    : M loc :=
  match p with
  | [] => ret X
  | (_, t, self) :: rest =>
      let* Xt := fit_transform t self X y in
      Pipeline_fit_transform rest Xt y
  end.

(** [Pipeline.transform(X)]: the steps applied in turn. *)
Fixpoint Pipeline_transform (p : steps) (X : loc) : M loc :=
  match p with
  | [] => ret X
  | (_, t, self) :: rest =>
      let* Xt := transform t self X in
      Pipeline_transform rest Xt
  end.

(** [cat_pipeline] of the pipeline cell, on its three instances. *)
Definition cat_pipeline (selector imputer cat_encoder : loc) : steps :=
  [ ("selector", CustomSelector, selector);
    ("imputer", CustomCategoricalImputer, imputer);
    ("cat_encoder", CustomCategoricalEncoder, cat_encoder) ].

End Mixin.

(** ** The manual Titanic preprocessing: the one-hot loop *)

Module ManualOneHot.
Import Py Pandas ManualTitanic.

(** The two statements on one frame: [X = pd.concat([X,
    pd.get_dummies(X[col], prefix=col, drop_first=True)], axis=1)] and
    [X.drop(col, inplace=True, axis=1)]. *)
Definition one_hot_column (col : string) (X : DataFrame)
    : result DataFrame :=
  rbind (getitem col X) (fun s =>
  drop col (concat_axis1 X (get_dummies col (index X) s))).

(** One turn of the loop: the training frame, then the test frame. *)
Definition one_hot_step (f : frames) (col : string) : result frames :=
  rbind (one_hot_column col (X_train f)) (fun tr =>
  rbind (one_hot_column col (X_test f)) (fun te =>
  Ok (mkFrames tr te))).

Fixpoint for_columns (cols : list string)
    (body : frames -> string -> result frames) (f : frames)
    : result frames :=
  match cols with
  | [] => Ok f
  | col :: cols' => rbind (body f col) (for_columns cols' body)
  end.

(** The block "One hot encode categorical features" of the cell. *)
Definition one_hot (f : frames) : result frames :=
  for_columns ["Sex"; "Embarked"; "Pclass"] one_hot_step f.

End ManualOneHot.

(** ** The calls a cell makes *)

Module NotebookCalls.
Import Notebook.

(** One call: the operation, its arguments, its keyword arguments. *)
Abbreviation call := (string * list pyval * list (string * pyval))%type
  (only parsing).

(** The calls made while running [p] from [w], in order. *)
Fixpoint trace {world} (lib : library world) (w : world) (p : prog)
    : list call :=
  match p with
  | Ret _ => []
  | Call f args kwargs k =>
      (f, args, kwargs) ::
      match lib w f args kwargs with
      | (Returned v, w') => trace lib w' (k v)
      | (Raised _, _) => []
      end
  | Try body handler k =>
      trace lib w body ++
      match run lib w body with
      | (Returned v, w') => trace lib w' (k v)
      | (Raised e, w') =>
          trace lib w' (handler e) ++
          match run lib w' (handler e) with
          | (Returned v, w'') => trace lib w'' (k v)
          | (Raised _, _) => []
          end
      end
  end.

(** Every call the program can make satisfies [P]. *)
Fixpoint every_call (P : call -> Prop) (p : prog) : Prop :=
  match p with
  | Ret _ => True
  | Call f args kwargs k =>
      P (f, args, kwargs) /\ forall v, every_call P (k v)
  | Try body handler k =>
      every_call P body /\ (forall e, every_call P (handler e)) /\
      forall v, every_call P (k v)
  end.

(** The value a call passes for the keyword [key], if any. *)
Fixpoint keyword (key : string) (kwargs : list (string * pyval))
    : option pyval :=
  match kwargs with
  | [] => None
  | (k, v) :: rest => if String.eqb key k then Some v else keyword key rest
  end.

(** How the Titanic cells seed the library: the split is seeded with 0,
    the forest and the search are built without a [random_state]. *)
Definition titanic_seeding (c : call) : Prop :=
  let '(f, args, kwargs) := c in
  (f = "train_test_split" -> keyword "random_state" kwargs = Some (PInt 0)) /\
  (f = "RandomForestClassifier" -> args = [] /\ kwargs = []) /\
  (f = "GridSearchCV" -> keyword "random_state" kwargs = None).

(** A split that is left to the global random state. *)
Definition unseeded_split (c : call) : Prop :=
  let '(f, args, kwargs) := c in
  f = "train_test_split" -> keyword "random_state" kwargs = None.

End NotebookCalls.

(** ** More notions for the statements *)

Module Shapes.
Import Py Numpy Pandas Heap Transformers.

(** The columns the two selectors and the encoder name. *)
Definition categorical_features : list string :=
  ["Sex"; "Embarked"; "Pclass"].
Definition numerical_features : list string :=
  ["Fare"; "Age"; "SibSp"; "Parch"].

(** The columns of [d] that are not named [Sex], [Embarked] or [Pclass]. *)
Definition other_columns (d : DataFrame) : list (colname * list cell) :=
  List.filter
    (fun p => negb (bool_decide (p.1 ∈ map Name categorical_features)))
    (columns d).

(** The indicator columns of the column [col] of [d]. *)
Definition dummy_columns (col : string) (d : DataFrame)
    : list (colname * list cell) :=
  match assoc (Name col) (columns d) with
  | Some c => columns (get_dummies col (index d) c)
  | None => []
  end.

(** The labels of the columns of a frame, in order. *)
Definition labels_of (d : DataFrame) : list colname := map fst (columns d).

(** No cell of the column is missing. *)
Definition complete (c : list cell) : Prop := Forall (fun x => x <> None) c.

(** A cell that holds the integer 0 or the integer 1. *)
Definition is_bit (x : cell) : Prop :=
  x = Some (VInt 0) \/ x = Some (VInt 1).

(** The column label is a plain name. *)
Definition plain (c : colname) : Prop :=
  match c with Name _ => True | Dummy _ _ => False end.

(** Two values are different categories. *)
Definition apart (a b : value) : Prop := value_eqb a b = false.

(** The frame [X[['Sex', 'Embarked', 'Pclass']]] of a frame whose three
    columns are [cS], [cE] and [cP]. *)
Definition three_columns (idx : list Z) (cS cE cP : list cell)
    : DataFrame :=
  mkFrame idx [(Name "Sex", cS); (Name "Embarked", cE); (Name "Pclass", cP)].

(** The column [col] with its gaps closed by the first mode of the
    column [fitted]. *)
Definition imputed (fitted col : list cell) : list cell :=
  fillna_scalar (head (mode1 fitted)) col.

(** The indicator columns [get_dummies] makes of a column. *)
Definition indicators (prefix : string) (col : list cell)
    : list (colname * list cell) :=
  columns (get_dummies prefix [] col).

End Shapes.

(** ** More concrete inputs *)

Module MoreExamples.
Import Py Numpy Pandas Heap Transformers Stats.
Local Open Scope R_scope.


(** Two features, for a scaler fitted on one. *)
Definition two_features : list (list R) := [[1; 3]; [5; 9]].

(** A feature with a missing measurement. *)
Definition with_nan : list (list f64) := [[Fin 1; NaN; Fin 3]].

(** A store with the array [a] at 0, the array [b] at 1 and a fresh
    [MyScaler] at 2. *)
Definition two_array_store (a b : list (list f64)) : store :=
  [ONdarray a; ONdarray b; OMyScaler None None].

End MoreExamples.

(** ** Inputs for the fitted and unfitted transformers *)

Module FittingExamples.
Import Py Numpy Pandas Heap Transformers Stats.

(** A store with the passengers at 0, a categorical selector at 1, a
    fresh imputer at 2 and an encoder at 3. *)
Definition titanic_store (d : DataFrame) : store :=
  [ OFrame d; OCustomSelector true; OCustomCategoricalImputer None;
    OCustomCategoricalEncoder ].

(** Four passengers with all seven features. *)
Definition four_passengers : DataFrame :=
  mkFrame [0; 1; 2; 3]%Z
    [ (Name "Sex", [Some (VStr "male"); Some (VStr "female");
                    Some (VStr "female"); Some (VStr "male")]);
      (Name "Embarked", [Some (VStr "S"); None;
                         Some (VStr "C"); Some (VStr "S")]);
      (Name "Pclass", [Some (VInt 3); Some (VInt 1);
                       Some (VInt 3); Some (VInt 2)]);
      (Name "Fare", [Some (VFloat (29 # 4)); Some (VFloat 71);
                     None; Some (VFloat 8)]);
      (Name "Age", [Some (VFloat 22); Some (VFloat 38);
                    Some (VFloat 26); None]);
      (Name "SibSp", [Some (VInt 1); Some (VInt 1);
                      Some (VInt 0); Some (VInt 0)]);
      (Name "Parch", [Some (VInt 0); Some (VInt 0);
                      Some (VInt 0); Some (VInt 0)]) ].

(** Two passengers, both men embarked at the same port. *)
Definition two_men : DataFrame :=
  mkFrame [4; 5]%Z
    [ (Name "Sex", [Some (VStr "male"); Some (VStr "male")]);
      (Name "Embarked", [Some (VStr "S"); None]);
      (Name "Pclass", [Some (VInt 3); Some (VInt 1)]) ].

(** A split whose test frame has no passenger of the second class. *)
Definition uneven_split : ManualTitanic.frames :=
  ManualTitanic.mkFrames four_passengers two_men.

End FittingExamples.

(* end of the definitions *)

(** * Properties *)

Import Py Numpy Pandas Sklearn Heap Transformers Stats Contracts.

(** ** Real sums *)

Section RealSums.
Local Open Scope R_scope.










End RealSums.

(** ** NumPy statistics on columns of reals *)

Section FiniteColumns.
Local Open Scope R_scope.

Lemma map_fmap {A B} (f : A -> B) (l : list A) : map f l = f <$> l.
Proof. reflexivity. Qed.












End FiniteColumns.

(** ** A finite deviation comes from finite entries *)

Section FiniteInversion.









End FiniteInversion.

(** ** Running the methods on the store *)

Section StoreSteps.

Lemma get_ndarray_Ok (s : store) (l : loc) (a : ndarray) :
  s !! l = Some (ONdarray a) -> get_ndarray l s = (Ok a, s).
Proof. intros H. unfold get_ndarray. rewrite H. reflexivity. Qed.

Lemma get_frame_Ok (s : store) (l : loc) (d : DataFrame) :
  s !! l = Some (OFrame d) -> get_frame l s = (Ok d, s).
Proof. intros H. unfold get_frame. rewrite H. reflexivity. Qed.

Lemma MyScaler_attrs_Ok (s : store) (l : loc) m sc :
  s !! l = Some (OMyScaler m sc) -> MyScaler_attrs l s = (Ok (m, sc), s).
Proof. intros H. unfold MyScaler_attrs. rewrite H. reflexivity. Qed.

Lemma lookup_snoc_new (s : store) (o : obj) :
  (s ++ [o]) !! length s = Some o.
Proof. apply list_lookup_middle. reflexivity. Qed.

Lemma insert_snoc_new (s : store) (o o' : obj) :
  <[length s := o']> (s ++ [o]) = s ++ [o'].
Proof.
  rewrite insert_app_r_alt by lia. rewrite Nat.sub_diag. reflexivity.
Qed.

Lemma broadcast_inplace_Ok op (X : ndarray) (v : list f64) :
  length v = length X ->
  broadcast_inplace op X v
  = Ok (zip_with (fun c m => map (fun x => op x m) c) X v).
Proof.
  intros H. unfold broadcast_inplace.
  destruct (decide (length v = length X)); [reflexivity|contradiction].
Qed.

(** The two in-place updates of [transform], column by column. *)
Lemma broadcast_twice (a b : ndarray) :
  length b = length a ->
  zip_with (fun c s => map (fun x => fdiv x s) c)
    (zip_with (fun c m => map (fun x => fsub x m) c) b (np_mean a))
    (np_std a)
  = zip_with scaled a b.
Proof.
  revert b. induction a as [|c0 a IH]; intros [|c b] Hlen;
    simpl in *; try reflexivity; try discriminate.
  f_equal. apply IH. lia.
Qed.

(** [fit(X, y)] on an array: the means and deviations of the columns are
    stored, the scaler is returned. *)
Lemma MyScaler_fit_run (s : store) (self X : loc) (y : labels) m0 s0
    (a : ndarray) :
  s !! self = Some (OMyScaler m0 s0) ->
  s !! X = Some (ONdarray a) ->
  MyScaler_fit self X (Passed y) s
  = (Ok self, <[self := OMyScaler (Some (np_mean a)) (Some (np_std a))]> s).
Proof.
  intros Hself HX.
  assert (self < length s) as Hlt by (eapply lookup_lt_Some; eassumption).
  assert (self <> X) as HneX by (intros ->; congruence).
  set (s1 := <[self := OMyScaler (Some (np_mean a)) s0]> s).
  unfold MyScaler_fit, bind, lift, put, ret; simpl.
  rewrite (get_ndarray_Ok s X a HX).
  rewrite (MyScaler_attrs_Ok s self m0 s0 Hself); simpl.
  fold s1.
  rewrite (get_ndarray_Ok s1 X a)
    by (unfold s1; rewrite list_lookup_insert_ne by exact HneX; exact HX).
  rewrite (MyScaler_attrs_Ok s1 self (Some (np_mean a)) s0)
    by (unfold s1; apply list_lookup_insert_eq; exact Hlt).
  simpl. unfold s1. rewrite list_insert_insert_eq.
  reflexivity.
Qed.

(** [fit(X, y)] followed by [transform(X')] on arrays with as many
    columns: the scaler keeps the column means and deviations of [X], the
    result is a new array. *)
Lemma MyScaler_fit_transform_run (s : store) (self X X' : loc)
    (y : labels) m0 s0 (a b : ndarray) :
  s !! self = Some (OMyScaler m0 s0) ->
  s !! X = Some (ONdarray a) ->
  s !! X' = Some (ONdarray b) ->
  length b = length a ->
  bind (MyScaler_fit self X (Passed y))
       (fun fitted => MyScaler_transform fitted X') s
  = (Ok (length s),
     <[self := OMyScaler (Some (np_mean a)) (Some (np_std a))]> s
       ++ [ONdarray (zip_with scaled a b)]).
Proof.
  intros Hself HX HX' Hlen.
  assert (self < length s) as Hlt by (eapply lookup_lt_Some; eassumption).
  assert (self <> X') as HneX' by (intros ->; congruence).
  set (fitted := OMyScaler (Some (np_mean a)) (Some (np_std a))).
  set (s2 := <[self := fitted]> s).
  pose proof (MyScaler_fit_run s self X y m0 s0 a Hself HX) as Hfit.
  fold fitted in Hfit. fold s2 in Hfit.
  assert (length s2 = length s) as Hl2 by (unfold s2; apply length_insert).
  assert (s2 !! self = Some fitted) as Hs2
    by (unfold s2; apply list_lookup_insert_eq; exact Hlt).
  unfold bind at 1. rewrite Hfit.
  unfold MyScaler_transform, inplace, bind, lift, put, ret, alloc, attr.
  rewrite (get_ndarray_Ok s2 X' b)
    by (unfold s2; rewrite list_lookup_insert_ne by exact HneX'; exact HX').
  rewrite (MyScaler_attrs_Ok (s2 ++ [ONdarray b]) self _ _)
    by (rewrite lookup_app_l by lia; exact Hs2).
  simpl.
  rewrite (get_ndarray_Ok (s2 ++ [ONdarray b]) (length s2) b)
    by apply lookup_snoc_new.
  rewrite (broadcast_inplace_Ok fsub b (np_mean a))
    by (unfold np_mean; rewrite List.length_map; lia).
  rewrite insert_snoc_new.
  rewrite (MyScaler_attrs_Ok _ self _ _)
    by (rewrite lookup_app_l by lia; exact Hs2).
  simpl. unfold ret.
  rewrite (get_ndarray_Ok _ (length s2) _ (lookup_snoc_new s2 _)).
  rewrite broadcast_inplace_Ok
    by (unfold np_std, np_mean;
        rewrite length_zip_with, !List.length_map; lia).
  rewrite insert_snoc_new, broadcast_twice by exact Hlen.
  rewrite Hl2. reflexivity.
Qed.

End StoreSteps.

(** ** MyScaler *)

Section MyScalerProperties.



End MyScalerProperties.

(** ** FeatureUnion *)






(** ** pandas: the modes of a column *)

Section Modes.

Lemma foldr_max_ge {A} (f : A -> nat) (l : list A) (x : A) :
  x ∈ l -> f x <= foldr Nat.max 0 (map f l).
Proof.
  induction l as [|a l IH]; intros Hx; [inversion Hx|].
  apply elem_of_cons in Hx as [->|Hx]; simpl; [lia|].
  specialize (IH Hx). lia.
Qed.

Lemma foldr_max_attained {A} (f : A -> nat) (l : list A) :
  l <> [] -> exists x, x ∈ l /\ f x = foldr Nat.max 0 (map f l).
Proof.
  induction l as [|a l IH]; [congruence|]. intros _.
  destruct l as [|b l'].
  - exists a. split; [left|]. simpl. lia.
  - destruct IH as (x & Hx & Hfx); [discriminate|].
    change (foldr Nat.max 0 (map f (a :: b :: l')))
      with (Nat.max (f a) (foldr Nat.max 0 (map f (b :: l')))).
    destruct (Nat.max_spec (f a) (foldr Nat.max 0 (map f (b :: l'))))
      as [[_ ->]|[_ ->]].
    + exists x. split; [right; exact Hx|exact Hfx].
    + exists a. split; [left|reflexivity].
Qed.

Lemma elem_of_insert_sorted {A} (leb : A -> A -> bool) (x y : A)
    (l : list A) :
  x ∈ insert_sorted leb y l <-> x = y \/ x ∈ l.
Proof.
  induction l as [|a l IH]; simpl.
  - rewrite list_elem_of_singleton. split; [tauto|].
    intros [H|H]; [exact H|inversion H].
  - destruct (leb y a).
    + rewrite elem_of_cons. reflexivity.
    + rewrite !elem_of_cons, IH. tauto.
Qed.

Lemma elem_of_isort {A} (leb : A -> A -> bool) (x : A) (l : list A) :
  x ∈ isort leb l <-> x ∈ l.
Proof.
  induction l as [|a l IH]; [reflexivity|].
  change (isort leb (a :: l)) with (insert_sorted leb a (isort leb l)).
  rewrite elem_of_insert_sorted, IH, elem_of_cons. reflexivity.
Qed.

Lemma isort_nil {A} (leb : A -> A -> bool) (l : list A) :
  isort leb l = [] -> l = [].
Proof.
  destruct l as [|a l]; [reflexivity|].
  change (isort leb (a :: l)) with (insert_sorted leb a (isort leb l)).
  destruct (isort leb l) as [|b l']; simpl; [discriminate|].
  destruct (leb a b); discriminate.
Qed.

Lemma elem_of_dedup (v : value) (l : list value) : v ∈ dedup l -> v ∈ l.
Proof.
  revert v. induction l as [|a l IH]; intros v Hv; [exact Hv|].
  simpl in Hv. apply elem_of_cons in Hv as [->|Hv]; [left|right].
  apply IH. apply list_elem_of_In in Hv.
  apply List.filter_In in Hv as [Hv _]. apply list_elem_of_In. exact Hv.
Qed.

Lemma elem_of_present (v : value) (s : list cell) :
  v ∈ present s <-> Some v ∈ s.
Proof.
  unfold present. rewrite list_elem_of_omap. split.
  - intros (x & Hx & ->). exact Hx.
  - intros H. exists (Some v). split; [exact H|reflexivity].
Qed.

(** Every mode occurs in the column, and no value of the column occurs
    more often. *)
Lemma mode1_most_frequent (s : list cell) (v : value) :
  v ∈ mode1 s ->
  Some v ∈ s /\
  forall w, Some w ∈ s ->
    count_val w (present s) <= count_val v (present s).
Proof.
  unfold mode1. rewrite elem_of_isort. intros Hv.
  apply elem_of_dedup, list_elem_of_In, List.filter_In in Hv as [Hin Hc].
  apply Nat.eqb_eq in Hc. apply list_elem_of_In in Hin.
  split; [apply elem_of_present; exact Hin|].
  intros w Hw. rewrite Hc. unfold max_count.
  apply (foldr_max_ge (fun v => count_val v (present s))).
  apply elem_of_present. exact Hw.
Qed.

(** A column has a mode as soon as one of its cells is not missing. *)
Lemma mode1_nil_iff (s : list cell) : mode1 s = [] <-> present s = [].
Proof.
  split.
  - intros H. unfold mode1 in H. apply isort_nil in H.
    destruct (present s) as [|v vs] eqn:Hp; [reflexivity|]. exfalso.
    destruct (foldr_max_attained
                (fun x => count_val x (v :: vs)) (v :: vs))
      as (x & Hx & Hmax); [discriminate|].
    assert (In x (List.filter
                    (fun u => Nat.eqb (count_val u (v :: vs))
                                      (max_count (v :: vs)))
                    (v :: vs))) as Hf.
    { apply List.filter_In. split; [apply list_elem_of_In; exact Hx|].
      apply Nat.eqb_eq. exact Hmax. }
    destruct (List.filter _ (v :: vs)) as [|u us]; [inversion Hf|].
    simpl in H. discriminate.
  - intros H. unfold mode1. rewrite H. reflexivity.
Qed.

Lemma head_elem_of {A} (l : list A) (x : A) : head l = Some x -> x ∈ l.
Proof. destruct l; [discriminate|]. intros [= ->]. left. Qed.

Lemma head_pad (k : nat) (l : list value) :
  default None (head (pad k (map Some l))) = head l.
Proof.
  destruct l as [|v l]; [|reflexivity].
  unfold pad. simpl. destruct (k - 0)%nat; reflexivity.
Qed.

Lemma assoc_map_snd {L} `{EqDecision L} {V W} (g : V -> W) (k : L)
    (l : list (L * V)) :
  assoc k (map (fun p => (p.1, g p.2)) l) = g <$> assoc k l.
Proof.
  induction l as [|[k' v] l IH]; [reflexivity|]. simpl.
  destruct (decide (k = k')); [reflexivity|exact IH].
Qed.

Lemma mode_columns_max_zero (cols : list (colname * list cell)) :
  foldr Nat.max 0
    (map (fun p : colname * list cell => length p.2)
         (map (fun p => (p.1, map Some (mode1 p.2))) cols)) = 0%nat
  <-> Forall (fun p => present p.2 = []) cols.
Proof.
  induction cols as [|[c s] cols IH]; simpl.
  - split; [constructor|reflexivity].
  - rewrite Forall_cons, <- IH, List.length_map. simpl.
    rewrite <- mode1_nil_iff. split.
    + intros H. split; [|lia].
      destruct (mode1 s); [reflexivity|simpl in H; lia].
    + intros [-> H]. simpl. exact H.
Qed.

(** [X.mode().iloc[0]]: the first modes when some cell of [X] is not
    missing, an [IndexError] when none is. *)
Lemma iloc0_mode (d : DataFrame) :
  iloc0 (DataFrame_mode d)
  = if decide (Forall (fun p => present p.2 = []) (columns d))
    then Raise IndexError else Ok (first_modes d).
Proof.
  unfold iloc0, DataFrame_mode. cbn [index columns].
  set (ms := map (fun p => (p.1, map Some (mode1 p.2))) (columns d)).
  set (k := foldr Nat.max 0 (map (fun p => length p.2) ms)).
  pose proof (mode_columns_max_zero (columns d)) as Hk.
  change (k = 0%nat
          <-> Forall (fun p => present p.2 = []) (columns d)) in Hk.
  destruct (decide (Forall (fun p => present p.2 = []) (columns d)))
    as [Hall|Hsome].
  - apply Hk in Hall. rewrite Hall. reflexivity.
  - assert (k <> 0%nat) as Hk0 by tauto.
    destruct (seqZ 0 (Z.of_nat k)) as [|z zs] eqn:Hseq.
    + apply (f_equal length) in Hseq. rewrite length_seqZ in Hseq.
      simpl in Hseq. lia.
    + f_equal. unfold first_modes, ms. rewrite !List.map_map.
      apply List.map_ext. intros [c s]. simpl.
      rewrite head_pad. reflexivity.
Qed.

End Modes.

(** ** The fit contract *)

Section FitContract.

Lemma CustomCategoricalImputer_fit_run (s : store) (self X : loc)
    (y : arg labels) (d : DataFrame) f0 :
  s !! self = Some (OCustomCategoricalImputer f0) ->
  s !! X = Some (OFrame d) ->
  CustomCategoricalImputer_fit self X y s
  = if decide (all_missing d) then (Raise IndexError, s)
    else (Ok self,
          <[self := OCustomCategoricalImputer (Some (first_modes d))]> s).
Proof.
  intros Hself HX.
  unfold CustomCategoricalImputer_fit, bind, lift, put, ret.
  rewrite (get_frame_Ok s X d HX), iloc0_mode. unfold all_missing.
  destruct (decide (Forall (fun p => present p.2 = []) (columns d)));
    [reflexivity|].
  unfold CustomCategoricalImputer_fill. rewrite Hself. reflexivity.
Qed.

(** C3, as the code has it. [CustomSelector.fit] and
    [CustomCategoricalEncoder.fit] take a table and an optional label
    vector and return the transformer itself, whatever they are given,
    leaving the store as it is. [CustomCategoricalImputer.fit] takes a
    frame and an optional label vector: it returns the transformer
    itself when some cell of the frame holds a value, and raises
    [IndexError] when none does. [MyScaler.fit], called with an array
    and a label argument, returns the transformer itself. Whenever [fit]
    returns, only the transformer has changed. *)
Theorem fit_returns_self (t : transformer) (s : store) (self X : loc)
    (y : arg labels) :
  (fit_returns t s self X y ->
   exists s', fit t self X y s = (Ok self, s') /\
              length s' = length s /\
              forall l, l <> self -> s' !! l = s !! l) /\
  (t = CustomSelector \/ t = CustomCategoricalEncoder ->
   fit t self X y s = (Ok self, s)) /\
  (forall d f,
     t = CustomCategoricalImputer ->
     s !! X = Some (OFrame d) ->
     s !! self = Some (OCustomCategoricalImputer f) ->
     all_missing d ->
     fit t self X y s = (Raise IndexError, s)).
Proof.
  split; [|split].
  - destruct t; simpl.
    + intros (a & m & sc & lbl & HX & Hself & ->).
      eexists. split; [apply (MyScaler_fit_run s self X lbl m sc a Hself HX)|].
      split; [apply length_insert|].
      intros l Hl. apply list_lookup_insert_ne. congruence.
    + intros _. exists s. repeat split; reflexivity.
    + intros (d & f & HX & Hself & Hval).
      rewrite (CustomCategoricalImputer_fit_run s self X y d f Hself HX).
      destruct (decide (all_missing d)); [contradiction|].
      eexists. split; [reflexivity|].
      split; [apply length_insert|].
      intros l Hl. apply list_lookup_insert_ne. congruence.
    + intros _. exists s. repeat split; reflexivity.
  - intros [->| ->]; reflexivity.
  - intros d f -> HX Hself Hall. simpl.
    rewrite (CustomCategoricalImputer_fit_run s self X y d f Hself HX).
    destruct (decide (all_missing d)); [reflexivity|contradiction].
Qed.

Lemma passengers_have_values : ~ all_missing Examples.passengers.
Proof.
  unfold all_missing. intros H. apply Forall_cons in H as [H _].
  discriminate H.
Qed.

Lemma fit_returns_self_witness :
  exists s',
    fit CustomCategoricalImputer 1 0 Omitted
        (Examples.imputer_store Examples.passengers) = (Ok 1, s') /\
    length s' = 2.
Proof.
  destruct (proj1 (fit_returns_self CustomCategoricalImputer
                     (Examples.imputer_store Examples.passengers)
                     1 0 Omitted))
    as (s' & Hfit & Hlen & _).
  - exists Examples.passengers, None.
    split; [reflexivity|]. split; [reflexivity|].
    exact passengers_have_values.
  - exists s'. split; [exact Hfit|exact Hlen].
Defined.

(** C3 as stated fails: on a table without rows the imputer's [fit]
    raises instead of returning the transformer. *)
Lemma fit_raises_counterexample :
  fit CustomCategoricalImputer 1 0 Omitted
      (Examples.imputer_store Examples.no_rows)
  = (Raise IndexError, Examples.imputer_store Examples.no_rows) /\
  ~ exists s', fit CustomCategoricalImputer 1 0 Omitted
                   (Examples.imputer_store Examples.no_rows) = (Ok 1, s').
Proof.
  assert (fit CustomCategoricalImputer 1 0 Omitted
              (Examples.imputer_store Examples.no_rows)
          = (Raise IndexError, Examples.imputer_store Examples.no_rows))
    as H by reflexivity.
  split; [exact H|]. intros [s' Hs']. rewrite H in Hs'. discriminate.
Qed.

(** [MyScaler.fit] declares [y] without a default: a call that leaves
    the label vector out raises [TypeError] before anything is stored. *)
Lemma MyScaler_fit_requires_y (s : store) (self X : loc) :
  MyScaler_fit self X Omitted s = (Raise TypeError, s).
Proof. reflexivity. Qed.

End FitContract.

(** ** The categorical imputer *)

Section Imputer.

Lemma fillna_column (fill : Series colname) (c : colname)
    (col : list cell) :
  match assoc c fill with
  | Some v => fillna_scalar v col
  | None => col
  end
  = map (fun x : cell => match x with
                         | Some _ => x
                         | None => default None (assoc c fill)
                         end) col.
Proof.
  destruct (assoc c fill) as [v|]; simpl.
  - unfold fillna_scalar. apply List.map_ext. intros [w|]; reflexivity.
  - rewrite <- (List.map_id col) at 1.
    apply List.map_ext. intros [w|]; reflexivity.
Qed.

(** C4, as the code has it. When some cell of [X] holds a value,
    [fit(X)] stores one entry per column of [X]: a most frequent value
    among the non-missing cells of the column (the first of its sorted
    modes), or NaN for a column whose cells are all missing. [transform]
    then returns a new frame with the rows and columns of [X']: a
    non-missing cell is unchanged, a missing cell takes the entry stored
    for its column, and stays missing when that entry is NaN or when
    [fit] saw no column of that name. *)
Theorem imputer_fills_with_first_mode (s : store) (self X X' : loc)
    (y : arg labels) (d d' : DataFrame) f0 :
  s !! self = Some (OCustomCategoricalImputer f0) ->
  s !! X = Some (OFrame d) ->
  s !! X' = Some (OFrame d') ->
  ~ all_missing d ->
  exists (Xt : loc) (s' : store) (out : DataFrame),
    bind (CustomCategoricalImputer_fit self X y)
         (fun fitted => CustomCategoricalImputer_transform fitted X') s
    = (Ok Xt, s') /\
    s' !! self = Some (OCustomCategoricalImputer (Some (first_modes d))) /\
    (forall c, assoc c (first_modes d)
               = (fun col => head (mode1 col)) <$> assoc c (columns d)) /\
    (forall c col v, assoc c (columns d) = Some col ->
       (head (mode1 col) = Some v ->
        Some v ∈ col /\
        forall w, Some w ∈ col ->
          count_val w (present col) <= count_val v (present col)) /\
       (head (mode1 col) = None <-> present col = [])) /\
    s !! Xt = None /\
    s' !! Xt = Some (OFrame out) /\
    index out = index d' /\
    columns out
    = map (fun p =>
             (p.1, map (fun x : cell =>
                          match x with
                          | Some _ => x
                          | None => default None (assoc p.1 (first_modes d))
                          end) p.2))
          (columns d').
Proof.
  intros Hself HX HX' Hval.
  assert (self < length s) as Hlt by (eapply lookup_lt_Some; eassumption).
  assert (self <> X') as Hne by (intros ->; congruence).
  set (fitted := OCustomCategoricalImputer (Some (first_modes d))).
  set (s1 := <[self := fitted]> s).
  assert (length s1 = length s) as Hl1 by apply length_insert.
  exists (length s), (s1 ++ [OFrame (DataFrame_fillna (first_modes d) d')]),
         (DataFrame_fillna (first_modes d) d').
  split.
  { unfold bind at 1.
    rewrite (CustomCategoricalImputer_fit_run s self X y d f0 Hself HX).
    destruct (decide (all_missing d)); [contradiction|].
    unfold CustomCategoricalImputer_transform, bind, alloc, attr, ret.
    fold fitted. fold s1.
    rewrite (get_frame_Ok s1 X' d')
      by (unfold s1; rewrite list_lookup_insert_ne by exact Hne; exact HX').
    unfold CustomCategoricalImputer_fill.
    assert (s1 !! self = Some fitted) as ->
      by (apply list_lookup_insert_eq; exact Hlt).
    simpl. rewrite Hl1. reflexivity. }
  split.
  { rewrite lookup_app_l by lia. apply list_lookup_insert_eq. exact Hlt. }
  split.
  { intros c. unfold first_modes.
    apply (assoc_map_snd (fun col => head (mode1 col))). }
  split.
  { intros c col v Hcol. split.
    - intros Hhead. apply mode1_most_frequent, head_elem_of. exact Hhead.
    - rewrite <- mode1_nil_iff. destruct (mode1 col); simpl; split;
        congruence. }
  split; [apply lookup_ge_None; lia|].
  split; [rewrite <- Hl1; apply lookup_snoc_new|].
  split; [reflexivity|].
  unfold DataFrame_fillna. cbn [columns].
  apply List.map_ext. intros [c col]. simpl. f_equal.
  apply fillna_column.
Qed.

Lemma imputer_fills_with_first_mode_witness :
  exists (s' : store) (out : DataFrame),
    bind (CustomCategoricalImputer_fit 1 0 Omitted)
         (fun fitted => CustomCategoricalImputer_transform fitted 0)
         (Examples.imputer_store Examples.passengers) = (Ok 2, s') /\
    s' !! 2 = Some (OFrame out) /\
    assoc (Name "Embarked") (columns out)
    = Some [Some (VStr "C"); Some (VStr "S"); Some (VStr "C")].
Proof.
  destruct (imputer_fills_with_first_mode
              (Examples.imputer_store Examples.passengers) 1 0 0 Omitted
              Examples.passengers Examples.passengers None
              eq_refl eq_refl eq_refl passengers_have_values)
    as (Xt & s' & out & Hrun & _ & _ & _ & _ & Hout & _ & Hcols).
  assert (Xt = 2) as ->.
  { assert (fst (bind (CustomCategoricalImputer_fit 1 0 Omitted)
                   (fun fitted => CustomCategoricalImputer_transform fitted 0)
                   (Examples.imputer_store Examples.passengers)) = Ok 2)
      as H2 by reflexivity.
    rewrite Hrun in H2. simpl in H2. congruence. }
  exists s', out. split; [exact Hrun|]. split; [exact Hout|].
  rewrite Hcols. reflexivity.
Defined.

(** C4 as stated fails: with a column whose cells are all missing in
    the fitted table, [fit] stores NaN for it and [transform] leaves its
    missing cells missing. *)
Lemma imputer_keeps_missing_counterexample :
  exists (s' : store) (out : DataFrame),
    bind (CustomCategoricalImputer_fit 1 0 Omitted)
         (fun fitted => CustomCategoricalImputer_transform fitted 0)
         (Examples.imputer_store Examples.port_unknown) = (Ok 2, s') /\
    s' !! 1 = Some (OCustomCategoricalImputer
                      (Some [(Name "Sex", Some (VStr "male"));
                             (Name "Embarked", None)])) /\
    s' !! 2 = Some (OFrame out) /\
    assoc (Name "Embarked") (columns Examples.port_unknown) = Some [None] /\
    assoc (Name "Embarked") (columns out) = Some [None].
Proof.
  eexists _, _. split; [reflexivity|]. repeat split; reflexivity.
Qed.

End Imputer.

(** ** transform returns on the inputs it is written for *)

Section Totality.
Import ManualTitanic.

Lemma broadcast_inplace_total op (a : ndarray) (v : list f64) :
  broadcastable v a ->
  exists a', broadcast_inplace op a v = Ok a' /\ length a' = length a.
Proof.
  intros [Hlen|Hone].
  - rewrite broadcast_inplace_Ok by exact Hlen. eexists.
    split; [reflexivity|]. rewrite length_zip_with. lia.
  - unfold broadcast_inplace.
    destruct (decide (length v = length a)) as [Hlen|_].
    + eexists. split; [reflexivity|]. rewrite length_zip_with. lia.
    + destruct v as [|m [|m' v]]; try discriminate.
      eexists. split; [reflexivity|]. apply List.length_map.
Qed.

Lemma MyScaler_transform_returns (s : store) (self X : loc)
    (a : ndarray) (m sc : list f64) :
  s !! X = Some (ONdarray a) ->
  s !! self = Some (OMyScaler (Some m) (Some sc)) ->
  broadcastable m a -> broadcastable sc a ->
  exists s', MyScaler_transform self X s = (Ok (length s), s').
Proof.
  intros HX Hself Hm Hsc.
  assert (self < length s) as Hlt by (eapply lookup_lt_Some; eassumption).
  destruct (broadcast_inplace_total fsub a m Hm) as (a1 & Ha1 & Hl1).
  assert (broadcastable sc a1) as Hsc1 by (unfold broadcastable in *; lia).
  destruct (broadcast_inplace_total fdiv a1 sc Hsc1) as (a2 & Ha2 & _).
  unfold MyScaler_transform, inplace, bind, alloc, put, attr, lift, ret.
  rewrite (get_ndarray_Ok s X a HX).
  rewrite (MyScaler_attrs_Ok (s ++ [ONdarray a]) self (Some m) (Some sc))
    by (rewrite lookup_app_l by exact Hlt; exact Hself).
  cbn [fst snd].
  rewrite (get_ndarray_Ok _ _ _ (lookup_snoc_new s (ONdarray a))).
  rewrite Ha1, insert_snoc_new.
  rewrite (MyScaler_attrs_Ok (s ++ [ONdarray a1]) self (Some m) (Some sc))
    by (rewrite lookup_app_l by exact Hlt; exact Hself).
  cbn [fst snd].
  rewrite (get_ndarray_Ok _ _ _ (lookup_snoc_new s (ONdarray a1))).
  rewrite Ha2. eexists. reflexivity.
Qed.

Lemma select_total (cols : list string) (d : DataFrame) :
  Forall (fun n => has_column n d) cols -> exists cs, select cols d = Ok cs.
Proof.
  induction 1 as [|c cols [col Hc] _ [cs IH]]; [exists []; reflexivity|].
  simpl. unfold getitem. rewrite Hc. simpl. rewrite IH.
  eexists. reflexivity.
Qed.

Lemma CustomSelector_transform_returns (s : store) (self X : loc)
    (d : DataFrame) (c : bool) :
  s !! X = Some (OFrame d) ->
  s !! self = Some (OCustomSelector c) ->
  Forall (fun n => has_column n d)
         (if c then ["Sex"; "Embarked"; "Pclass"]
          else ["Fare"; "Age"; "SibSp"; "Parch"]) ->
  exists s', CustomSelector_transform self X s = (Ok (length s), s').
Proof.
  intros HX Hself Hcols.
  unfold CustomSelector_transform, bind, alloc, lift.
  unfold CustomSelector_categorical. rewrite Hself.
  rewrite (get_frame_Ok s X d HX).
  destruct (select_total _ d Hcols) as [cs Hcs].
  destruct c; unfold getitem_cols; rewrite Hcs; eexists; reflexivity.
Qed.

Lemma CustomCategoricalImputer_transform_returns (s : store)
    (self X : loc) (d : DataFrame) (fill : Series colname) :
  s !! X = Some (OFrame d) ->
  s !! self = Some (OCustomCategoricalImputer (Some fill)) ->
  exists s', CustomCategoricalImputer_transform self X s
             = (Ok (length s), s').
Proof.
  intros HX Hself.
  unfold CustomCategoricalImputer_transform, bind, alloc, attr, ret.
  rewrite (get_frame_Ok s X d HX).
  unfold CustomCategoricalImputer_fill. rewrite Hself.
  eexists. reflexivity.
Qed.

Lemma assoc_app_Some {V} (k : colname) (l l' : list (colname * V)) (v : V) :
  assoc k l = Some v -> assoc k (l ++ l') = Some v.
Proof.
  induction l as [|[k' w] l IH]; [discriminate|]. simpl.
  destruct (decide (k = k')); [trivial|exact IH].
Qed.

Lemma assoc_filter_ne {V} (k c : colname) (l : list (colname * V)) :
  k <> c ->
  assoc k (List.filter (fun p => negb (bool_decide (p.1 = c))) l)
  = assoc k l.
Proof.
  intros Hne. induction l as [|[k' w] l IH]; [reflexivity|]. simpl.
  destruct (bool_decide_reflect (k' = c)) as [->|Hk']; simpl.
  - destruct (decide (k = c)); [contradiction|exact IH].
  - destruct (decide (k = k')); [reflexivity|exact IH].
Qed.

(** One turn of the encoder's loop on a frame that has the column. *)
Lemma encode_column_run (s : store) (X : loc) (col : string)
    (d : DataFrame) (c : list cell) :
  s !! X = Some (OFrame d) ->
  assoc (Name col) (columns d) = Some c ->
  encode_column X col s = (Ok (length s), s ++ [OFrame (encoded col d c)]).
Proof.
  intros HX Hc.
  unfold encode_column, bind, alloc, put, lift, ret.
  rewrite (get_frame_Ok s X d HX). unfold getitem. rewrite Hc.
  rewrite (get_frame_Ok _ _ _ (lookup_snoc_new s _)).
  unfold drop, concat_axis1. cbn [columns index].
  rewrite (assoc_app_Some _ _ _ c Hc), insert_snoc_new. reflexivity.
Qed.

Lemma encoded_keeps (col col' : string) (d : DataFrame) (c c' : list cell) :
  col' <> col ->
  assoc (Name col') (columns d) = Some c' ->
  assoc (Name col') (columns (encoded col d c)) = Some c'.
Proof.
  intros Hne Hc'. unfold encoded. cbn [columns].
  rewrite assoc_filter_ne by congruence.
  apply assoc_app_Some. exact Hc'.
Qed.

Lemma CustomCategoricalEncoder_transform_returns (s : store)
    (self X : loc) (d : DataFrame) :
  s !! X = Some (OFrame d) ->
  Forall (fun n => has_column n d) ["Sex"; "Embarked"; "Pclass"] ->
  exists s', CustomCategoricalEncoder_transform self X s
             = (Ok (S (S (length s))), s').
Proof.
  intros HX Hcols.
  apply Forall_cons in Hcols as [[cS HS] Hcols].
  apply Forall_cons in Hcols as [[cE HE] Hcols].
  apply Forall_cons in Hcols as [[cP HP] _].
  unfold CustomCategoricalEncoder_transform. simpl for_each.
  unfold bind at 1. rewrite (encode_column_run s X "Sex" d cS HX HS).
  set (d1 := encoded "Sex" d cS).
  assert (assoc (Name "Embarked") (columns d1) = Some cE) as HE1
    by (apply encoded_keeps; [discriminate|exact HE]).
  assert (assoc (Name "Pclass") (columns d1) = Some cP) as HP1
    by (apply encoded_keeps; [discriminate|exact HP]).
  unfold bind at 1.
  rewrite (encode_column_run _ _ "Embarked" d1 cE
             (lookup_snoc_new s _) HE1).
  set (d2 := encoded "Embarked" d1 cE).
  assert (assoc (Name "Pclass") (columns d2) = Some cP) as HP2
    by (apply encoded_keeps; [discriminate|exact HP1]).
  unfold bind at 1.
  rewrite (encode_column_run _ _ "Pclass" d2 cP
             (lookup_snoc_new _ _) HP2).
  rewrite !length_app. simpl length.
  replace (length s + 1 + 1)%nat with (S (S (length s))) by lia.
  eexists. reflexivity.
Qed.

Lemma transform_returns (t : transformer) (s : store) (self X : loc) :
  transform_defined t s self X ->
  exists Xt s', transform t self X s = (Ok Xt, s').
Proof.
  destruct t; simpl.
  - intros (a & m & sc & HX & Hself & Hm & Hsc).
    eexists. eapply MyScaler_transform_returns; eassumption.
  - intros (d & c & HX & Hself & Hcols).
    eexists. eapply CustomSelector_transform_returns; eassumption.
  - intros (d & fill & HX & Hself).
    eexists. eapply CustomCategoricalImputer_transform_returns; eassumption.
  - intros (d & HX & Hcols).
    eexists. eapply CustomCategoricalEncoder_transform_returns; eassumption.
Qed.

End Totality.

(** ** transform leaves the caller's objects alone *)

Section Frame.

Lemma prefix_insert_new (s s' : store) (l : loc) (o : obj) :
  s `prefix_of` s' -> length s <= l -> s `prefix_of` <[l := o]> s'.
Proof.
  intros [k ->] Hl. exists (<[l - length s := o]> k).
  apply insert_app_r_alt. exact Hl.
Qed.

Lemma prefix_snoc (s s' : store) (o : obj) :
  s `prefix_of` s' -> s `prefix_of` s' ++ [o].
Proof. intros H. apply prefix_app_r. exact H. Qed.

Lemma framed_raise (s s' : store) (e : exn) :
  s `prefix_of` s' -> framed s (Raise e, s').
Proof. intros H. split; [exact H|]. intros Xt [=]. Qed.

Lemma framed_new (s : store) (o : obj) :
  is_table o -> framed s (Ok (length s), s ++ [o]).
Proof.
  intros Ho. split; [apply prefix_snoc; reflexivity|].
  intros Xt [= <-]. split; [reflexivity|].
  exists o. split; [apply lookup_snoc_new|exact Ho].
Qed.

Lemma MyScaler_transform_framed (s : store) (self X : loc) :
  framed s (MyScaler_transform self X s).
Proof.
  unfold MyScaler_transform, inplace, bind, alloc, put, attr, lift, ret.
  unfold get_ndarray at 1.
  destruct (s !! X) as [[a| | | | |]|];
    try (apply framed_raise; reflexivity).
  unfold MyScaler_attrs at 1.
  destruct ((s ++ [ONdarray a]) !! self) as [[| |m sc| | |]|];
    try (apply framed_raise, prefix_snoc; reflexivity).
  destruct m as [mean|]; simpl;
    [|apply framed_raise, prefix_snoc; reflexivity].
  rewrite (get_ndarray_Ok _ _ _ (lookup_snoc_new s (ONdarray a))).
  destruct (broadcast_inplace fsub a mean) as [a1|e];
    [|apply framed_raise, prefix_snoc; reflexivity].
  rewrite insert_snoc_new.
  unfold MyScaler_attrs.
  destruct ((s ++ [ONdarray a1]) !! self) as [[| |m' sc'| | |]|];
    try (apply framed_raise, prefix_snoc; reflexivity).
  destruct sc' as [scale|]; simpl;
    [|apply framed_raise, prefix_snoc; reflexivity].
  rewrite (get_ndarray_Ok _ _ _ (lookup_snoc_new s (ONdarray a1))).
  destruct (broadcast_inplace fdiv a1 scale) as [a2|e];
    [|apply framed_raise, prefix_snoc; reflexivity].
  rewrite insert_snoc_new. apply framed_new. exact I.
Qed.

Lemma CustomSelector_transform_framed (s : store) (self X : loc) :
  framed s (CustomSelector_transform self X s).
Proof.
  unfold CustomSelector_transform, bind, alloc, lift.
  unfold CustomSelector_categorical.
  destruct (s !! self) as [[| | |c| |]|];
    try (apply framed_raise; reflexivity).
  unfold get_frame.
  destruct (s !! X) as [[|d| | | |]|];
    try (apply framed_raise; reflexivity).
  destruct c.
  - destruct (getitem_cols ["Sex"; "Embarked"; "Pclass"] d) as [r|e];
      [apply framed_new; exact I|apply framed_raise; reflexivity].
  - destruct (getitem_cols ["Fare"; "Age"; "SibSp"; "Parch"] d) as [r|e];
      [apply framed_new; exact I|apply framed_raise; reflexivity].
Qed.

Lemma CustomCategoricalImputer_transform_framed (s : store)
    (self X : loc) :
  framed s (CustomCategoricalImputer_transform self X s).
Proof.
  unfold CustomCategoricalImputer_transform, bind, alloc, attr, lift, ret.
  unfold get_frame.
  destruct (s !! X) as [[|d| | | |]|];
    try (apply framed_raise; reflexivity).
  unfold CustomCategoricalImputer_fill.
  destruct (s !! self) as [[| | | |f|]|];
    try (apply framed_raise; reflexivity).
  destruct f as [fill|]; simpl;
    [apply framed_new; exact I|apply framed_raise; reflexivity].
Qed.

(** One turn of the encoder's loop: the frame it is given is read, the
    concatenated frame is new, and the in-place [drop] lands on it. *)
Lemma encode_column_step (s : store) (X : loc) (col : string) :
  match encode_column X col s with
  | (Raise _, s') => s' = s \/ exists o, s' = s ++ [o]
  | (Ok X', s') => X' = length s /\ exists d, s' = s ++ [OFrame d]
  end.
Proof.
  unfold encode_column. unfold bind at 1. unfold get_frame at 1.
  destruct (s !! X) as [[|d| | | |]|]; try (left; reflexivity).
  cbv beta iota. unfold bind at 1, lift.
  destruct (getitem col d) as [c|e]; [|left; reflexivity].
  cbv beta iota. unfold bind at 1, alloc. unfold bind at 1.
  rewrite (get_frame_Ok _ _ _ (lookup_snoc_new s _)).
  unfold bind at 1, lift.
  destruct (drop col _) as [d''|e].
  - unfold bind, put, ret. rewrite insert_snoc_new.
    split; [reflexivity|]. exists d''. reflexivity.
  - right. eexists. reflexivity.
Qed.

Lemma encode_columns_framed (cols : list string) (s0 s : store)
    (X : loc) :
  s0 `prefix_of` s ->
  (length s0 <= X /\ exists o, s !! X = Some o /\ is_table o) \/
    cols <> [] ->
  framed s0 (for_each cols encode_column X s).
Proof.
  revert s X. induction cols as [|col cols IH]; intros s X Hpre HX.
  - split; [exact Hpre|]. intros Xt [= <-].
    destruct HX as [HX|HX]; [exact HX|congruence].
  - change (for_each (col :: cols) encode_column X s)
      with (bind (encode_column X col) (for_each cols encode_column) s).
    unfold bind.
    pose proof (encode_column_step s X col) as Hstep.
    destruct (encode_column X col s) as [[X'|e] s'].
    + destruct Hstep as [-> [d ->]].
      apply IH; [apply prefix_snoc; exact Hpre|].
      left. split; [apply prefix_length in Hpre; lia|].
      exists (OFrame d). split; [apply lookup_snoc_new|exact I].
    + apply framed_raise.
      destruct Hstep as [->|[o ->]];
        [exact Hpre|apply prefix_snoc; exact Hpre].
Qed.

Lemma CustomCategoricalEncoder_transform_framed (s : store)
    (self X : loc) :
  framed s (CustomCategoricalEncoder_transform self X s).
Proof.
  apply encode_columns_framed; [reflexivity|right; discriminate].
Qed.

(** C5. Whatever the transformer and whatever it is given, [transform]
    leaves every object the caller holds as it was, the table [X]
    included: all it writes to is the table it has just made (the copy
    in [MyScaler], the concatenated frame in
    [CustomCategoricalEncoder]). The table it returns is a new one: its
    reference did not exist before the call. And it does return a table
    on the inputs it is written for. *)
Theorem transform_leaves_input_unchanged (t : transformer) (s : store)
    (self X : loc) :
  (forall l o, s !! l = Some o -> (transform t self X s).2 !! l = Some o) /\
  (forall Xt, (transform t self X s).1 = Ok Xt ->
     s !! Xt = None /\
     (exists o, (transform t self X s).2 !! Xt = Some o /\ is_table o) /\
     (forall o, s !! X = Some o ->
        Xt <> X /\ (transform t self X s).2 !! X = Some o)) /\
  (transform_defined t s self X ->
   exists Xt, (transform t self X s).1 = Ok Xt).
Proof.
  assert (framed s (transform t self X s)) as [Hpre Hnew].
  { destruct t; simpl.
    - apply MyScaler_transform_framed.
    - apply CustomSelector_transform_framed.
    - apply CustomCategoricalImputer_transform_framed.
    - apply CustomCategoricalEncoder_transform_framed. }
  split; [|split].
  - intros l o Hl. eapply prefix_lookup_Some; eassumption.
  - intros Xt HXt. destruct (Hnew Xt HXt) as [Hlen Hobj].
    split; [apply lookup_ge_None; exact Hlen|].
    split; [exact Hobj|].
    intros o HX. split.
    + apply lookup_lt_Some in HX. lia.
    + eapply prefix_lookup_Some; eassumption.
  - intros Hdef. destruct (transform_returns t s self X Hdef)
      as (Xt & s' & Hrun).
    exists Xt. rewrite Hrun. reflexivity.
Qed.

Lemma passengers_encodable :
  transform_defined CustomCategoricalEncoder
    [OFrame Examples.passengers; OCustomCategoricalEncoder] 1 0.
Proof.
  exists Examples.passengers. split; [reflexivity|].
  repeat constructor; eexists; reflexivity.
Qed.

Lemma transform_leaves_input_unchanged_witness :
  exists (Xt : loc) (s' : store) (d : DataFrame),
    transform CustomCategoricalEncoder 1 0
      [OFrame Examples.passengers; OCustomCategoricalEncoder] = (Ok Xt, s') /\
    Xt <> 0 /\
    s' !! 0 = Some (OFrame Examples.passengers) /\
    s' !! Xt = Some (OFrame d) /\
    assoc (Name "Sex") (columns d) = None.
Proof.
  destruct (transform_leaves_input_unchanged CustomCategoricalEncoder
              [OFrame Examples.passengers; OCustomCategoricalEncoder] 1 0)
    as (Hkeep & Hnew & Hret).
  destruct (Hret passengers_encodable) as [Xt HXt].
  destruct (Hnew Xt HXt) as (_ & _ & HX).
  destruct (HX _ eq_refl) as [Hne Hsame].
  assert (Xt = 4) as ->.
  { assert ((transform CustomCategoricalEncoder 1 0
               [OFrame Examples.passengers; OCustomCategoricalEncoder]).1
            = Ok 4) as H4 by reflexivity.
    rewrite H4 in HXt. congruence. }
  eexists 4, _, _. split; [reflexivity|]. split; [exact Hne|].
  repeat split; reflexivity.
Defined.

(** The four [transform] methods do return on the tables they are
    written for. *)
Lemma transform_returns_examples :
  (exists s', transform CustomSelector 1 0
                [OFrame Examples.passengers; OCustomSelector true]
              = (Ok 2, s')) /\
  (exists s', transform CustomCategoricalImputer 1 0
                [OFrame Examples.passengers;
                 OCustomCategoricalImputer
                   (Some (first_modes Examples.passengers))]
              = (Ok 2, s')) /\
  (exists s', transform CustomCategoricalEncoder 1 0
                [OFrame Examples.passengers; OCustomCategoricalEncoder]
              = (Ok 4, s')) /\
  (exists s', transform MyScaler 1 0
                [ONdarray (dataset Examples.two_values);
                 OMyScaler (Some [Fin 2%R]) (Some [Fin 1%R])]
              = (Ok 2, s')).
Proof.
  repeat split; eexists; reflexivity.
Qed.

End Frame.

(** ** The manual imputation *)

Section ManualImputation.
Import ManualTitanic.

Lemma assoc_setcol_eq (c : colname) (new old : list cell)
    (cols : list (colname * list cell)) :
  assoc c cols = Some old -> assoc c (setcol c new cols) = Some new.
Proof.
  induction cols as [|[c' s] cols IH]; [discriminate|]. simpl.
  destruct (decide (c = c')) as [->|Hne]; simpl.
  - intros _. destruct (decide (c' = c')); [reflexivity|contradiction].
  - intros H. destruct (decide (c = c')); [contradiction|]. apply IH, H.
Qed.

Lemma assoc_setcol_ne (c c' : colname) (new : list cell)
    (cols : list (colname * list cell)) :
  c <> c' -> assoc c' (setcol c new cols) = assoc c' cols.
Proof.
  intros Hne. induction cols as [|[c0 s] cols IH]; [reflexivity|]. simpl.
  destruct (decide (c = c0)) as [->|Hc]; simpl.
  - destruct (decide (c' = c0)); [congruence|reflexivity].
  - destruct (decide (c' = c0)); [reflexivity|exact IH].
Qed.

Lemma numbers_Ok (s : list cell) :
  Forall (fun x : cell => forall v, x = Some v -> num v <> None) s ->
  exists qs, numbers s = Ok qs.
Proof.
  induction 1 as [|x s Hx _ [qs IH]]; [exists []; reflexivity|].
  destruct x as [v|]; simpl; [|exists qs; exact IH].
  destruct (num v) as [q|] eqn:Hq; [|exfalso; exact (Hx v eq_refl Hq)].
  rewrite IH. exists (q :: qs). reflexivity.
Qed.

Lemma column_median_Ok (col : string) (X : DataFrame) :
  numeric_column col X -> exists m, column_median col X = Ok m.
Proof.
  intros (s & Hs & Hnum). unfold column_median, getitem. rewrite Hs.
  simpl. unfold median. destruct (numbers_Ok s Hnum) as [qs ->].
  eexists. reflexivity.
Qed.

Lemma fillna_median_run (col : string) (target source : DataFrame)
    (s : list cell) (m : cell) :
  assoc (Name col) (columns target) = Some s ->
  column_median col source = Ok m ->
  fillna_median col target source
  = Ok (mkFrame (index target)
          (setcol (Name col) (fillna_scalar m s) (columns target))).
Proof.
  intros Hs Hm. unfold fillna_median, getitem. rewrite Hs. simpl.
  unfold column_median, getitem in Hm.
  destruct (assoc (Name col) (columns source)) as [t|]; [|discriminate].
  simpl in *. rewrite Hm. reflexivity.
Qed.

Lemma fillna_mode_run (col : string) (target source : DataFrame)
    (s t : list cell) :
  assoc (Name col) (columns target) = Some s ->
  assoc (Name col) (columns source) = Some t ->
  fillna_mode col target source
  = Ok (mkFrame (index target)
          (setcol (Name col)
             (fillna_aligned (index target) (Series_mode t) s)
             (columns target))).
Proof.
  intros Hs Ht. unfold fillna_mode, getitem. rewrite Hs, Ht. reflexivity.
Qed.

(** The labels of [s.mode()] are the positions of the sorted modes. *)
Lemma assoc_imap_modes (n : nat) (ms : list value) (l : Z) :
  default None
    (assoc l (imap (fun i v => (Z.of_nat (n + i), Some v)) ms))
  = if decide (Z.of_nat n <= l)%Z then ms !! (Z.to_nat l - n)%nat else None.
Proof.
  revert n. induction ms as [|v ms IH]; intros n.
  - simpl. destruct (decide (Z.of_nat n <= l)%Z); reflexivity.
  - rewrite imap_cons. simpl.
    destruct (decide (l = Z.of_nat (n + 0))) as [->|Hne].
    + simpl. destruct (decide (Z.of_nat n <= Z.of_nat (n + 0))%Z); [|lia].
      replace (Z.to_nat (Z.of_nat (n + 0)) - n)%nat with 0%nat by lia.
      reflexivity.
    + rewrite (imap_ext _ (fun i v => (Z.of_nat (S n + i), Some v)))
        by (intros i x _; simpl; do 2 f_equal; lia).
      rewrite IH.
      destruct (decide (Z.of_nat (S n) <= l)%Z) as [H1|H1];
        destruct (decide (Z.of_nat n <= l)%Z) as [H2|H2];
        try lia; try reflexivity.
      replace (Z.to_nat l - n)%nat with (S (Z.to_nat l - S n)) by lia.
      reflexivity.
Qed.

Lemma assoc_Series_mode (t : list cell) (l : Z) :
  default None (assoc l (Series_mode t)) = mode_at (mode1 t) l.
Proof.
  unfold Series_mode, mode_at.
  etransitivity; [exact (assoc_imap_modes 0 (mode1 t) l)|].
  change (Z.of_nat 0) with 0%Z. rewrite Nat.sub_0_r. reflexivity.
Qed.

Lemma lookup_fillna_aligned (idx : list Z) (t s : list cell) (i : nat)
    (l : Z) (x : cell) :
  idx !! i = Some l -> s !! i = Some x ->
  fillna_aligned idx (Series_mode t) s !! i
  = Some (fill_cell (mode_at (mode1 t) l) x).
Proof.
  intros Hl Hx. unfold fillna_aligned.
  rewrite list_lookup_imap, Hx, Hl. simpl.
  rewrite assoc_Series_mode. reflexivity.
Qed.

Lemma lookup_fillna_scalar (m : cell) (s : list cell) (i : nat) (x : cell) :
  s !! i = Some x -> fillna_scalar m s !! i = Some (fill_cell m x).
Proof.
  intros Hx. unfold fillna_scalar.
  rewrite map_fmap, list_lookup_fmap, Hx. reflexivity.
Qed.

Lemma numeric_column_setcol_ne (c col : string) (X : DataFrame)
    (new : list cell) :
  Name c <> Name col -> numeric_column col X ->
  numeric_column col
    (mkFrame (index X) (setcol (Name c) new (columns X))).
Proof.
  intros Hne (s & Hs & Hnum). exists s. split; [|exact Hnum]. simpl.
  rewrite assoc_setcol_ne by exact Hne. exact Hs.
Qed.

End ManualImputation.

Section ManualImputationRun.
Import ManualTitanic.

Lemma column_median_setcol_ne (c col : string) (X : DataFrame)
    (new : list cell) :
  Name c <> Name col ->
  column_median col (mkFrame (index X) (setcol (Name c) new (columns X)))
  = column_median col X.
Proof.
  intros Hne. unfold column_median, getitem. simpl.
  rewrite assoc_setcol_ne by exact Hne. reflexivity.
Qed.

(** The whole block on a Titanic split: it runs through, and these are
    the six columns it has written. *)
Lemma impute_run (f : frames) sF sA sE tF tA tE mF mA :
  assoc (Name "Fare") (columns (X_train f)) = Some sF ->
  assoc (Name "Age") (columns (X_train f)) = Some sA ->
  assoc (Name "Embarked") (columns (X_train f)) = Some sE ->
  assoc (Name "Fare") (columns (X_test f)) = Some tF ->
  assoc (Name "Age") (columns (X_test f)) = Some tA ->
  assoc (Name "Embarked") (columns (X_test f)) = Some tE ->
  column_median "Fare" (X_test f) = Ok mF ->
  column_median "Age" (X_test f) = Ok mA ->
  impute f
  = Ok (mkFrames
          (mkFrame (index (X_train f))
             (setcol (Name "Embarked")
                (fillna_aligned (index (X_train f)) (Series_mode tE) sE)
                (setcol (Name "Age") (fillna_scalar mA sA)
                   (setcol (Name "Fare") (fillna_scalar mF sF)
                      (columns (X_train f))))))
          (mkFrame (index (X_test f))
             (setcol (Name "Embarked")
                (fillna_aligned (index (X_test f)) (Series_mode tE) tE)
                (setcol (Name "Age") (fillna_scalar mA tA)
                   (setcol (Name "Fare") (fillna_scalar mF tF)
                      (columns (X_test f))))))).
Proof.
  intros HsF HsA HsE HtF HtA HtE HmF HmA.
  assert (Name "Fare" <> Name "Age") as HFA by discriminate.
  assert (Name "Fare" <> Name "Embarked") as HFE by discriminate.
  assert (Name "Age" <> Name "Embarked") as HAE by discriminate.
  unfold impute, impute_train.
  rewrite (fillna_median_run "Fare" (X_train f) (X_test f) sF mF HsF HmF).
  cbn [rbind].
  rewrite (fillna_median_run "Age" _ (X_test f) sA mA)
    by (try exact HmA; simpl; rewrite assoc_setcol_ne by exact HFA;
        exact HsA).
  cbn [rbind].
  rewrite (fillna_mode_run "Embarked" _ (X_test f) sE tE)
    by (try exact HtE; simpl;
        rewrite !assoc_setcol_ne by assumption; exact HsE).
  cbn [rbind]. unfold impute_test. cbn [X_test X_train].
  rewrite (fillna_median_run "Fare" (X_test f) (X_test f) tF mF HtF HmF).
  cbn [rbind].
  rewrite (fillna_median_run "Age" _ _ tA mA)
    by (try (rewrite column_median_setcol_ne by exact HFA; exact HmA);
        simpl; rewrite assoc_setcol_ne by exact HFA; exact HtA).
  cbn [rbind].
  rewrite (fillna_mode_run "Embarked" _ _ tE tE)
    by (simpl; rewrite !assoc_setcol_ne by assumption; exact HtE).
  reflexivity.
Qed.

Lemma titanic_split_columns (f : frames) :
  titanic_split f ->
  exists sF sA sE tF tA tE mF mA,
    assoc (Name "Fare") (columns (X_train f)) = Some sF /\
    assoc (Name "Age") (columns (X_train f)) = Some sA /\
    assoc (Name "Embarked") (columns (X_train f)) = Some sE /\
    assoc (Name "Fare") (columns (X_test f)) = Some tF /\
    assoc (Name "Age") (columns (X_test f)) = Some tA /\
    assoc (Name "Embarked") (columns (X_test f)) = Some tE /\
    column_median "Fare" (X_test f) = Ok mF /\
    column_median "Age" (X_test f) = Ok mA.
Proof.
  intros ([sF HsF] & [sA HsA] & [sE HsE] & HnF & HnA & [tE HtE]).
  destruct (column_median_Ok _ _ HnF) as [mF HmF].
  destruct (column_median_Ok _ _ HnA) as [mA HmA].
  destruct HnF as (tF & HtF & _). destruct HnA as (tA & HtA & _).
  exists sF, sA, sE, tF, tA, tE, mF, mA. tauto.
Qed.

(** C9. On every split, the block runs through, and the missing fares
    and ages of the training frame are filled with the medians of the
    test frame: after the block, a training row whose [Fare] was missing
    holds [X_test['Fare'].median()], one whose [Age] was missing holds
    [X_test['Age'].median()], and the other fares and ages are as they
    were. *)
Theorem manual_imputation_fills_train_with_test_medians (f : frames) :
  titanic_split f ->
  exists (fare age : cell) (out : frames),
    column_median "Fare" (X_test f) = Ok fare /\
    column_median "Age" (X_test f) = Ok age /\
    impute f = Ok out /\
    (forall i x, at_row "Fare" i (X_train f) = Some x ->
       at_row "Fare" i (X_train out)
       = Some (match x with Some _ => x | None => fare end)) /\
    (forall i x, at_row "Age" i (X_train f) = Some x ->
       at_row "Age" i (X_train out)
       = Some (match x with Some _ => x | None => age end)).
Proof.
  intros Hsplit.
  destruct (titanic_split_columns f Hsplit)
    as (sF & sA & sE & tF & tA & tE & mF & mA
        & HsF & HsA & HsE & HtF & HtA & HtE & HmF & HmA).
  exists mF, mA. eexists. split; [exact HmF|]. split; [exact HmA|].
  split; [apply (impute_run f sF sA sE tF tA tE mF mA); assumption|].
  assert (Name "Fare" <> Name "Age") as HFA by discriminate.
  split; intros i x; unfold at_row; cbn [X_train columns].
  - rewrite HsF. simpl. intros Hx.
    rewrite !assoc_setcol_ne by discriminate.
    rewrite (assoc_setcol_eq _ _ sF) by exact HsF. simpl.
    rewrite (lookup_fillna_scalar mF sF i x Hx).
    destruct x; reflexivity.
  - rewrite HsA. simpl. intros Hx.
    rewrite assoc_setcol_ne by discriminate.
    rewrite (assoc_setcol_eq _ _ sA)
      by (rewrite assoc_setcol_ne by exact HFA; exact HsA).
    simpl. rewrite (lookup_fillna_scalar mA sA i x Hx).
    destruct x; reflexivity.
Qed.

(** C10. On every split, the [Embarked] fill aligns the Series that
    [mode()] returns on the row labels: a missing port at the row label
    [l] is filled only with the mode that sits at position [l] of the
    mode Series, so it stays missing at every label that is no such
    position, and with a single mode at every label but 0. This holds
    for the training frame and for the test frame, both filled from the
    modes of the test frame. *)
Theorem manual_imputation_embarked_aligned_on_labels (f : frames) :
  titanic_split f ->
  exists (out : frames),
    impute f = Ok out /\
    let modes := column_modes "Embarked" (X_test f) in
    forall X X', (X = X_train f /\ X' = X_train out) \/
                 (X = X_test f /\ X' = X_test out) ->
    forall i l, index X !! i = Some l ->
      at_row "Embarked" i X = Some None ->
      at_row "Embarked" i X' = Some (mode_at modes l) /\
      (~ (0 <= l < Z.of_nat (length modes))%Z ->
       at_row "Embarked" i X' = Some None) /\
      (length modes = 1%nat -> l <> 0%Z ->
       at_row "Embarked" i X' = Some None).
Proof.
  intros Hsplit.
  destruct (titanic_split_columns f Hsplit)
    as (sF & sA & sE & tF & tA & tE & mF & mA
        & HsF & HsA & HsE & HtF & HtA & HtE & HmF & HmA).
  eexists.
  split; [apply (impute_run f sF sA sE tF tA tE mF mA); assumption|].
  intros modes.
  assert (modes = mode1 tE) as Hmodes
    by (unfold modes, column_modes; rewrite HtE; reflexivity).
  assert (forall X X' s,
            assoc (Name "Embarked") (columns X) = Some s ->
            assoc (Name "Embarked") (columns X')
            = Some (fillna_aligned (index X) (Series_mode tE) s) ->
            forall i l, index X !! i = Some l ->
              at_row "Embarked" i X = Some None ->
              at_row "Embarked" i X' = Some (mode_at modes l)) as Hfill.
  { intros X X' s Hs Hs' i l Hl. unfold at_row. rewrite Hs, Hs'. simpl.
    intros Hx. rewrite (lookup_fillna_aligned _ tE s i l None Hl Hx).
    rewrite Hmodes. reflexivity. }
  assert (forall l, ~ (0 <= l < Z.of_nat (length modes))%Z ->
                    mode_at modes l = None) as Hout.
  { intros l Hl. unfold mode_at.
    destruct (decide (0 <= l)%Z); [|reflexivity].
    apply lookup_ge_None. lia. }
  intros X X' HX i l Hl Hrow.
  assert (at_row "Embarked" i X' = Some (mode_at modes l)) as Hres.
  { destruct HX as [[-> ->]|[-> ->]].
    - apply (Hfill _ _ sE HsE); [|exact Hl|exact Hrow].
      cbn [X_train columns index].
      apply (assoc_setcol_eq _ _ sE).
      rewrite !assoc_setcol_ne by discriminate. exact HsE.
    - apply (Hfill _ _ tE HtE); [|exact Hl|exact Hrow].
      cbn [X_test columns index].
      apply (assoc_setcol_eq _ _ tE).
      rewrite !assoc_setcol_ne by discriminate. exact HtE. }
  split; [exact Hres|]. split.
  - intros Hl'. rewrite Hres, (Hout l Hl'). reflexivity.
  - intros H1 Hl0. rewrite Hres, (Hout l); [reflexivity|]. lia.
Qed.

End ManualImputationRun.

Section ManualImputationWitnesses.
Import ManualTitanic.

Lemma small_split_is_titanic : titanic_split Examples.small_split.
Proof.
  unfold titanic_split.
  repeat split; try (eexists; reflexivity);
    (eexists; split; [reflexivity|]);
    repeat constructor; intros v [= <-]; discriminate.
Qed.

Lemma manual_imputation_fills_train_with_test_medians_witness :
  exists (out : frames),
    impute Examples.small_split = Ok out /\
    column_median "Fare" (X_test Examples.small_split)
    = Ok (Some (VFloat 9)) /\
    at_row "Fare" 0 (X_train Examples.small_split) = Some None /\
    at_row "Fare" 0 (X_train out) = Some (Some (VFloat 9)).
Proof.
  destruct (manual_imputation_fills_train_with_test_medians
              Examples.small_split small_split_is_titanic)
    as (fare & age & out & Hfare & _ & Hrun & HF & _).
  exists out. split; [exact Hrun|].
  assert (column_median "Fare" (X_test Examples.small_split)
          = Ok (Some (VFloat 9))) as Hm by reflexivity.
  split; [exact Hm|]. split; [reflexivity|].
  rewrite Hm in Hfare. injection Hfare as <-.
  rewrite (HF 0%nat None eq_refl). reflexivity.
Defined.

Lemma manual_imputation_embarked_aligned_on_labels_witness :
  exists (out : frames),
    impute Examples.small_split = Ok out /\
    index (X_train Examples.small_split) !! 1%nat = Some 3%Z /\
    at_row "Embarked" 1 (X_train Examples.small_split) = Some None /\
    at_row "Embarked" 1 (X_train out) = Some None.
Proof.
  destruct (manual_imputation_embarked_aligned_on_labels
              Examples.small_split small_split_is_titanic)
    as (out & Hrun & Hrows).
  exists out. split; [exact Hrun|]. split; [reflexivity|].
  split; [reflexivity|].
  destruct (Hrows (X_train Examples.small_split) (X_train out)
              (or_introl (conj eq_refl eq_refl)) 1%nat 3%Z
              eq_refl eq_refl) as (_ & Hstay & _).
  apply Hstay. simpl. lia.
Defined.

End ManualImputationWitnesses.

(** ** Exceptions in the cells *)

Section Propagation.
Import Notebook.
Context {world : Type} (lib : library world).

(** Without [try], an exception raised by an operation is the outcome
    of the program. *)
Lemma handler_free_propagates (p : prog) (w : world) (e : pyval) :
  handler_free p -> raises lib w p e -> (run lib w p).1 = Raised e.
Proof.
  intros Hfree Hr. induction Hr as
    [w f args kwargs k e w' Hcall
    |w f args kwargs k v w' e Hcall Hr IH
    |w body handler k e Hr IH
    |w body handler k e0 w' e Hbody Hr IH
    |w body handler k v w' e Hbody Hr IH];
    simpl in *; try contradiction.
  - rewrite Hcall. reflexivity.
  - rewrite Hcall. apply IH. apply Hfree.
Qed.

(** And nothing else is: an exception that comes out of the program
    was raised by an operation it called. *)
Lemma handler_free_raised_by_library (p : prog) (w : world) (e : pyval) :
  handler_free p -> (run lib w p).1 = Raised e -> raises lib w p e.
Proof.
  revert w. induction p as [v|f args kwargs k IH|body IHb handler IHh k IHk];
    intros w Hfree Hrun; simpl in *; [discriminate| |contradiction].
  destruct (lib w f args kwargs) as [[v|e'] w'] eqn:Hcall.
  - eapply raises_next; [exact Hcall|]. apply IH; [apply Hfree|exact Hrun].
  - simpl in Hrun. injection Hrun as ->.
    eapply raises_call. exact Hcall.
Qed.

End Propagation.

Section NotebookCode.
Import Notebook.

(** There is no [try] in the notebook. *)
Lemma notebook_code_handler_free (p : prog) :
  notebook_code p -> handler_free p.
Proof.
  destruct 1;
    try (unfold CustomCategoricalEncoder_transform; simpl; intros; exact I).
  simpl. intros c b. destruct b as [| [|] | | | | | | |]; simpl;
    intros; exact I.
Qed.

(** C7. No code of the notebook (its four code cells and the methods
    of its classes) handles an exception: whatever the libraries do, an
    exception raised by an operation that the code reaches is the
    outcome of the code, unchanged; and an exception that comes out of
    the code is one that an operation raised. *)
Theorem notebook_exceptions_propagate {world : Type}
    (lib : library world) (w : world) (p : prog) (e : pyval) :
  notebook_code p ->
  handler_free p /\
  (raises lib w p e -> (run lib w p).1 = Raised e) /\
  ((run lib w p).1 = Raised e -> raises lib w p e).
Proof.
  intros Hcode. pose proof (notebook_code_handler_free p Hcode) as Hfree.
  split; [exact Hfree|]. split.
  - apply handler_free_propagates. exact Hfree.
  - apply handler_free_raised_by_library. exact Hfree.
Qed.

Lemma notebook_exceptions_propagate_witness :
  raises Examples.no_data_file tt manual_cell (PName "FileNotFoundError") /\
  (run Examples.no_data_file tt manual_cell).1
  = Raised (PName "FileNotFoundError").
Proof.
  assert (raises Examples.no_data_file tt manual_cell
            (PName "FileNotFoundError")) as Hr.
  { unfold manual_cell, load_and_split.
    repeat (eapply raises_next; [reflexivity|]).
    eapply raises_call. reflexivity. }
  split; [exact Hr|].
  apply (proj1 (proj2 (notebook_exceptions_propagate
                         Examples.no_data_file tt manual_cell
                         (PName "FileNotFoundError") code_manual_cell))).
  exact Hr.
Defined.

(** With a handler the exception would not come out: the model does
    tell the two apart. *)
Lemma guarded_read_recovers :
  raises Examples.no_data_file tt Examples.guarded_read
         (PName "FileNotFoundError") /\
  (run Examples.no_data_file tt Examples.guarded_read).1 = Returned PNone.
Proof.
  split; [|reflexivity].
  apply raises_body. eapply raises_call. reflexivity.
Qed.

End NotebookCode.

(** * Further properties of the code *)

(** ** MyScaler on new data *)

Section MyScalerMore.
Local Open Scope R_scope.

Lemma broadcast_inplace_single op (X : ndarray) (m : f64) :
  broadcast_inplace op X [m] = Ok (map (map (fun x => op x m)) X).
Proof.
  unfold broadcast_inplace.
  destruct (decide (length [m] = length X)) as [Hlen|_]; [|reflexivity].
  destruct X as [|c [|c' X]]; try discriminate. reflexivity.
Qed.

Lemma broadcast_inplace_mismatch op (X : ndarray) (v : list f64) :
  length v <> length X -> length v <> 1%nat ->
  broadcast_inplace op X v = Raise ValueError.
Proof.
  intros Hlen Hone. unfold broadcast_inplace.
  destruct (decide (length v = length X)); [contradiction|].
  destruct v as [|m [|m' v]]; try reflexivity. contradiction.
Qed.

(** [transform] on a fitted scaler, step by step. *)
Lemma MyScaler_transform_run (s : store) (self X : loc) (a : ndarray)
    (m sc : list f64) :
  s !! self = Some (OMyScaler (Some m) (Some sc)) ->
  s !! X = Some (ONdarray a) ->
  MyScaler_transform self X s
  = match broadcast_inplace fsub a m with
    | Raise e => (Raise e, s ++ [ONdarray a])
    | Ok a1 =>
        match broadcast_inplace fdiv a1 sc with
        | Raise e => (Raise e, s ++ [ONdarray a1])
        | Ok a2 => (Ok (length s), s ++ [ONdarray a2])
        end
    end.
Proof.
  intros Hself HX.
  assert (self < length s)%nat as Hlt
    by (eapply lookup_lt_Some; eassumption).
  unfold MyScaler_transform, inplace, bind, alloc, put, attr, lift, ret.
  rewrite (get_ndarray_Ok s X a HX).
  rewrite (MyScaler_attrs_Ok (s ++ [ONdarray a]) self (Some m) (Some sc))
    by (rewrite lookup_app_l by exact Hlt; exact Hself).
  cbn [fst snd].
  rewrite (get_ndarray_Ok _ _ _ (lookup_snoc_new s (ONdarray a))).
  destruct (broadcast_inplace fsub a m) as [a1|e]; [|reflexivity].
  rewrite insert_snoc_new.
  rewrite (MyScaler_attrs_Ok (s ++ [ONdarray a1]) self (Some m) (Some sc))
    by (rewrite lookup_app_l by exact Hlt; exact Hself).
  cbn [fst snd].
  rewrite (get_ndarray_Ok _ _ _ (lookup_snoc_new s (ONdarray a1))).
  destruct (broadcast_inplace fdiv a1 sc) as [a2|e]; [|reflexivity].
  rewrite insert_snoc_new. reflexivity.
Qed.

(** [fit(X, y)] then [transform(X')], whatever the shapes. *)
Lemma MyScaler_fit_then_transform (s : store) (self X X' : loc)
    (y : labels) m0 s0 (a b : ndarray) :
  s !! self = Some (OMyScaler m0 s0) ->
  s !! X = Some (ONdarray a) ->
  s !! X' = Some (ONdarray b) ->
  bind (MyScaler_fit self X (Passed y))
       (fun fitted => MyScaler_transform fitted X') s
  = MyScaler_transform self X'
      (<[self := OMyScaler (Some (np_mean a)) (Some (np_std a))]> s).
Proof.
  intros Hself HX HX'. unfold bind at 1.
  rewrite (MyScaler_fit_run s self X y m0 s0 a Hself HX). reflexivity.
Qed.

Lemma fitted_lookups (s : store) (self X' : loc) m0 s0 (b : ndarray) o :
  s !! self = Some (OMyScaler m0 s0) ->
  s !! X' = Some (ONdarray b) ->
  <[self := o]> s !! self = Some o /\
  <[self := o]> s !! X' = Some (ONdarray b).
Proof.
  intros Hself HX'.
  assert (self < length s)%nat as Hlt
    by (eapply lookup_lt_Some; eassumption).
  split; [apply list_lookup_insert_eq; exact Hlt|].
  rewrite list_lookup_insert_ne by (intros ->; congruence). exact HX'.
Qed.

(** X1. A scaler fitted on an array with [c] columns transforms an array
    with [c] columns; fitted on one column it transforms any array, every
    column of it with the statistics of that one column; in every other
    case [transform] raises [ValueError], and the caller's tables are as
    they were. *)
Theorem MyScaler_transform_column_counts (s : store) (self X X' : loc)
    (y : labels) m0 s0 (a b : ndarray) :
  s !! self = Some (OMyScaler m0 s0) ->
  s !! X = Some (ONdarray a) ->
  s !! X' = Some (ONdarray b) ->
  let r := bind (MyScaler_fit self X (Passed y))
                (fun fitted => MyScaler_transform fitted X') s in
  (length b = length a ->
   r.1 = Ok (length s) /\
   r.2 !! length s = Some (ONdarray (zip_with scaled a b))) /\
  (forall c0, a = [c0] ->
   r.1 = Ok (length s) /\
   r.2 !! length s = Some (ONdarray (map (scaled c0) b))) /\
  (length b <> length a -> length a <> 1%nat ->
   r.1 = Raise ValueError /\
   r.2 !! X = Some (ONdarray a) /\ r.2 !! X' = Some (ONdarray b)).
Proof.
  intros Hself HX HX' r.
  assert (self < length s)%nat as Hlt
    by (eapply lookup_lt_Some; eassumption).
  set (fitted := OMyScaler (Some (np_mean a)) (Some (np_std a))).
  assert (length (<[self := fitted]> s) = length s) as Hlen
    by apply length_insert.
  split; [|split].
  - intros Hab. unfold r.
    rewrite (MyScaler_fit_transform_run s self X X' y m0 s0 a b
               Hself HX HX' Hab).
    split; [reflexivity|]. cbn [snd].
    rewrite <- Hlen. apply lookup_snoc_new.
  - intros c0 ->. unfold r.
    rewrite (MyScaler_fit_then_transform s self X X' y m0 s0 _ b
               Hself HX HX').
    destruct (fitted_lookups s self X' m0 s0 b
                (OMyScaler (Some (np_mean [c0])) (Some (np_std [c0])))
                Hself HX') as [Hs HX2].
    rewrite (MyScaler_transform_run _ self X' b _ _ Hs HX2).
    simpl np_mean. simpl np_std.
    rewrite !broadcast_inplace_single. cbn [fst snd].
    rewrite length_insert. split; [reflexivity|].
    rewrite <- (length_insert s self
                  (OMyScaler (Some [mean1 c0]) (Some [std1 c0]))).
    rewrite lookup_snoc_new. do 2 f_equal.
    rewrite List.map_map. apply List.map_ext. intros c. reflexivity.
  - intros Hab Ha1. unfold r.
    rewrite (MyScaler_fit_then_transform s self X X' y m0 s0 a b
               Hself HX HX').
    fold fitted.
    destruct (fitted_lookups s self X' m0 s0 b fitted Hself HX')
      as [Hs HX2].
    rewrite (MyScaler_transform_run _ self X' b _ _ Hs HX2).
    rewrite broadcast_inplace_mismatch
      by (unfold np_mean; rewrite List.length_map; congruence).
    split; [reflexivity|]. cbn [snd].
    assert (forall l o, s !! l = Some o -> l <> self ->
              (<[self := fitted]> s ++ [ONdarray b]) !! l = Some o) as Hk.
    { intros l o Hl Hne.
      rewrite lookup_app_l
        by (rewrite Hlen; eapply lookup_lt_Some; exact Hl).
      rewrite list_lookup_insert_ne by congruence. exact Hl. }
    split; apply Hk; try assumption; intros ->; congruence.
Qed.

Lemma MyScaler_transform_column_counts_witness :
  let r := bind (MyScaler_fit 2 0 (Passed None))
                (fun fitted => MyScaler_transform fitted 1)
                (MoreExamples.two_array_store
                   (dataset MoreExamples.two_features)
                   (dataset Examples.two_values)) in
  r.1 = Raise ValueError /\
  r.2 !! 1%nat = Some (ONdarray (dataset Examples.two_values)).
Proof.
  destruct (MyScaler_transform_column_counts
              (MoreExamples.two_array_store
                 (dataset MoreExamples.two_features)
                 (dataset Examples.two_values))
              2 0 1 None None None
              (dataset MoreExamples.two_features)
              (dataset Examples.two_values)
              eq_refl eq_refl eq_refl) as (_ & _ & Hbad).
  destruct Hbad as (Hraise & _ & Hkeep); [discriminate|discriminate|].
  split; [exact Hraise|exact Hkeep].
Defined.

End MyScalerMore.

Section MyScalerStatistics.
Local Open Scope R_scope.




Lemma fadd_NaN_r (x : f64) : fadd x NaN = NaN.
Proof. destruct x; reflexivity. Qed.

Lemma fsum_NaN (c : list f64) : NaN ∈ c -> fsum c = NaN.
Proof.
  induction c as [|x c IH]; intros H; [inversion H|].
  change (fsum (x :: c)) with (fadd x (fsum c)).
  apply elem_of_cons in H as [<-|H]; [reflexivity|].
  rewrite (IH H). apply fadd_NaN_r.
Qed.

(** The statistics of a column without rows, or with a NaN in it. *)
Lemma mean1_std1_NaN (c : list f64) :
  c = [] \/ NaN ∈ c -> mean1 c = NaN /\ std1 c = NaN.
Proof.
  intros [->|Hnan].
  - unfold std1, var1, mean1, count. simpl.
    destruct (Req_dec_T 0 0) as [_|H]; [|contradiction].
    destruct (Req_dec_T 0 0) as [_|H]; [|contradiction].
    split; reflexivity.
  - assert (mean1 c = NaN) as Hm
      by (unfold mean1; rewrite (fsum_NaN c Hnan); reflexivity).
    split; [exact Hm|].
    unfold std1, var1. rewrite Hm, List.map_map.
    rewrite fsum_NaN; [reflexivity|].
    apply list_elem_of_In, List.in_map_iff. exists NaN.
    split; [reflexivity|apply list_elem_of_In; exact Hnan].
Qed.

(** X3. Missing values are not skipped. [fit] does not raise on a column
    that has no rows or holds a NaN, but the mean and the deviation it
    stores for the column are NaN, and every entry of that column in any
    array transformed afterwards is NaN. *)
Theorem MyScaler_nan_takes_the_column (a b : ndarray) (s : store)
    (self X X' : loc) (y : labels) m0 s0 :
  s !! self = Some (OMyScaler m0 s0) ->
  s !! X = Some (ONdarray a) ->
  s !! X' = Some (ONdarray b) ->
  length b = length a ->
  exists (Xt : loc) (s' : store) (out : ndarray),
    bind (MyScaler_fit self X (Passed y))
         (fun fitted => MyScaler_transform fitted X') s = (Ok Xt, s') /\
    s' !! Xt = Some (ONdarray out) /\
    forall j c0 c, a !! j = Some c0 -> b !! j = Some c ->
      c0 = [] \/ NaN ∈ c0 ->
      np_mean a !! j = Some NaN /\ np_std a !! j = Some NaN /\
      exists o, out !! j = Some o /\ length o = length c /\
                Forall (fun x => x = NaN) o.
Proof.
  intros Hself HX HX' Hlen.
  eexists (length s), _, _.
  split; [apply (MyScaler_fit_transform_run s self X X' y m0 s0 _ _
                   Hself HX HX' Hlen)|].
  split; [rewrite <- (length_insert s self
                        (OMyScaler (Some (np_mean a)) (Some (np_std a))));
          apply lookup_snoc_new|].
  intros j c0 c Hj Hj' Hbad.
  destruct (mean1_std1_NaN c0 Hbad) as [Hm Hsd].
  unfold np_mean, np_std.
  rewrite !map_fmap, !list_lookup_fmap, Hj. simpl. rewrite Hm, Hsd.
  split; [reflexivity|]. split; [reflexivity|].
  exists (scaled c0 c). split; [|split].
  - rewrite lookup_zip_with, Hj, Hj'. reflexivity.
  - unfold scaled. rewrite !List.length_map. reflexivity.
  - unfold scaled. rewrite Hm, Hsd, List.map_map.
    apply Forall_forall. intros x Hx.
    apply list_elem_of_In, List.in_map_iff in Hx as (x0 & <- & _).
    unfold fsub. simpl fneg. rewrite fadd_NaN_r. reflexivity.
Qed.

Lemma MyScaler_nan_takes_the_column_witness :
  exists (Xt : loc) (s' : store) (out : ndarray),
    bind (MyScaler_fit 2 0 (Passed None))
         (fun fitted => MyScaler_transform fitted 1)
         (MoreExamples.two_array_store MoreExamples.with_nan
            (dataset Examples.two_values)) = (Ok Xt, s') /\
    s' !! Xt = Some (ONdarray out) /\
    out !! 0%nat = Some [NaN; NaN].
Proof.
  destruct (MyScaler_nan_takes_the_column
              MoreExamples.with_nan (dataset Examples.two_values)
              (MoreExamples.two_array_store MoreExamples.with_nan
                 (dataset Examples.two_values))
              2 0 1 None None None eq_refl eq_refl eq_refl eq_refl)
    as (Xt & s' & out & Hrun & Hout & Hcols).
  destruct (Hcols 0%nat [Fin 1; NaN; Fin 3] [Fin 1; Fin 3] eq_refl eq_refl)
    as (_ & _ & o & Ho & Hlen & Hall).
  { right. right. left. }
  exists Xt, s', out. split; [exact Hrun|]. split; [exact Hout|].
  rewrite Ho. f_equal.
  destruct o as [|x [|x' [|x'' o]]]; try discriminate.
  apply Forall_cons in Hall as [-> Hall].
  apply Forall_cons in Hall as [-> _]. reflexivity.
Defined.

End MyScalerStatistics.

(** ** Fitting and the inherited fit_transform *)

Section Fitting.
Import Mixin.

(** X4. [transform] needs [fit] where [fit] stores something: on a
    fresh [MyScaler] it raises [AttributeError] once [X] has been
    copied, on a fresh [CustomCategoricalImputer] it raises
    [AttributeError] at once; the caller's objects are as they were. *)
Theorem transform_before_fit (s : store) (self X : loc) :
  (forall a, s !! self = Some (OMyScaler None None) ->
             s !! X = Some (ONdarray a) ->
             MyScaler_transform self X s
             = (Raise AttributeError, s ++ [ONdarray a])) /\
  (forall d, s !! self = Some (OCustomCategoricalImputer None) ->
             s !! X = Some (OFrame d) ->
             CustomCategoricalImputer_transform self X s
             = (Raise AttributeError, s)).
Proof.
  split.
  - intros a Hself HX.
    assert (self < length s) as Hlt by (eapply lookup_lt_Some; eassumption).
    unfold MyScaler_transform, inplace, bind, alloc, put, attr, lift, ret.
    rewrite (get_ndarray_Ok s X a HX).
    rewrite (MyScaler_attrs_Ok (s ++ [ONdarray a]) self None None)
      by (rewrite lookup_app_l by exact Hlt; exact Hself).
    reflexivity.
  - intros d Hself HX.
    unfold CustomCategoricalImputer_transform, bind, alloc, attr, lift, ret.
    rewrite (get_frame_Ok s X d HX).
    unfold CustomCategoricalImputer_fill. rewrite Hself. reflexivity.
Qed.

Lemma transform_before_fit_witness :
  CustomCategoricalImputer_transform 1 0
    (Examples.imputer_store Examples.passengers)
  = (Raise AttributeError, Examples.imputer_store Examples.passengers) /\
  MyScaler_transform 1 0 (Examples.scaler_store Examples.two_values)
  = (Raise AttributeError,
     Examples.scaler_store Examples.two_values
       ++ [ONdarray (dataset Examples.two_values)]).
Proof.
  split.
  - apply (proj2 (transform_before_fit
                    (Examples.imputer_store Examples.passengers) 1 0)
             Examples.passengers); reflexivity.
  - apply (proj1 (transform_before_fit
                    (Examples.scaler_store Examples.two_values) 1 0)
             (dataset Examples.two_values)); reflexivity.
Defined.

(** X5. The [fit_transform] that [MyScaler] inherits cannot be called
    without labels: [fit_transform(X)] raises [TypeError] for every [X]
    and stores nothing, since [fit] declares [y] without a default. The
    three Titanic transformers do not look at the labels: for them
    [fit_transform(X)] and [fit_transform(X, y)] are the same. *)
Theorem fit_transform_and_labels (t : transformer) (s : store)
    (self X y : loc) :
  fit_transform MyScaler self X None s = (Raise TypeError, s) /\
  (t <> MyScaler ->
   fit_transform t self X None s = fit_transform t self X (Some y) s).
Proof.
  split; [reflexivity|].
  destruct t; [contradiction|reflexivity|reflexivity|reflexivity].
Qed.




End Fitting.

Lemma fit_transform_and_labels_witness :
  Mixin.fit_transform CustomCategoricalImputer 2 0 None
    (FittingExamples.titanic_store Examples.passengers)
  = Mixin.fit_transform CustomCategoricalImputer 2 0 (Some 0)
      (FittingExamples.titanic_store Examples.passengers).
Proof.
  apply (proj2 (fit_transform_and_labels CustomCategoricalImputer
                  (FittingExamples.titanic_store Examples.passengers)
                  2 0 0)).
  discriminate.
Defined.

(** ** The selector *)

Section Selector.
Import Shapes ManualTitanic.

(** The columns a selector asks for. *)
Lemma CustomSelector_transform_run (s : store) (self X : loc)
    (d : DataFrame) (c : bool) :
  s !! self = Some (OCustomSelector c) ->
  s !! X = Some (OFrame d) ->
  CustomSelector_transform self X s
  = match getitem_cols (if c then categorical_features
                        else numerical_features) d with
    | Ok r => (Ok (length s), s ++ [OFrame r])
    | Raise e => (Raise e, s)
    end.
Proof.
  intros Hself HX.
  unfold CustomSelector_transform, bind, alloc, lift.
  unfold CustomSelector_categorical. rewrite Hself.
  rewrite (get_frame_Ok s X d HX).
  destruct c; cbv beta iota;
    unfold categorical_features, numerical_features;
    destruct (getitem_cols _ d); reflexivity.
Qed.

(** What [X[[c1, ..., cn]]] gives when every column is there. *)
Lemma select_Ok (cols : list string) (d : DataFrame) cs :
  select cols d = Ok cs ->
  map fst cs = map Name cols /\
  forall n, n ∈ cols -> assoc (Name n) cs = assoc (Name n) (columns d).
Proof.
  revert cs. induction cols as [|c cols IH]; intros cs; simpl.
  - intros [= <-]. split; [reflexivity|]. intros n Hn. inversion Hn.
  - unfold getitem.
    destruct (assoc (Name c) (columns d)) as [col|] eqn:Hc; [|discriminate].
    simpl. destruct (select cols d) as [rest|e]; [|discriminate].
    simpl. intros [= <-]. destruct (IH rest eq_refl) as [Hfst Hassoc].
    split; [simpl; rewrite Hfst; reflexivity|].
    intros n Hn. simpl.
    destruct (decide (Name n = Name c)) as [Heq|Hne].
    + rewrite Heq. symmetry. exact Hc.
    + apply Hassoc. apply elem_of_cons in Hn as [->|Hn];
        [contradiction|exact Hn].
Qed.

(** It raises exactly when a column is not there, and then with
    [KeyError]. *)
Lemma select_Raise (cols : list string) (d : DataFrame) :
  (exists n, n ∈ cols /\ assoc (Name n) (columns d) = None) ->
  select cols d = Raise KeyError.
Proof.
  induction cols as [|c cols IH]; intros (n & Hn & Hnone);
    [inversion Hn|].
  simpl. unfold getitem.
  destruct (assoc (Name c) (columns d)) as [col|] eqn:Hc; [|reflexivity].
  simpl. rewrite IH; [reflexivity|].
  exists n. split; [|exact Hnone].
  apply elem_of_cons in Hn as [->|Hn]; [congruence|exact Hn].
Qed.

Lemma select_ext (cols : list string) (d d' : DataFrame) :
  (forall n, n ∈ cols ->
     assoc (Name n) (columns d) = assoc (Name n) (columns d')) ->
  select cols d = select cols d'.
Proof.
  induction cols as [|c cols IH]; intros H; [reflexivity|].
  simpl. unfold getitem. rewrite (H c) by left.
  rewrite IH by (intros n Hn; apply H; right; exact Hn). reflexivity.
Qed.

(** X7. On a frame that has the columns it asks for, the selector
    returns a new frame with the rows of [X] and with exactly these
    columns, in the order of the list in the code ([Sex], [Embarked],
    [Pclass], or [Fare], [Age], [SibSp], [Parch]), each with the cells
    it has in [X]. The label column and any other column are left
    behind. *)
Theorem CustomSelector_transform_selects (s : store) (self X : loc)
    (d : DataFrame) (c : bool) :
  s !! self = Some (OCustomSelector c) ->
  s !! X = Some (OFrame d) ->
  let names := if c then categorical_features else numerical_features in
  Forall (fun n => has_column n d) names ->
  exists out,
    CustomSelector_transform self X s
    = (Ok (length s), s ++ [OFrame out]) /\
    index out = index d /\
    labels_of out = map Name names /\
    forall n, n ∈ names ->
      assoc (Name n) (columns out) = assoc (Name n) (columns d).
Proof.
  intros Hself HX names Hcols.
  rewrite (CustomSelector_transform_run s self X d c Hself HX).
  fold names. unfold getitem_cols.
  destruct (select_total names d Hcols) as [cs Hcs]. rewrite Hcs.
  destruct (select_Ok names d cs Hcs) as [Hfst Hassoc].
  exists (mkFrame (index d) cs). split; [reflexivity|].
  split; [reflexivity|]. split; [exact Hfst|exact Hassoc].
Qed.

Lemma four_passengers_columns (c : bool) :
  Forall (fun n => has_column n FittingExamples.four_passengers)
         (if c then categorical_features else numerical_features).
Proof. destruct c; repeat constructor; eexists; reflexivity. Qed.

Lemma CustomSelector_transform_selects_witness :
  exists out,
    CustomSelector_transform 1 0
      (FittingExamples.titanic_store FittingExamples.four_passengers)
    = (Ok 4, FittingExamples.titanic_store FittingExamples.four_passengers
             ++ [OFrame out]) /\
    labels_of out = [Name "Sex"; Name "Embarked"; Name "Pclass"].
Proof.
  destruct (CustomSelector_transform_selects
              (FittingExamples.titanic_store FittingExamples.four_passengers)
              1 0 FittingExamples.four_passengers true eq_refl eq_refl
              (four_passengers_columns true))
    as (out & Hrun & _ & Hlabels & _).
  exists out. split; [exact Hrun|exact Hlabels].
Defined.

(** X8. When [X] lacks one of the columns the selector asks for,
    [transform] raises [KeyError] and nothing is made: the store is as
    it was. *)
Theorem CustomSelector_transform_missing_column (s : store)
    (self X : loc) (d : DataFrame) (c : bool) (n : string) :
  s !! self = Some (OCustomSelector c) ->
  s !! X = Some (OFrame d) ->
  n ∈ (if c then categorical_features else numerical_features) ->
  assoc (Name n) (columns d) = None ->
  CustomSelector_transform self X s = (Raise KeyError, s).
Proof.
  intros Hself HX Hn Hnone.
  rewrite (CustomSelector_transform_run s self X d c Hself HX).
  unfold getitem_cols. rewrite select_Raise; [reflexivity|].
  exists n. split; assumption.
Qed.

Lemma CustomSelector_transform_missing_column_witness :
  CustomSelector_transform 1 0
    [OFrame Examples.passengers; OCustomSelector false]
  = (Raise KeyError, [OFrame Examples.passengers; OCustomSelector false]).
Proof.
  apply (CustomSelector_transform_missing_column
           [OFrame Examples.passengers; OCustomSelector false] 1 0
           Examples.passengers false "Fare" eq_refl eq_refl).
  - left.
  - reflexivity.
Defined.

(** X9. Selecting is idempotent: the selector applied to its own output
    returns a frame equal to that output. *)
Theorem CustomSelector_transform_idempotent (s : store) (self X : loc)
    (d : DataFrame) (c : bool) :
  s !! self = Some (OCustomSelector c) ->
  s !! X = Some (OFrame d) ->
  Forall (fun n => has_column n d)
         (if c then categorical_features else numerical_features) ->
  exists out s',
    bind (CustomSelector_transform self X)
         (fun Xt => CustomSelector_transform self Xt) s
    = (Ok (S (length s)), s') /\
    s' !! length s = Some (OFrame out) /\
    s' !! S (length s) = Some (OFrame out).
Proof.
  intros Hself HX Hcols.
  assert (self < length s) as Hlt by (eapply lookup_lt_Some; eassumption).
  set (names := if c then categorical_features else numerical_features)
    in *.
  destruct (select_total names d Hcols) as [cs Hcs].
  destruct (select_Ok names d cs Hcs) as [_ Hassoc].
  set (out := mkFrame (index d) cs).
  assert (select names out = Ok cs) as Hcs'.
  { rewrite <- Hcs. apply select_ext. intros n Hn. apply Hassoc, Hn. }
  exists out, (s ++ [OFrame out] ++ [OFrame out]).
  unfold bind.
  rewrite (CustomSelector_transform_run s self X d c Hself HX).
  fold names. unfold getitem_cols at 1. rewrite Hcs. cbn [rbind].
  fold out.
  rewrite (CustomSelector_transform_run (s ++ [OFrame out]) self
             (length s) out c)
    by (try apply lookup_snoc_new;
        rewrite lookup_app_l by exact Hlt; exact Hself).
  fold names. unfold getitem_cols. rewrite Hcs'. cbn [rbind].
  split; [|split].
  - rewrite length_app, <- app_assoc. simpl.
    replace (length s + 1) with (S (length s)) by lia. reflexivity.
  - rewrite lookup_app_r by lia. rewrite Nat.sub_diag. reflexivity.
  - rewrite lookup_app_r by lia.
    replace (S (length s) - length s) with 1 by lia. reflexivity.
Qed.

Lemma CustomSelector_transform_idempotent_witness :
  exists out s',
    bind (CustomSelector_transform 1 0)
         (fun Xt => CustomSelector_transform 1 Xt)
         (FittingExamples.titanic_store FittingExamples.four_passengers)
    = (Ok 5, s') /\
    s' !! 4 = Some (OFrame out) /\ s' !! 5 = Some (OFrame out).
Proof.
  apply (CustomSelector_transform_idempotent
           (FittingExamples.titanic_store FittingExamples.four_passengers)
           1 0 FittingExamples.four_passengers true eq_refl eq_refl
           (four_passengers_columns true)).
Defined.

End Selector.

(** ** The imputer, again *)

Section ImputerMore.
Import Shapes Mixin.

Lemma CustomCategoricalImputer_transform_run (s : store) (self X : loc)
    (d : DataFrame) (fill : Series colname) :
  s !! self = Some (OCustomCategoricalImputer (Some fill)) ->
  s !! X = Some (OFrame d) ->
  CustomCategoricalImputer_transform self X s
  = (Ok (length s), s ++ [OFrame (DataFrame_fillna fill d)]).
Proof.
  intros Hself HX.
  unfold CustomCategoricalImputer_transform, bind, alloc, attr, ret.
  rewrite (get_frame_Ok s X d HX).
  unfold CustomCategoricalImputer_fill. rewrite Hself. reflexivity.
Qed.

Lemma fill_cell_twice (v x : cell) :
  fill_cell v (fill_cell v x) = fill_cell v x.
Proof. destruct x as [w|]; [reflexivity|]. destruct v; reflexivity. Qed.

(** Filling a filled frame changes nothing. *)
Lemma DataFrame_fillna_twice (fill : Series colname) (d : DataFrame) :
  DataFrame_fillna fill (DataFrame_fillna fill d) = DataFrame_fillna fill d.
Proof.
  unfold DataFrame_fillna. cbn [index columns]. f_equal.
  rewrite List.map_map. apply List.map_ext. intros [c col]. simpl.
  destruct (assoc c fill) as [v|]; [|reflexivity].
  unfold fillna_scalar. rewrite List.map_map. f_equal.
  apply List.map_ext. apply fill_cell_twice.
Qed.

Lemma assoc_map_key {V W} (g : colname -> V -> W) (k : colname)
    (l : list (colname * V)) :
  assoc k (map (fun p => (p.1, g p.1 p.2)) l) = g k <$> assoc k l.
Proof.
  induction l as [|[k' v] l IH]; [reflexivity|]. simpl.
  destruct (decide (k = k')) as [->|]; [reflexivity|exact IH].
Qed.

(** X10. Imputing is idempotent: [transform] applied to its own output
    returns a frame equal to that output. *)
Theorem CustomCategoricalImputer_transform_idempotent (s : store)
    (self X : loc) (d : DataFrame) (fill : Series colname) :
  s !! self = Some (OCustomCategoricalImputer (Some fill)) ->
  s !! X = Some (OFrame d) ->
  exists out s',
    bind (CustomCategoricalImputer_transform self X)
         (fun Xt => CustomCategoricalImputer_transform self Xt) s
    = (Ok (S (length s)), s') /\
    s' !! length s = Some (OFrame out) /\
    s' !! S (length s) = Some (OFrame out).
Proof.
  intros Hself HX.
  assert (self < length s) as Hlt by (eapply lookup_lt_Some; eassumption).
  set (out := DataFrame_fillna fill d).
  exists out, (s ++ [OFrame out] ++ [OFrame out]).
  unfold bind.
  rewrite (CustomCategoricalImputer_transform_run s self X d fill Hself HX).
  fold out.
  rewrite (CustomCategoricalImputer_transform_run (s ++ [OFrame out]) self
             (length s) out fill)
    by (try apply lookup_snoc_new;
        rewrite lookup_app_l by exact Hlt; exact Hself).
  unfold out at 3. rewrite DataFrame_fillna_twice. fold out.
  split; [|split].
  - rewrite length_app, <- app_assoc. simpl.
    replace (length s + 1) with (S (length s)) by lia. reflexivity.
  - rewrite lookup_app_r by lia. rewrite Nat.sub_diag. reflexivity.
  - rewrite lookup_app_r by lia.
    replace (S (length s) - length s) with 1 by lia. reflexivity.
Qed.

Lemma CustomCategoricalImputer_transform_idempotent_witness :
  exists out s',
    bind (CustomCategoricalImputer_transform 1 0)
         (fun Xt => CustomCategoricalImputer_transform 1 Xt)
         [OFrame Examples.passengers;
          OCustomCategoricalImputer
            (Some (first_modes Examples.passengers))]
    = (Ok 3, s') /\
    s' !! 2 = Some (OFrame out) /\ s' !! 3 = Some (OFrame out).
Proof.
  apply (CustomCategoricalImputer_transform_idempotent
           [OFrame Examples.passengers;
            OCustomCategoricalImputer
              (Some (first_modes Examples.passengers))]
           1 0 Examples.passengers (first_modes Examples.passengers)
           eq_refl eq_refl).
Defined.

(** X11. [fit_transform] on a table with a value in it closes every gap
    it can: a column of [X] that has a value comes out without any
    missing cell, a column that has none comes out as it is, and so does
    a column without missing cells. The rows are those of [X]. *)
Theorem CustomCategoricalImputer_fit_transform_fills_gaps (s : store)
    (self X : loc) (y : labels) (d : DataFrame) f0 :
  s !! self = Some (OCustomCategoricalImputer f0) ->
  s !! X = Some (OFrame d) ->
  ~ all_missing d ->
  exists out s',
    fit_transform CustomCategoricalImputer self X y s
    = (Ok (length s), s') /\
    s' !! length s = Some (OFrame out) /\
    index out = index d /\
    labels_of out = labels_of d /\
    forall c col, assoc c (columns d) = Some col ->
      exists col', assoc c (columns out) = Some col' /\
        length col' = length col /\
        (present col <> [] -> complete col') /\
        (present col = [] -> col' = col) /\
        (complete col -> col' = col).
Proof.
  intros Hself HX Hval.
  assert (self < length s) as Hlt by (eapply lookup_lt_Some; eassumption).
  set (fitted := OCustomCategoricalImputer (Some (first_modes d))).
  set (s1 := <[self := fitted]> s).
  assert (length s1 = length s) as Hl1 by apply length_insert.
  assert (forall ya, bind (fit CustomCategoricalImputer self X ya)
                       (fun f => transform CustomCategoricalImputer f X) s
                     = (Ok (length s),
                        s1 ++ [OFrame (DataFrame_fillna (first_modes d) d)]))
    as Hrun.
  { intros ya. unfold bind at 1. simpl fit.
    rewrite (CustomCategoricalImputer_fit_run s self X ya d f0 Hself HX).
    destruct (decide (all_missing d)); [contradiction|]. fold fitted s1.
    simpl transform.
    rewrite (CustomCategoricalImputer_transform_run s1 self X d
               (first_modes d))
      by (unfold s1; try (apply list_lookup_insert_eq; exact Hlt);
          rewrite list_lookup_insert_ne by (intros ->; congruence);
          exact HX).
    rewrite Hl1. reflexivity. }
  exists (DataFrame_fillna (first_modes d) d),
         (s1 ++ [OFrame (DataFrame_fillna (first_modes d) d)]).
  split; [unfold fit_transform; destruct y; apply Hrun|].
  split; [rewrite <- Hl1; apply lookup_snoc_new|].
  split; [reflexivity|].
  split.
  { unfold labels_of, DataFrame_fillna. cbn [columns].
    rewrite List.map_map. reflexivity. }
  intros c col Hcol.
  exists (map (fun x : cell => match x with
                               | Some _ => x
                               | None => default None (assoc c (first_modes d))
                               end) col).
  split.
  { unfold DataFrame_fillna. cbn [columns].
    rewrite (assoc_map_key
               (fun c col => match assoc c (first_modes d) with
                             | Some v => fillna_scalar v col
                             | None => col
                             end) c (columns d)).
    rewrite Hcol. simpl. f_equal. apply fillna_column. }
  split; [apply List.length_map|].
  assert (assoc c (first_modes d) = Some (head (mode1 col))) as Hfill.
  { unfold first_modes.
    rewrite (assoc_map_snd (fun col => head (mode1 col))), Hcol.
    reflexivity. }
  rewrite Hfill. simpl. split; [|split].
  - intros Hp. destruct (mode1 col) as [|v vs] eqn:Hm.
    + apply mode1_nil_iff in Hm. contradiction.
    + simpl. apply Forall_forall. intros x Hx.
      apply list_elem_of_In, List.in_map_iff in Hx as ([w|] & <- & _);
        discriminate.
  - intros Hp. apply mode1_nil_iff in Hp. rewrite Hp. simpl.
    rewrite <- (List.map_id col) at 2.
    apply List.map_ext. intros [w|]; reflexivity.
  - intros Hc. rewrite <- (List.map_id col) at 2.
    apply List.map_ext_in. intros x Hx.
    destruct x as [w|]; [reflexivity|].
    unfold complete in Hc. rewrite Forall_forall in Hc. exfalso.
    apply (Hc None); [apply list_elem_of_In; exact Hx|reflexivity].
Qed.

Lemma CustomCategoricalImputer_fit_transform_fills_gaps_witness :
  exists out s' col',
    fit_transform CustomCategoricalImputer 1 0 None
      (Examples.imputer_store Examples.passengers) = (Ok 2, s') /\
    s' !! 2 = Some (OFrame out) /\
    assoc (Name "Embarked") (columns out) = Some col' /\
    complete col'.
Proof.
  destruct (CustomCategoricalImputer_fit_transform_fills_gaps
              (Examples.imputer_store Examples.passengers) 1 0 None
              Examples.passengers None eq_refl eq_refl
              passengers_have_values)
    as (out & s' & Hrun & Hout & _ & _ & Hcols).
  destruct (Hcols (Name "Embarked")
              [None; Some (VStr "S"); Some (VStr "C")] eq_refl)
    as (col' & Hcol' & _ & Hfull & _).
  exists out, s', col'. split; [exact Hrun|]. split; [exact Hout|].
  split; [exact Hcol'|]. apply Hfull. discriminate.
Defined.

End ImputerMore.

(** ** Categories and their indicator columns *)

Section Categories.
Import Shapes.

(** Equality of cell values, spelled out. *)
Lemma value_eqb_true (a b : value) :
  value_eqb a b = true <->
  match num a, num b with
  | Some p, Some q => Qeq p q
  | None, None => a = b
  | _, _ => False
  end.
Proof.
  destruct a as [x|p|s], b as [y|q|t]; simpl;
    try (split; [discriminate|contradiction]).
  - rewrite Z.eqb_eq, inject_Z_injective. reflexivity.
  - apply Qeq_bool_iff.
  - rewrite Qeq_bool_iff. split; intros H; symmetry; exact H.
  - apply Qeq_bool_iff.
  - rewrite String.eqb_eq. split; [intros ->; reflexivity|intros [= ->]].
    reflexivity.
Qed.

Lemma value_eqb_sym (a b : value) :
  value_eqb a b = true -> value_eqb b a = true.
Proof.
  rewrite !value_eqb_true.
  destruct (num a), (num b); try tauto.
  - intros H. symmetry. exact H.
  - intros ->. reflexivity.
Qed.

Lemma value_eqb_trans (a b c : value) :
  value_eqb a b = true -> value_eqb b c = true -> value_eqb a c = true.
Proof.
  rewrite !value_eqb_true.
  destruct (num a), (num b), (num c); try tauto.
  - intros H1 H2. rewrite H1. exact H2.
  - intros -> ->. reflexivity.
Qed.

Lemma apart_sym (a b : value) : apart a b -> apart b a.
Proof.
  unfold apart. intros H. destruct (value_eqb b a) eqn:Hba; [|reflexivity].
  apply value_eqb_sym in Hba. congruence.
Qed.

Lemma FOP_filter (f : value -> bool) (l : list value) :
  ForallOrdPairs apart l -> ForallOrdPairs apart (List.filter f l).
Proof.
  induction 1 as [|a l Ha _ IH]; simpl; [constructor|].
  destruct (f a); [|exact IH].
  constructor; [|exact IH].
  apply Forall_forall. intros x Hx.
  apply list_elem_of_In, List.filter_In in Hx as [Hx _].
  rewrite Forall_forall in Ha. apply Ha, list_elem_of_In, Hx.
Qed.

Lemma FOP_dedup (l : list value) : ForallOrdPairs apart (dedup l).
Proof.
  induction l as [|v l IH]; simpl; [constructor|].
  constructor; [|apply FOP_filter; exact IH].
  apply Forall_forall. intros x Hx.
  apply list_elem_of_In, List.filter_In in Hx as [_ Hx].
  unfold apart. destruct (value_eqb v x); [discriminate|reflexivity].
Qed.

Lemma FOP_insert_sorted (leb : value -> value -> bool) (x : value)
    (l : list value) :
  Forall (apart x) l -> ForallOrdPairs apart l ->
  ForallOrdPairs apart (insert_sorted leb x l).
Proof.
  intros Hx Hl. induction Hl as [|a l Ha Hl IH]; simpl.
  - constructor; [constructor|constructor].
  - destruct (leb x a).
    + constructor; [exact Hx|]. constructor; assumption.
    + apply Forall_cons in Hx as [Hxa Hx].
      constructor; [|apply IH; exact Hx].
      apply Forall_forall. intros y Hy.
      apply elem_of_insert_sorted in Hy as [->|Hy].
      * apply apart_sym. exact Hxa.
      * rewrite Forall_forall in Ha. apply Ha, Hy.
Qed.

Lemma FOP_isort (leb : value -> value -> bool) (l : list value) :
  ForallOrdPairs apart l -> ForallOrdPairs apart (isort leb l).
Proof.
  induction 1 as [|a l Ha _ IH]; [constructor|].
  change (isort leb (a :: l)) with (insert_sorted leb a (isort leb l)).
  apply FOP_insert_sorted; [|exact IH].
  apply Forall_forall. intros y Hy. apply elem_of_isort in Hy.
  rewrite Forall_forall in Ha. apply Ha, Hy.
Qed.

(** The categories of a column are pairwise different. *)
Lemma levels_apart (c : list cell) : ForallOrdPairs apart (levels c).
Proof. apply FOP_isort, FOP_dedup. Qed.

Lemma FOP_lookup (l : list value) (i j : nat) (a b : value) :
  ForallOrdPairs apart l -> i <> j ->
  l !! i = Some a -> l !! j = Some b -> apart a b.
Proof.
  intros Hl. revert i j. induction Hl as [|x l Hx _ IH]; intros i j Hij Hi Hj;
    [discriminate|].
  rewrite Forall_forall in Hx.
  destruct i as [|i], j as [|j]; simpl in *.
  - congruence.
  - injection Hi as ->. apply Hx. eapply list_elem_of_lookup_2; exact Hj.
  - injection Hj as ->. apply apart_sym, Hx.
    eapply list_elem_of_lookup_2; exact Hi.
  - apply (IH i j); [congruence|assumption|assumption].
Qed.

(** A column whose values are all the same category has one category. *)
Lemma levels_single (c : list cell) :
  (forall x y, Some x ∈ c -> Some y ∈ c -> value_eqb x y = true) ->
  tail (levels c) = [].
Proof.
  intros Hsame. unfold levels.
  destruct (present c) as [|v vs] eqn:Hp; [reflexivity|].
  assert (List.filter (fun w => negb (value_eqb v w)) (dedup vs) = [])
    as Hnil.
  { destruct (List.filter _ (dedup vs)) as [|w ws] eqn:Hf; [reflexivity|].
    assert (In w (List.filter (fun w => negb (value_eqb v w)) (dedup vs)))
      as Hw by (rewrite Hf; left; reflexivity).
    apply List.filter_In in Hw as [Hw Hne].
    apply list_elem_of_In, elem_of_dedup in Hw.
    rewrite (Hsame v w) in Hne; [discriminate| |].
    - apply elem_of_present. rewrite Hp. left.
    - apply elem_of_present. rewrite Hp. right. exact Hw. }
  simpl. rewrite Hnil. reflexivity.
Qed.

End Categories.

(** ** The encoder *)

Section Encoder.
Import Shapes ManualTitanic.

Lemma filter_dummies (col prefix : string) (idx : list Z) (c : list cell) :
  List.filter (fun p => negb (bool_decide (p.1 = Name col)))
    (columns (get_dummies prefix idx c))
  = columns (get_dummies prefix idx c).
Proof.
  unfold get_dummies. cbn [columns].
  induction (tail (levels c)) as [|v vs IH]; [reflexivity|].
  simpl. rewrite IH. reflexivity.
Qed.

Lemma encoded_columns (col : string) (d : DataFrame) (c : list cell) :
  columns (encoded col d c)
  = List.filter (fun p => negb (bool_decide (p.1 = Name col))) (columns d)
    ++ columns (get_dummies col (index d) c).
Proof.
  unfold encoded. cbn [columns].
  rewrite List.filter_app, filter_dummies. reflexivity.
Qed.

Lemma filter_twice {A} (f g : A -> bool) (l : list A) :
  List.filter f (List.filter g l) = List.filter (fun x => g x && f x) l.
Proof.
  induction l as [|a l IH]; [reflexivity|]. simpl.
  destruct (g a); simpl; [destruct (f a)|]; rewrite IH; reflexivity.
Qed.

Lemma not_categorical (c : colname) :
  negb (bool_decide (c = Name "Sex"))
  && negb (bool_decide (c = Name "Embarked"))
  && negb (bool_decide (c = Name "Pclass"))
  = negb (bool_decide (c ∈ map Name categorical_features)).
Proof.
  unfold categorical_features. simpl map.
  destruct (bool_decide_reflect (c = Name "Sex")) as [->|H1];
    [rewrite (bool_decide_eq_true_2 (_ ∈ _))
       by (rewrite !elem_of_cons; tauto);
     reflexivity|].
  destruct (bool_decide_reflect (c = Name "Embarked")) as [->|H2];
    [rewrite (bool_decide_eq_true_2 (_ ∈ _))
       by (rewrite !elem_of_cons; tauto);
     reflexivity|].
  destruct (bool_decide_reflect (c = Name "Pclass")) as [->|H3];
    [rewrite (bool_decide_eq_true_2 (_ ∈ _))
       by (rewrite !elem_of_cons; tauto);
     reflexivity|].
  rewrite (bool_decide_eq_false_2 (_ ∈ _)); [reflexivity|].
  rewrite !elem_of_cons, elem_of_nil. tauto.
Qed.

Lemma assoc_None_Forall {V} (k : colname) (l : list (colname * V)) :
  Forall (fun p => p.1 <> k) l -> assoc k l = None.
Proof.
  induction 1 as [|[c v] l Hc _ IH]; [reflexivity|].
  simpl in *. destruct (decide (k = c)) as [->|_]; [contradiction|].
  exact IH.
Qed.

Lemma elem_of_dummy_columns (col : string) (d : DataFrame)
    (p : colname * list cell) :
  p ∈ dummy_columns col d ->
  exists (c : list cell) (v : value),
    assoc (Name col) (columns d) = Some c /\
    (v ∈ tail (levels c)) /\ p = (Dummy col v, map (indicator v) c).
Proof.
  unfold dummy_columns.
  destruct (assoc (Name col) (columns d)) as [c|];
    [|intros H; apply elem_of_nil in H; contradiction].
  unfold get_dummies. cbn [columns]. intros Hp.
  apply list_elem_of_fmap in Hp as (v & -> & Hv).
  exists c, v. auto.
Qed.

Lemma dummy_columns_not_named (col n : string) (d : DataFrame) :
  Forall (fun p : colname * list cell => p.1 <> Name n)
    (dummy_columns col d).
Proof.
  apply Forall_forall. intros p Hp.
  apply elem_of_dummy_columns in Hp as (c & v & _ & _ & ->).
  discriminate.
Qed.

(** The frame after the three turns of the loop. *)
Lemma encoded_three (d : DataFrame) (cS cE cP : list cell) :
  assoc (Name "Sex") (columns d) = Some cS ->
  assoc (Name "Embarked") (columns d) = Some cE ->
  assoc (Name "Pclass") (columns d) = Some cP ->
  let out := encoded "Pclass"
               (encoded "Embarked" (encoded "Sex" d cS) cE) cP in
  index out = index d /\
  columns out = other_columns d ++ dummy_columns "Sex" d
                ++ dummy_columns "Embarked" d ++ dummy_columns "Pclass" d.
Proof.
  intros HS HE HP out. split; [reflexivity|].
  unfold out. rewrite !encoded_columns.
  rewrite !List.filter_app, !filter_dummies, !filter_twice.
  unfold dummy_columns. rewrite HS, HE, HP.
  cbn [index encoded].
  rewrite <- !app_assoc. f_equal.
  unfold other_columns. apply List.filter_ext. intros p.
  rewrite andb_assoc. apply not_categorical.
Qed.

Lemma CustomCategoricalEncoder_transform_run (s : store) (self X : loc)
    (d : DataFrame) (cS cE cP : list cell) :
  s !! X = Some (OFrame d) ->
  assoc (Name "Sex") (columns d) = Some cS ->
  assoc (Name "Embarked") (columns d) = Some cE ->
  assoc (Name "Pclass") (columns d) = Some cP ->
  CustomCategoricalEncoder_transform self X s
  = (Ok (S (S (length s))),
     ((s ++ [OFrame (encoded "Sex" d cS)])
        ++ [OFrame (encoded "Embarked" (encoded "Sex" d cS) cE)])
       ++ [OFrame (encoded "Pclass"
                     (encoded "Embarked" (encoded "Sex" d cS) cE) cP)]).
Proof.
  intros HX HS HE HP.
  unfold CustomCategoricalEncoder_transform. simpl for_each.
  unfold bind at 1. rewrite (encode_column_run s X "Sex" d cS HX HS).
  set (d1 := encoded "Sex" d cS).
  assert (assoc (Name "Embarked") (columns d1) = Some cE) as HE1
    by (apply encoded_keeps; [discriminate|exact HE]).
  assert (assoc (Name "Pclass") (columns d1) = Some cP) as HP1
    by (apply encoded_keeps; [discriminate|exact HP]).
  unfold bind at 1.
  rewrite (encode_column_run _ _ "Embarked" d1 cE
             (lookup_snoc_new s _) HE1).
  set (d2 := encoded "Embarked" d1 cE).
  assert (assoc (Name "Pclass") (columns d2) = Some cP) as HP2
    by (apply encoded_keeps; [discriminate|exact HP1]).
  unfold bind at 1.
  rewrite (encode_column_run _ _ "Pclass" d2 cP
             (lookup_snoc_new _ _) HP2).
  rewrite !length_app. simpl length.
  replace (length s + 1 + 1) with (S (S (length s))) by lia.
  reflexivity.
Qed.

(** The encoder on a frame that has the three columns: where the result
    is, and what it is. *)
Lemma encoder_result (s : store) (self X : loc) (d : DataFrame) :
  s !! X = Some (OFrame d) ->
  Forall (fun n => has_column n d) categorical_features ->
  exists out s',
    CustomCategoricalEncoder_transform self X s
    = (Ok (S (S (length s))), s') /\
    length s' = S (S (S (length s))) /\
    s' !! S (S (length s)) = Some (OFrame out) /\
    index out = index d /\
    columns out = other_columns d ++ dummy_columns "Sex" d
                  ++ dummy_columns "Embarked" d ++ dummy_columns "Pclass" d.
Proof.
  intros HX Hcols.
  apply Forall_cons in Hcols as [[cS HS] Hcols].
  apply Forall_cons in Hcols as [[cE HE] Hcols].
  apply Forall_cons in Hcols as [[cP HP] _].
  destruct (encoded_three d cS cE cP HS HE HP) as [Hidx Hout].
  eexists _, _.
  split; [apply (CustomCategoricalEncoder_transform_run s self X d
                   cS cE cP HX HS HE HP)|].
  split; [rewrite !length_app; simpl; lia|].
  split; [|split; [exact Hidx|exact Hout]].
  replace (S (S (length s)))
    with (length ((s ++ [OFrame (encoded "Sex" d cS)])
                    ++ [OFrame (encoded "Embarked"
                                  (encoded "Sex" d cS) cE)]))
    by (rewrite !length_app; simpl; lia).
  apply lookup_snoc_new.
Qed.

(** X12. On a frame that has [Sex], [Embarked] and [Pclass], the encoder
    returns a new frame with the rows of [X] whose columns are: the
    columns of [X] other than these three, unchanged and in their order,
    then the indicator columns of [Sex], of [Embarked] and of [Pclass].
    The three columns themselves are gone. *)
Theorem CustomCategoricalEncoder_transform_columns (s : store)
    (self X : loc) (d : DataFrame) :
  s !! X = Some (OFrame d) ->
  Forall (fun n => has_column n d) categorical_features ->
  exists out s',
    CustomCategoricalEncoder_transform self X s
    = (Ok (S (S (length s))), s') /\
    s' !! S (S (length s)) = Some (OFrame out) /\
    index out = index d /\
    columns out = other_columns d ++ dummy_columns "Sex" d
                  ++ dummy_columns "Embarked" d ++ dummy_columns "Pclass" d /\
    forall n, n ∈ categorical_features ->
      assoc (Name n) (columns out) = None.
Proof.
  intros HX Hcols.
  destruct (encoder_result s self X d HX Hcols)
    as (out & s' & Hrun & _ & Hout & Hidx & Hcolumns).
  exists out, s'. repeat (split; [assumption|]).
  intros n Hn. rewrite Hcolumns. apply assoc_None_Forall.
  rewrite !Forall_app. repeat split.
  - apply Forall_forall. intros p Hp Heq.
    apply list_elem_of_In, List.filter_In in Hp as [_ Hp].
    rewrite bool_decide_eq_true_2 in Hp; [discriminate|].
    rewrite Heq. apply list_elem_of_In, List.in_map, list_elem_of_In, Hn.
  - apply dummy_columns_not_named.
  - apply dummy_columns_not_named.
  - apply dummy_columns_not_named.
Qed.

End Encoder.

Section Indicators.
Import Shapes ManualTitanic.

Lemma value_eqb_refl (a : value) : value_eqb a a = true.
Proof.
  apply value_eqb_true. destruct a; simpl; reflexivity.
Qed.

(** Every value of a list has its category among the first
    occurrences. *)
Lemma dedup_represents (w : value) (l : list value) :
  w ∈ l -> exists v, v ∈ dedup l /\ value_eqb v w = true.
Proof.
  induction l as [|a l IH]; intros Hw;
    [apply elem_of_nil in Hw; contradiction|].
  apply elem_of_cons in Hw as [->|Hw].
  - exists a. split; [left|apply value_eqb_refl].
  - destruct (IH Hw) as (v & Hv & Hvw).
    destruct (value_eqb a v) eqn:Hav.
    + exists a. split; [left|].
      apply (value_eqb_trans a v w); assumption.
    + exists v. split; [|exact Hvw]. simpl. right.
      apply list_elem_of_In, List.filter_In. split.
      * apply list_elem_of_In, Hv.
      * rewrite Hav. reflexivity.
Qed.

Lemma levels_represent (w : value) (c : list cell) :
  Some w ∈ c -> exists v, v ∈ levels c /\ value_eqb w v = true.
Proof.
  intros Hw. apply elem_of_present, dedup_represents in Hw
    as (v & Hv & Hvw).
  exists v. split; [apply elem_of_isort, Hv|apply value_eqb_sym, Hvw].
Qed.

Lemma elem_of_levels (v : value) (c : list cell) :
  v ∈ levels c -> Some v ∈ c.
Proof.
  intros Hv. apply elem_of_isort, elem_of_dedup in Hv.
  apply elem_of_present, Hv.
Qed.

Lemma elem_of_tail {A} (x : A) (l : list A) : x ∈ tail l -> x ∈ l.
Proof. destruct l; simpl; [trivial|]. intros H. right. exact H. Qed.

(** Two different categories of one column are apart. *)
Lemma levels_distinct (c : list cell) (a b : value) :
  a ∈ levels c -> b ∈ levels c -> a <> b -> apart a b.
Proof.
  intros Ha Hb Hab.
  apply list_elem_of_lookup in Ha as [i Hi].
  apply list_elem_of_lookup in Hb as [j Hj].
  apply (FOP_lookup (levels c) i j); [apply levels_apart| |exact Hi|exact Hj].
  intros ->. congruence.
Qed.

(** The first category is apart from all the others. *)
Lemma levels_head_apart (c : list cell) (v0 v : value) :
  head (levels c) = Some v0 -> v ∈ tail (levels c) -> apart v0 v.
Proof.
  intros Hh Hv. pose proof (levels_apart c) as Hl.
  destruct (levels c) as [|x l]; [discriminate|].
  injection Hh as ->. simpl in Hv.
  inversion Hl as [|? ? Hx _]; subst.
  rewrite Forall_forall in Hx. apply Hx, Hv.
Qed.

Lemma indicator_one (v : value) (x : cell) :
  indicator v x = Some (VInt 1) <->
  exists w, x = Some w /\ value_eqb w v = true.
Proof.
  unfold indicator. destruct x as [w|].
  - destruct (value_eqb w v) eqn:Hw.
    + split; [intros _; exists w; auto|reflexivity].
    + split; [discriminate|]. intros (w' & [= <-] & H). congruence.
  - split; [discriminate|]. intros (w' & [=] & _).
Qed.

Lemma indicator_zero (v : value) (x : cell) :
  indicator v x <> Some (VInt 1) -> indicator v x = Some (VInt 0).
Proof.
  unfold indicator. destruct x as [w|]; [|reflexivity].
  destruct (value_eqb w v); [congruence|reflexivity].
Qed.

Lemma indicator_bit (v : value) (x : cell) : is_bit (indicator v x).
Proof.
  unfold indicator, is_bit. destruct x as [w|]; [|left; reflexivity].
  destruct (value_eqb w v); [right|left]; reflexivity.
Qed.

Lemma lookup_indicators (v : value) (c : list cell) (i : nat) (y : cell) :
  map (indicator v) c !! i = Some y <->
  exists x, c !! i = Some x /\ y = indicator v x.
Proof.
  change (map (indicator v) c) with (indicator v <$> c).
  rewrite list_lookup_fmap. destruct (c !! i) as [x|]; simpl.
  - split; [intros [= <-]; exists x; auto|intros (x' & [= <-] & ->)].
    reflexivity.
  - split; [discriminate|intros (x' & [=] & _)].
Qed.

(** Where a column with a [Dummy] label of the encoder's result comes
    from, when the input frame has plain names only. *)
Lemma dummy_in_output (d : DataFrame) (col : string) (v : value)
    (p : list cell) :
  Forall plain (labels_of d) ->
  (Dummy col v, p) ∈ other_columns d ++ dummy_columns "Sex" d
                     ++ dummy_columns "Embarked" d
                     ++ dummy_columns "Pclass" d ->
  col ∈ categorical_features /\
  exists c, assoc (Name col) (columns d) = Some c /\
    (v ∈ tail (levels c)) /\ p = map (indicator v) c.
Proof.
  intros Hplain Hin.
  rewrite !elem_of_app in Hin.
  destruct Hin as [Hin|[Hin|[Hin|Hin]]].
  - apply list_elem_of_In, List.filter_In in Hin as [Hin _].
    unfold labels_of in Hplain. rewrite Forall_forall in Hplain.
    exfalso. apply (Hplain (Dummy col v)).
    apply list_elem_of_In.
    change (Dummy col v) with (fst (Dummy col v, p)).
    apply List.in_map, Hin.
  - apply elem_of_dummy_columns in Hin as (c & v' & Hc & Hv & [= -> -> ->]).
    split; [unfold categorical_features; rewrite !elem_of_cons; tauto|].
    exists c. auto.
  - apply elem_of_dummy_columns in Hin as (c & v' & Hc & Hv & [= -> -> ->]).
    split; [unfold categorical_features; rewrite !elem_of_cons; tauto|].
    exists c. auto.
  - apply elem_of_dummy_columns in Hin as (c & v' & Hc & Hv & [= -> -> ->]).
    split; [unfold categorical_features; rewrite !elem_of_cons; tauto|].
    exists c. auto.
Qed.

Lemma dummy_of_output (d : DataFrame) (col : string) (c : list cell)
    (v : value) :
  col ∈ categorical_features ->
  assoc (Name col) (columns d) = Some c ->
  v ∈ tail (levels c) ->
  (Dummy col v, map (indicator v) c)
    ∈ other_columns d ++ dummy_columns "Sex" d
      ++ dummy_columns "Embarked" d ++ dummy_columns "Pclass" d.
Proof.
  intros Hcol Hc Hv.
  assert ((Dummy col v, map (indicator v) c) ∈ dummy_columns col d) as Hin.
  { unfold dummy_columns. rewrite Hc. unfold get_dummies. cbn [columns].
    apply (list_elem_of_fmap_2
             (fun v => (Dummy col v, map (indicator v) c))), Hv. }
  unfold categorical_features in Hcol.
  rewrite !elem_of_cons, elem_of_nil in Hcol.
  rewrite !elem_of_app.
  destruct Hcol as [->|[->|[->|[]]]]; tauto.
Qed.

(** X13. In the encoder's result every column labelled [col_v] belongs
    to one of the three columns [col] of [X] and to a value [v] that
    occurs in it; it has one cell per row, each the integer 0 or 1 and
    none missing, and the cell of a row is 1 exactly when the row's cell
    in [X] holds the category [v]. *)
Theorem CustomCategoricalEncoder_transform_indicators (s : store)
    (self X : loc) (d : DataFrame) :
  s !! X = Some (OFrame d) ->
  Forall (fun n => has_column n d) categorical_features ->
  Forall plain (labels_of d) ->
  exists out s',
    CustomCategoricalEncoder_transform self X s
    = (Ok (S (S (length s))), s') /\
    s' !! S (S (length s)) = Some (OFrame out) /\
    forall col v p, (Dummy col v, p) ∈ columns out ->
      exists c,
        col ∈ categorical_features /\
        assoc (Name col) (columns d) = Some c /\
        Some v ∈ c /\
        length p = length c /\
        Forall is_bit p /\
        forall i, p !! i = Some (Some (VInt 1)) <->
                  exists w, c !! i = Some (Some w) /\ value_eqb w v = true.
Proof.
  intros HX Hcols Hplain.
  destruct (encoder_result s self X d HX Hcols)
    as (out & s' & Hrun & _ & Hout & _ & Hcolumns).
  exists out, s'. split; [exact Hrun|]. split; [exact Hout|].
  intros col v p Hp. rewrite Hcolumns in Hp.
  apply dummy_in_output in Hp as (Hcol & c & Hc & Hv & ->);
    [|exact Hplain].
  exists c. split; [exact Hcol|]. split; [exact Hc|].
  split; [apply elem_of_levels, elem_of_tail, Hv|].
  split; [apply length_map|].
  split.
  - apply Forall_forall. intros y Hy.
    apply list_elem_of_fmap in Hy as (x & -> & _). apply indicator_bit.
  - intros i. rewrite lookup_indicators. split.
    + intros (x & Hx & Hone). symmetry in Hone.
      apply indicator_one in Hone as (w & -> & Hw). exists w. auto.
    + intros (w & Hw & Hwv). exists (Some w). split; [exact Hw|].
      symmetry. apply indicator_one. exists w. auto.
Qed.

(** X14. In the encoder's result a row has at most one 1 among the
    indicator columns of one feature; and it has one when its cell in
    [X] holds a category other than the first. *)
Theorem CustomCategoricalEncoder_transform_one_hot (s : store)
    (self X : loc) (d : DataFrame) :
  s !! X = Some (OFrame d) ->
  Forall (fun n => has_column n d) categorical_features ->
  Forall plain (labels_of d) ->
  exists out s',
    CustomCategoricalEncoder_transform self X s
    = (Ok (S (S (length s))), s') /\
    s' !! S (S (length s)) = Some (OFrame out) /\
    (forall col va vb pa pb i,
        (Dummy col va, pa) ∈ columns out ->
        (Dummy col vb, pb) ∈ columns out ->
        va <> vb ->
        ~ (pa !! i = Some (Some (VInt 1)) /\
           pb !! i = Some (Some (VInt 1)))) /\
    (forall col c v0 w i,
        col ∈ categorical_features ->
        assoc (Name col) (columns d) = Some c ->
        head (levels c) = Some v0 ->
        c !! i = Some (Some w) ->
        value_eqb w v0 = false ->
        exists v p, (Dummy col v, p) ∈ columns out /\
                    p !! i = Some (Some (VInt 1))).
Proof.
  intros HX Hcols Hplain.
  destruct (encoder_result s self X d HX Hcols)
    as (out & s' & Hrun & _ & Hout & _ & Hcolumns).
  exists out, s'. split; [exact Hrun|]. split; [exact Hout|].
  rewrite Hcolumns. split.
  - intros col va vb pa pb i Ha Hb Hab [Hia Hib].
    apply dummy_in_output in Ha as (_ & c & Hc & Hva & ->); [|exact Hplain].
    apply dummy_in_output in Hb as (_ & c' & Hc' & Hvb & ->);
      [|exact Hplain].
    rewrite Hc in Hc'. injection Hc' as <-.
    apply lookup_indicators in Hia as (x & Hx & Hone).
    apply lookup_indicators in Hib as (x' & Hx' & Hone').
    rewrite Hx in Hx'. injection Hx' as <-.
    symmetry in Hone, Hone'.
    apply indicator_one in Hone as (w & -> & Hwa).
    apply indicator_one in Hone' as (w' & [= <-] & Hwb).
    assert (apart va vb) as Hapart
      by (apply (levels_distinct c); [apply elem_of_tail, Hva
                                     |apply elem_of_tail, Hvb|exact Hab]).
    unfold apart in Hapart.
    rewrite (value_eqb_trans va w vb) in Hapart;
      [discriminate|apply value_eqb_sym, Hwa|exact Hwb].
  - intros col c v0 w i Hcol Hc Hh Hi Hw0.
    destruct (levels_represent w c) as (v & Hv & Hwv);
      [eapply list_elem_of_lookup_2; exact Hi|].
    assert (v ∈ tail (levels c)) as Hvt.
    { destruct (levels c) as [|x l]; [discriminate|].
      injection Hh as ->. apply elem_of_cons in Hv as [->|Hv];
        [congruence|exact Hv]. }
    exists v, (map (indicator v) c).
    split; [apply dummy_of_output; assumption|].
    apply lookup_indicators. exists (Some w). split; [exact Hi|].
    symmetry. apply indicator_one. exists w. auto.
Qed.

(** X15. The encoder drops the first category: a row whose cell holds
    the first category of its column and a row whose cell is missing
    both get 0 in every indicator column of that feature, so the result
    does not tell them apart. *)
Theorem CustomCategoricalEncoder_transform_first_and_missing (s : store)
    (self X : loc) (d : DataFrame) :
  s !! X = Some (OFrame d) ->
  Forall (fun n => has_column n d) categorical_features ->
  Forall plain (labels_of d) ->
  exists out s',
    CustomCategoricalEncoder_transform self X s
    = (Ok (S (S (length s))), s') /\
    s' !! S (S (length s)) = Some (OFrame out) /\
    forall col c i x,
      assoc (Name col) (columns d) = Some c ->
      c !! i = Some x ->
      (x = None \/
       exists w v0, x = Some w /\ head (levels c) = Some v0 /\
                    value_eqb w v0 = true) ->
      forall v p, (Dummy col v, p) ∈ columns out ->
                  p !! i = Some (Some (VInt 0)).
Proof.
  intros HX Hcols Hplain.
  destruct (encoder_result s self X d HX Hcols)
    as (out & s' & Hrun & _ & Hout & _ & Hcolumns).
  exists out, s'. split; [exact Hrun|]. split; [exact Hout|].
  rewrite Hcolumns. intros col c i x Hc Hi Hx v p Hp.
  apply dummy_in_output in Hp as (_ & c' & Hc' & Hv & ->); [|exact Hplain].
  rewrite Hc in Hc'. injection Hc' as <-.
  apply lookup_indicators. exists x. split; [exact Hi|].
  symmetry. apply indicator_zero. intros Hone.
  apply indicator_one in Hone as (w & -> & Hwv).
  destruct Hx as [Hx|(w' & v0 & [= <-] & Hh & Hw0)]; [discriminate|].
  pose proof (levels_head_apart c v0 v Hh Hv) as Hapart.
  unfold apart in Hapart.
  rewrite (value_eqb_trans v0 w v) in Hapart;
    [discriminate|apply value_eqb_sym, Hw0|exact Hwv].
Qed.

(** X16. A feature whose cells in [X] all hold the same category leaves
    no column in the encoder's result: its own column is dropped and it
    gets no indicator column. *)
Theorem CustomCategoricalEncoder_transform_single_category (s : store)
    (self X : loc) (d : DataFrame) (col : string) (c : list cell) :
  s !! X = Some (OFrame d) ->
  Forall (fun n => has_column n d) categorical_features ->
  Forall plain (labels_of d) ->
  col ∈ categorical_features ->
  assoc (Name col) (columns d) = Some c ->
  (forall x y, Some x ∈ c -> Some y ∈ c -> value_eqb x y = true) ->
  exists out s',
    CustomCategoricalEncoder_transform self X s
    = (Ok (S (S (length s))), s') /\
    s' !! S (S (length s)) = Some (OFrame out) /\
    assoc (Name col) (columns out) = None /\
    forall v p, (Dummy col v, p) ∉ columns out.
Proof.
  intros HX Hcols Hplain Hcol Hc Hsame.
  destruct (encoder_result s self X d HX Hcols)
    as (out & s' & Hrun & _ & Hout & _ & Hcolumns).
  exists out, s'. split; [exact Hrun|]. split; [exact Hout|].
  rewrite Hcolumns. split.
  - apply assoc_None_Forall. rewrite !Forall_app. repeat split.
    + apply Forall_forall. intros p Hp Heq.
      apply list_elem_of_In, List.filter_In in Hp as [_ Hp].
      rewrite bool_decide_eq_true_2 in Hp; [discriminate|].
      rewrite Heq.
      apply (list_elem_of_fmap_2 Name), Hcol.
    + apply dummy_columns_not_named.
    + apply dummy_columns_not_named.
    + apply dummy_columns_not_named.
  - intros v p Hp.
    apply dummy_in_output in Hp as (_ & c' & Hc' & Hv & _); [|exact Hplain].
    rewrite Hc in Hc'. injection Hc' as <-.
    rewrite (levels_single c Hsame) in Hv.
    apply elem_of_nil in Hv. exact Hv.
Qed.

Lemma assoc_In {V} (k : colname) (v : V) (l : list (colname * V)) :
  In (k, v) l -> assoc k l <> None.
Proof.
  induction l as [|[k' v'] l IH]; simpl; [contradiction|].
  intros [[= -> ->]|Hin].
  - rewrite decide_True by reflexivity. discriminate.
  - destruct (decide (k = k')); [discriminate|apply IH, Hin].
Qed.

Lemma get_dummies_not_named (prefix n : string) (idx : list Z)
    (c : list cell) :
  Forall (fun p : colname * list cell => p.1 <> Name n)
    (columns (get_dummies prefix idx c)).
Proof.
  unfold get_dummies. cbn [columns]. apply Forall_forall. intros p Hp.
  apply list_elem_of_fmap in Hp as (v & -> & _). discriminate.
Qed.

Lemma encode_column_raise (s : store) (X : loc) (col : string)
    (d : DataFrame) :
  s !! X = Some (OFrame d) ->
  assoc (Name col) (columns d) = None ->
  encode_column X col s = (Raise KeyError, s).
Proof.
  intros HX Hc. unfold encode_column, bind, lift.
  rewrite (get_frame_Ok s X d HX). unfold getitem. rewrite Hc. reflexivity.
Qed.

(** X17. The encoder on a frame that lacks one of [Sex], [Embarked] and
    [Pclass] raises [KeyError] and leaves the objects of the store as
    they were; it returns no frame with the columns it did find. *)
Theorem CustomCategoricalEncoder_transform_missing_column (s : store)
    (self X : loc) (d : DataFrame) (col : string) :
  s !! X = Some (OFrame d) ->
  col ∈ categorical_features ->
  assoc (Name col) (columns d) = None ->
  exists s',
    CustomCategoricalEncoder_transform self X s = (Raise KeyError, s') /\
    s `prefix_of` s'.
Proof.
  intros HX Hcol Hnone.
  unfold CustomCategoricalEncoder_transform. simpl for_each.
  destruct (assoc (Name "Sex") (columns d)) as [cS|] eqn:HS.
  2:{ exists s. unfold bind at 1.
      rewrite (encode_column_raise s X "Sex" d HX HS). split; [reflexivity|].
      reflexivity. }
  unfold bind at 1. rewrite (encode_column_run s X "Sex" d cS HX HS).
  set (d1 := encoded "Sex" d cS).
  destruct (assoc (Name "Embarked") (columns d)) as [cE|] eqn:HE.
  2:{ exists (s ++ [OFrame d1]). unfold bind at 1.
      rewrite (encode_column_raise _ _ "Embarked" d1 (lookup_snoc_new s _)).
      - split; [reflexivity|]. apply prefix_app_r. reflexivity.
      - unfold d1. rewrite encoded_columns.
        apply assoc_None_Forall. rewrite Forall_app. split.
        + apply Forall_forall. intros p Hp Heq.
          apply list_elem_of_In, List.filter_In in Hp as [Hp _].
          destruct p as [k v]. simpl in Heq. subst k.
          apply assoc_In in Hp. congruence.
        + apply get_dummies_not_named. }
  assert (assoc (Name "Embarked") (columns d1) = Some cE) as HE1
    by (apply encoded_keeps; [discriminate|exact HE]).
  unfold bind at 1.
  rewrite (encode_column_run _ _ "Embarked" d1 cE (lookup_snoc_new s _) HE1).
  set (d2 := encoded "Embarked" d1 cE).
  assert (assoc (Name "Pclass") (columns d) = None) as HP.
  { unfold categorical_features in Hcol.
    rewrite !elem_of_cons, elem_of_nil in Hcol.
    destruct Hcol as [->|[->|[->|[]]]]; congruence. }
  exists ((s ++ [OFrame d1]) ++ [OFrame d2]). unfold bind at 1.
  rewrite (encode_column_raise _ _ "Pclass" d2 (lookup_snoc_new _ _)).
  - split; [reflexivity|]. rewrite <- app_assoc. apply prefix_app_r.
    reflexivity.
  - unfold d2, d1. rewrite !encoded_columns, List.filter_app, filter_dummies.
    apply assoc_None_Forall. rewrite !Forall_app. repeat split.
    + apply Forall_forall. intros p Hp Heq.
      apply list_elem_of_In, List.filter_In in Hp as [Hp _].
      apply List.filter_In in Hp as [Hp _].
      destruct p as [k v]. simpl in Heq. subst k.
      apply assoc_In in Hp. congruence.
    + apply get_dummies_not_named.
    + apply get_dummies_not_named.
Qed.

End Indicators.

Section EncoderAgain.
Import Shapes ManualTitanic.

Lemma encoder_output_drops (d : DataFrame) (n : string) :
  n ∈ categorical_features ->
  assoc (Name n)
    (other_columns d ++ dummy_columns "Sex" d
       ++ dummy_columns "Embarked" d ++ dummy_columns "Pclass" d) = None.
Proof.
  intros Hn. apply assoc_None_Forall. rewrite !Forall_app. repeat split.
  - apply Forall_forall. intros p Hp Heq.
    apply list_elem_of_In, List.filter_In in Hp as [_ Hp].
    rewrite bool_decide_eq_true_2 in Hp; [discriminate|].
    rewrite Heq. apply (list_elem_of_fmap_2 Name), Hn.
  - apply dummy_columns_not_named.
  - apply dummy_columns_not_named.
  - apply dummy_columns_not_named.
Qed.

(** X18. Encoding is not idempotent: the encoder applied to its own
    result raises [KeyError] and makes nothing, the columns it encodes
    being gone. *)
Theorem CustomCategoricalEncoder_transform_not_twice (s : store)
    (self X : loc) (d : DataFrame) :
  s !! X = Some (OFrame d) ->
  Forall (fun n => has_column n d) categorical_features ->
  exists X' s',
    CustomCategoricalEncoder_transform self X s = (Ok X', s') /\
    CustomCategoricalEncoder_transform self X' s' = (Raise KeyError, s').
Proof.
  intros HX Hcols.
  destruct (encoder_result s self X d HX Hcols)
    as (out & s' & Hrun & _ & Hout & _ & Hcolumns).
  exists (S (S (length s))), s'. split; [exact Hrun|].
  unfold CustomCategoricalEncoder_transform. simpl for_each.
  unfold bind at 1.
  rewrite (encode_column_raise s' _ "Sex" out Hout); [reflexivity|].
  rewrite Hcolumns. apply encoder_output_drops. left.
Qed.

Lemma four_passengers_plain :
  Forall plain (labels_of FittingExamples.four_passengers).
Proof. repeat constructor. Qed.

Lemma two_men_columns :
  Forall (fun n => has_column n FittingExamples.two_men) categorical_features.
Proof. repeat constructor; eexists; reflexivity. Qed.

Lemma two_men_plain : Forall plain (labels_of FittingExamples.two_men).
Proof. repeat constructor. Qed.

Lemma two_men_same_sex (x y : value) :
  Some x ∈ [Some (VStr "male"); Some (VStr "male")] ->
  Some y ∈ [Some (VStr "male"); Some (VStr "male")] ->
  value_eqb x y = true.
Proof.
  rewrite !elem_of_cons, !elem_of_nil.
  intros [[= ->]|[[= ->]|[]]] [[= ->]|[[= ->]|[]]]; reflexivity.
Qed.

Lemma CustomCategoricalEncoder_transform_columns_witness :
  exists out s',
    CustomCategoricalEncoder_transform 3 0
      (FittingExamples.titanic_store FittingExamples.four_passengers)
    = (Ok 6, s') /\
    s' !! 6 = Some (OFrame out) /\
    index out = [0; 1; 2; 3]%Z /\
    assoc (Name "Sex") (columns out) = None.
Proof.
  destruct (CustomCategoricalEncoder_transform_columns
              (FittingExamples.titanic_store FittingExamples.four_passengers)
              3 0 FittingExamples.four_passengers eq_refl
              (four_passengers_columns true))
    as (out & s' & Hrun & Hout & Hidx & _ & Hgone).
  exists out, s'. repeat (split; [assumption|]).
  apply Hgone. left.
Defined.

Lemma CustomCategoricalEncoder_transform_indicators_witness :
  exists out s',
    CustomCategoricalEncoder_transform 3 0
      (FittingExamples.titanic_store FittingExamples.four_passengers)
    = (Ok 6, s') /\
    s' !! 6 = Some (OFrame out) /\
    forall col v p, (Dummy col v, p) ∈ columns out ->
      col ∈ categorical_features /\ Forall is_bit p.
Proof.
  destruct (CustomCategoricalEncoder_transform_indicators
              (FittingExamples.titanic_store FittingExamples.four_passengers)
              3 0 FittingExamples.four_passengers eq_refl
              (four_passengers_columns true) four_passengers_plain)
    as (out & s' & Hrun & Hout & Hbits).
  exists out, s'. repeat (split; [assumption|]).
  intros col v p Hp.
  destruct (Hbits col v p Hp) as (c & Hcol & _ & _ & _ & Hb & _).
  split; assumption.
Defined.

Lemma CustomCategoricalEncoder_transform_one_hot_witness :
  exists out s',
    CustomCategoricalEncoder_transform 3 0
      (FittingExamples.titanic_store FittingExamples.four_passengers)
    = (Ok 6, s') /\
    s' !! 6 = Some (OFrame out) /\
    exists v p, (Dummy "Pclass" v, p) ∈ columns out /\
                p !! 3%nat = Some (Some (VInt 1)).
Proof.
  destruct (CustomCategoricalEncoder_transform_one_hot
              (FittingExamples.titanic_store FittingExamples.four_passengers)
              3 0 FittingExamples.four_passengers eq_refl
              (four_passengers_columns true) four_passengers_plain)
    as (out & s' & Hrun & Hout & _ & Hone).
  exists out, s'. repeat (split; [assumption|]).
  apply (Hone "Pclass"
           [Some (VInt 3); Some (VInt 1); Some (VInt 3); Some (VInt 2)]
           (VInt 1) (VInt 2) 3%nat).
  - right. right. left.
  - reflexivity.
  - reflexivity.
  - reflexivity.
  - reflexivity.
Defined.

Lemma CustomCategoricalEncoder_transform_first_and_missing_witness :
  exists out s',
    CustomCategoricalEncoder_transform 3 0
      (FittingExamples.titanic_store FittingExamples.four_passengers)
    = (Ok 6, s') /\
    s' !! 6 = Some (OFrame out) /\
    forall v p, (Dummy "Embarked" v, p) ∈ columns out ->
      p !! 1%nat = Some (Some (VInt 0)) /\
      p !! 2%nat = Some (Some (VInt 0)).
Proof.
  destruct (CustomCategoricalEncoder_transform_first_and_missing
              (FittingExamples.titanic_store FittingExamples.four_passengers)
              3 0 FittingExamples.four_passengers eq_refl
              (four_passengers_columns true) four_passengers_plain)
    as (out & s' & Hrun & Hout & Hzero).
  exists out, s'. repeat (split; [assumption|]).
  intros v p Hp. split.
  - refine (Hzero "Embarked"
              [Some (VStr "S"); None; Some (VStr "C"); Some (VStr "S")]
              1%nat None eq_refl eq_refl _ v p Hp).
    left. reflexivity.
  - refine (Hzero "Embarked"
              [Some (VStr "S"); None; Some (VStr "C"); Some (VStr "S")]
              2%nat (Some (VStr "C")) eq_refl eq_refl _ v p Hp).
    right. exists (VStr "C"), (VStr "C"). repeat split; reflexivity.
Defined.

Lemma CustomCategoricalEncoder_transform_single_category_witness :
  exists out s',
    CustomCategoricalEncoder_transform 3 0
      (FittingExamples.titanic_store FittingExamples.two_men)
    = (Ok 6, s') /\
    s' !! 6 = Some (OFrame out) /\
    assoc (Name "Sex") (columns out) = None /\
    forall v p, (Dummy "Sex" v, p) ∉ columns out.
Proof.
  apply (CustomCategoricalEncoder_transform_single_category
           (FittingExamples.titanic_store FittingExamples.two_men)
           3 0 FittingExamples.two_men "Sex"
           [Some (VStr "male"); Some (VStr "male")]
           eq_refl two_men_columns two_men_plain).
  - left.
  - reflexivity.
  - exact two_men_same_sex.
Defined.

Lemma CustomCategoricalEncoder_transform_missing_column_witness :
  exists s',
    CustomCategoricalEncoder_transform 1 0
      [OFrame Examples.port_unknown; OCustomCategoricalEncoder]
    = (Raise KeyError, s') /\
    [OFrame Examples.port_unknown; OCustomCategoricalEncoder]
      `prefix_of` s'.
Proof.
  apply (CustomCategoricalEncoder_transform_missing_column
           [OFrame Examples.port_unknown; OCustomCategoricalEncoder]
           1 0 Examples.port_unknown "Pclass" eq_refl).
  - right. right. left.
  - reflexivity.
Defined.

Lemma CustomCategoricalEncoder_transform_not_twice_witness :
  exists X' s',
    CustomCategoricalEncoder_transform 3 0
      (FittingExamples.titanic_store FittingExamples.four_passengers)
    = (Ok X', s') /\
    CustomCategoricalEncoder_transform 3 X' s' = (Raise KeyError, s').
Proof.
  apply (CustomCategoricalEncoder_transform_not_twice
           (FittingExamples.titanic_store FittingExamples.four_passengers)
           3 0 FittingExamples.four_passengers eq_refl
           (four_passengers_columns true)).
Defined.

End EncoderAgain.

(** ** The one-hot loop of the manual cell *)

Section ManualOneHotLoop.
Import Shapes ManualTitanic ManualOneHot.

Lemma one_hot_column_Ok (col : string) (d : DataFrame) (c : list cell) :
  assoc (Name col) (columns d) = Some c ->
  one_hot_column col d = Ok (encoded col d c).
Proof.
  intros Hc. unfold one_hot_column, getitem. rewrite Hc. simpl rbind.
  unfold drop, concat_axis1. cbn [columns index].
  rewrite (assoc_app_Some _ _ _ c Hc). reflexivity.
Qed.

Lemma one_hot_run (f : frames) (cS cE cP cS' cE' cP' : list cell) :
  assoc (Name "Sex") (columns (X_train f)) = Some cS ->
  assoc (Name "Embarked") (columns (X_train f)) = Some cE ->
  assoc (Name "Pclass") (columns (X_train f)) = Some cP ->
  assoc (Name "Sex") (columns (X_test f)) = Some cS' ->
  assoc (Name "Embarked") (columns (X_test f)) = Some cE' ->
  assoc (Name "Pclass") (columns (X_test f)) = Some cP' ->
  one_hot f
  = Ok (mkFrames
          (encoded "Pclass"
             (encoded "Embarked" (encoded "Sex" (X_train f) cS) cE) cP)
          (encoded "Pclass"
             (encoded "Embarked" (encoded "Sex" (X_test f) cS') cE') cP')).
Proof.
  intros HS HE HP HS' HE' HP'.
  unfold one_hot. simpl for_columns. unfold one_hot_step.
  rewrite (one_hot_column_Ok "Sex" _ cS HS),
          (one_hot_column_Ok "Sex" _ cS' HS').
  cbn [rbind X_train X_test].
  rewrite (one_hot_column_Ok "Embarked" _ cE),
          (one_hot_column_Ok "Embarked" _ cE')
    by (apply encoded_keeps; [discriminate|assumption]).
  cbn [rbind X_train X_test].
  rewrite (one_hot_column_Ok "Pclass" _ cP),
          (one_hot_column_Ok "Pclass" _ cP')
    by (apply encoded_keeps; [discriminate|];
        apply encoded_keeps; [discriminate|assumption]).
  reflexivity.
Qed.

(** X19. The encoder of the pipeline cell computes what the one-hot loop
    of the manual cell computes: when the training and the test frame
    have [Sex], [Embarked] and [Pclass], the loop runs through, and the
    encoder applied to either frame returns a frame equal to the one the
    loop leaves in its place. *)
Theorem manual_one_hot_is_the_encoder (f : frames) :
  Forall (fun n => has_column n (X_train f)) categorical_features ->
  Forall (fun n => has_column n (X_test f)) categorical_features ->
  exists f',
    one_hot f = Ok f' /\
    forall (s : store) (self X : loc),
      (s !! X = Some (OFrame (X_train f)) ->
       exists s',
         CustomCategoricalEncoder_transform self X s
         = (Ok (S (S (length s))), s') /\
         s' !! S (S (length s)) = Some (OFrame (X_train f'))) /\
      (s !! X = Some (OFrame (X_test f)) ->
       exists s',
         CustomCategoricalEncoder_transform self X s
         = (Ok (S (S (length s))), s') /\
         s' !! S (S (length s)) = Some (OFrame (X_test f'))).
Proof.
  intros Htr Hte.
  apply Forall_cons in Htr as [[cS HS] Htr].
  apply Forall_cons in Htr as [[cE HE] Htr].
  apply Forall_cons in Htr as [[cP HP] _].
  apply Forall_cons in Hte as [[cS' HS'] Hte].
  apply Forall_cons in Hte as [[cE' HE'] Hte].
  apply Forall_cons in Hte as [[cP' HP'] _].
  eexists. split; [apply (one_hot_run f cS cE cP cS' cE' cP'); assumption|].
  cbn [X_train X_test].
  intros s self X. split; intros HX; eexists.
  - split; [apply (CustomCategoricalEncoder_transform_run s self X _
                     cS cE cP HX HS HE HP)|].
    replace (S (S (length s)))
      with (length ((s ++ [OFrame (encoded "Sex" (X_train f) cS)])
                      ++ [OFrame (encoded "Embarked"
                                    (encoded "Sex" (X_train f) cS) cE)]))
      by (rewrite !length_app; simpl; lia).
    apply lookup_snoc_new.
  - split; [apply (CustomCategoricalEncoder_transform_run s self X _
                     cS' cE' cP' HX HS' HE' HP')|].
    replace (S (S (length s)))
      with (length ((s ++ [OFrame (encoded "Sex" (X_test f) cS')])
                      ++ [OFrame (encoded "Embarked"
                                    (encoded "Sex" (X_test f) cS') cE')]))
      by (rewrite !length_app; simpl; lia).
    apply lookup_snoc_new.
Qed.

(** X20. The loop encodes each frame by its own categories. A category
    of a feature that occurs in the training frame, is not the first
    there, and does not occur in the test frame gets an indicator column
    in the training frame and none in the test frame: the two frames
    come out with different columns. *)
Theorem manual_one_hot_columns_differ (f : frames) (col : string)
    (c c' : list cell) (v : value) :
  Forall (fun n => has_column n (X_train f)) categorical_features ->
  Forall (fun n => has_column n (X_test f)) categorical_features ->
  Forall plain (labels_of (X_test f)) ->
  col ∈ categorical_features ->
  assoc (Name col) (columns (X_train f)) = Some c ->
  assoc (Name col) (columns (X_test f)) = Some c' ->
  v ∈ tail (levels c) ->
  (forall w, Some w ∈ c' -> value_eqb w v = false) ->
  exists f',
    one_hot f = Ok f' /\
    (Dummy col v ∈ labels_of (X_train f')) /\
    (Dummy col v ∉ labels_of (X_test f')) /\
    labels_of (X_train f') <> labels_of (X_test f').
Proof.
  intros Htr Hte Hplain Hcol Hc Hc' Hv Hnot.
  pose proof Htr as Htr0. pose proof Hte as Hte0.
  apply Forall_cons in Htr as [[cS HS] Htr].
  apply Forall_cons in Htr as [[cE HE] Htr].
  apply Forall_cons in Htr as [[cP HP] _].
  apply Forall_cons in Hte as [[cS' HS'] Hte].
  apply Forall_cons in Hte as [[cE' HE'] Hte].
  apply Forall_cons in Hte as [[cP' HP'] _].
  eexists. split; [apply (one_hot_run f cS cE cP cS' cE' cP'); assumption|].
  cbn [X_train X_test].
  destruct (encoded_three (X_train f) cS cE cP HS HE HP) as [_ Hcols].
  destruct (encoded_three (X_test f) cS' cE' cP' HS' HE' HP') as [_ Hcols'].
  cbv zeta in Hcols, Hcols'.
  assert (Dummy col v
            ∈ labels_of (encoded "Pclass"
                           (encoded "Embarked"
                              (encoded "Sex" (X_train f) cS) cE) cP))
    as Hin.
  { unfold labels_of. rewrite Hcols.
    change (Dummy col v) with (fst (Dummy col v, map (indicator v) c)).
    apply (list_elem_of_fmap_2 fst).
    apply dummy_of_output; assumption. }
  assert (Dummy col v
            ∉ labels_of (encoded "Pclass"
                           (encoded "Embarked"
                              (encoded "Sex" (X_test f) cS') cE') cP'))
    as Hout.
  { unfold labels_of. rewrite Hcols'. intros Hl.
    apply list_elem_of_fmap in Hl as ([k p] & Hk & Hp).
    simpl in Hk. subst k.
    apply dummy_in_output in Hp as (_ & c0 & Hc0 & Hv0 & _);
      [|exact Hplain].
    rewrite Hc' in Hc0. injection Hc0 as <-.
    apply elem_of_tail, elem_of_levels in Hv0.
    pose proof (value_eqb_refl v) as Hrefl.
    rewrite (Hnot v Hv0) in Hrefl. discriminate. }
  split; [exact Hin|]. split; [exact Hout|].
  intros Heq. apply Hout. rewrite <- Heq. exact Hin.
Qed.

End ManualOneHotLoop.

Section ManualOneHotWitnesses.
Import Shapes ManualTitanic ManualOneHot.

Lemma manual_one_hot_is_the_encoder_witness :
  exists f',
    one_hot FittingExamples.uneven_split = Ok f' /\
    exists s',
      CustomCategoricalEncoder_transform 3 0
        (FittingExamples.titanic_store FittingExamples.four_passengers)
      = (Ok 6, s') /\
      s' !! 6 = Some (OFrame (X_train f')).
Proof.
  destruct (manual_one_hot_is_the_encoder FittingExamples.uneven_split
              (four_passengers_columns true) two_men_columns)
    as (f' & Hrun & Hsame).
  exists f'. split; [exact Hrun|].
  destruct (Hsame (FittingExamples.titanic_store
                     FittingExamples.four_passengers) 3 0) as [Htr _].
  apply Htr. reflexivity.
Defined.

Lemma manual_one_hot_columns_differ_witness :
  exists f',
    one_hot FittingExamples.uneven_split = Ok f' /\
    (Dummy "Pclass" (VInt 2) ∈ labels_of (X_train f')) /\
    (Dummy "Pclass" (VInt 2) ∉ labels_of (X_test f')) /\
    labels_of (X_train f') <> labels_of (X_test f').
Proof.
  apply (manual_one_hot_columns_differ FittingExamples.uneven_split "Pclass"
           [Some (VInt 3); Some (VInt 1); Some (VInt 3); Some (VInt 2)]
           [Some (VInt 3); Some (VInt 1)] (VInt 2)
           (four_passengers_columns true) two_men_columns two_men_plain).
  - right. right. left.
  - reflexivity.
  - reflexivity.
  - apply list_elem_of_In. vm_compute. left. reflexivity.
  - intros w. rewrite !elem_of_cons, elem_of_nil.
    intros [[= ->]|[[= ->]|[]]]; reflexivity.
Defined.

End ManualOneHotWitnesses.

(** ** The categorical pipeline *)

Section CategoricalPipeline.
Import Shapes ManualTitanic Mixin.

Lemma fit_transform_selector (s : store) (self X : loc) (y : labels) :
  fit_transform CustomSelector self X y s
  = CustomSelector_transform self X s.
Proof. destruct y; reflexivity. Qed.

Lemma fit_transform_encoder (s : store) (self X : loc) (y : labels) :
  fit_transform CustomCategoricalEncoder self X y s
  = CustomCategoricalEncoder_transform self X s.
Proof. destruct y; reflexivity. Qed.

Lemma fit_transform_imputer_run (s : store) (self X : loc) (y : labels)
    (d : DataFrame) f0 :
  s !! self = Some (OCustomCategoricalImputer f0) ->
  s !! X = Some (OFrame d) ->
  ~ all_missing d ->
  fit_transform CustomCategoricalImputer self X y s
  = (Ok (length s),
     <[self := OCustomCategoricalImputer (Some (first_modes d))]> s
       ++ [OFrame (DataFrame_fillna (first_modes d) d)]).
Proof.
  intros Hself HX Hnm.
  assert (self <> X) as Hne by (intros ->; congruence).
  assert (self < length s) as Hlt by (eapply lookup_lt_Some; exact Hself).
  unfold fit_transform.
  assert (forall a, bind (fit CustomCategoricalImputer self X a)
                      (fun fitted =>
                         transform CustomCategoricalImputer fitted X) s
                    = (Ok (length s),
                       <[self := OCustomCategoricalImputer
                                   (Some (first_modes d))]> s
                         ++ [OFrame (DataFrame_fillna (first_modes d) d)]))
    as Hrun.
  { intros a. unfold bind. simpl fit.
    rewrite (CustomCategoricalImputer_fit_run s self X a d f0 Hself HX).
    rewrite decide_False by exact Hnm. simpl transform.
    rewrite (CustomCategoricalImputer_transform_run _ self X d
               (first_modes d)).
    - rewrite length_insert. reflexivity.
    - apply list_lookup_insert_eq, Hlt.
    - rewrite list_lookup_insert_ne by exact Hne. exact HX. }
  destruct y; apply Hrun.
Qed.

Lemma getitem_cols_categorical (d : DataFrame) (cS cE cP : list cell) :
  assoc (Name "Sex") (columns d) = Some cS ->
  assoc (Name "Embarked") (columns d) = Some cE ->
  assoc (Name "Pclass") (columns d) = Some cP ->
  getitem_cols categorical_features d
  = Ok (three_columns (index d) cS cE cP).
Proof.
  intros HS HE HP.
  unfold getitem_cols, categorical_features. simpl select.
  unfold getitem. rewrite HS, HE, HP. reflexivity.
Qed.

Lemma fillna_three_columns (idx idx' : list Z)
    (fS fE fP cS cE cP : list cell) :
  DataFrame_fillna (first_modes (three_columns idx fS fE fP))
    (three_columns idx' cS cE cP)
  = three_columns idx' (imputed fS cS) (imputed fE cE) (imputed fP cP).
Proof. reflexivity. Qed.

Lemma three_columns_missing (idx : list Z) (cS cE cP : list cell) :
  all_missing (three_columns idx cS cE cP) ->
  present cS = [] /\ present cE = [] /\ present cP = [].
Proof.
  unfold all_missing, three_columns. cbn [columns].
  intros H. apply Forall_cons in H as [HS H].
  apply Forall_cons in H as [HE H]. apply Forall_cons in H as [HP _].
  auto.
Qed.

(** The encoder on a frame of the three columns. *)
Lemma encoder_three_columns (s : store) (self X : loc) (idx : list Z)
    (cS cE cP : list cell) :
  s !! X = Some (OFrame (three_columns idx cS cE cP)) ->
  exists out s',
    CustomCategoricalEncoder_transform self X s
    = (Ok (length s + 2), s') /\
    s' !! (length s + 2) = Some (OFrame out) /\
    (forall l o, s !! l = Some o -> s' !! l = Some o) /\
    index out = idx /\
    columns out = indicators "Sex" cS ++ indicators "Embarked" cE
                  ++ indicators "Pclass" cP.
Proof.
  intros HX.
  pose proof (CustomCategoricalEncoder_transform_run s self X
                (three_columns idx cS cE cP) cS cE cP HX
                eq_refl eq_refl eq_refl) as Hrun.
  destruct (encoded_three (three_columns idx cS cE cP) cS cE cP
              eq_refl eq_refl eq_refl) as [Hidx Hcols].
  cbv zeta in Hidx, Hcols.
  eexists _, _. split.
  { rewrite Hrun. repeat f_equal. lia. }
  split.
  { replace (length s + 2)
      with (length ((s ++ [OFrame (encoded "Sex"
                                     (three_columns idx cS cE cP) cS)])
                      ++ [OFrame (encoded "Embarked"
                                    (encoded "Sex"
                                       (three_columns idx cS cE cP) cS)
                                    cE)]))
      by (rewrite !length_app; simpl; lia).
    apply lookup_snoc_new. }
  split.
  { intros l o Hl. repeat apply lookup_app_l_Some. exact Hl. }
  split; [exact Hidx|].
  rewrite Hcols. reflexivity.
Qed.

(** [cat_pipeline.transform(X)] with a fitted imputer. *)
Lemma cat_pipeline_transform_run (s : store) (sel imp enc X : loc)
    (d : DataFrame) (idx : list Z) (fS fE fP cS cE cP : list cell) :
  s !! sel = Some (OCustomSelector true) ->
  s !! imp = Some (OCustomCategoricalImputer
                     (Some (first_modes (three_columns idx fS fE fP)))) ->
  s !! X = Some (OFrame d) ->
  assoc (Name "Sex") (columns d) = Some cS ->
  assoc (Name "Embarked") (columns d) = Some cE ->
  assoc (Name "Pclass") (columns d) = Some cP ->
  exists out s',
    Pipeline_transform (cat_pipeline sel imp enc) X s
    = (Ok (length s + 4), s') /\
    s' !! (length s + 4) = Some (OFrame out) /\
    (forall l o, s !! l = Some o -> s' !! l = Some o) /\
    index out = index d /\
    columns out = indicators "Sex" (imputed fS cS)
                  ++ indicators "Embarked" (imputed fE cE)
                  ++ indicators "Pclass" (imputed fP cP).
Proof.
  intros Hsel Himp HX HS HE HP.
  unfold cat_pipeline. simpl Pipeline_transform.
  unfold bind at 1.
  rewrite (CustomSelector_transform_run s sel X d true Hsel HX).
  rewrite (getitem_cols_categorical d cS cE cP HS HE HP).
  unfold bind at 1.
  rewrite (CustomCategoricalImputer_transform_run (s ++ _) imp (length s)
             (three_columns (index d) cS cE cP)
             (first_modes (three_columns idx fS fE fP)));
    [|apply lookup_app_l_Some; exact Himp|apply lookup_snoc_new].
  rewrite fillna_three_columns.
  set (s1 := s ++ [OFrame (three_columns (index d) cS cE cP)]).
  set (s2 := s1 ++ [OFrame (three_columns (index d) (imputed fS cS)
                              (imputed fE cE) (imputed fP cP))]).
  destruct (encoder_three_columns s2 enc (length s1) (index d)
              (imputed fS cS) (imputed fE cE) (imputed fP cP))
    as (out & s' & Hrun & Hout & Hkeep & Hidx & Hcols);
    [apply lookup_snoc_new|].
  assert (length s2 + 2 = length s + 4) as Hlen
    by (unfold s2, s1; rewrite !length_app; simpl; lia).
  rewrite Hlen in Hrun, Hout.
  exists out, s'. unfold bind, ret. rewrite Hrun.
  split; [reflexivity|]. split; [exact Hout|].
  split; [|split; [exact Hidx|exact Hcols]].
  intros l o Hl. apply Hkeep. unfold s2, s1.
  repeat apply lookup_app_l_Some. exact Hl.
Qed.

(** [cat_pipeline.fit_transform(X, y)]. *)
Lemma cat_pipeline_fit_transform_run (s : store) (sel imp enc X : loc)
    (y : labels) (d : DataFrame) f0 (cS cE cP : list cell) :
  s !! sel = Some (OCustomSelector true) ->
  s !! imp = Some (OCustomCategoricalImputer f0) ->
  s !! X = Some (OFrame d) ->
  assoc (Name "Sex") (columns d) = Some cS ->
  assoc (Name "Embarked") (columns d) = Some cE ->
  assoc (Name "Pclass") (columns d) = Some cP ->
  ~ (present cS = [] /\ present cE = [] /\ present cP = []) ->
  exists out s',
    Pipeline_fit_transform (cat_pipeline sel imp enc) X y s
    = (Ok (length s + 4), s') /\
    s' !! (length s + 4) = Some (OFrame out) /\
    s' !! imp
    = Some (OCustomCategoricalImputer
              (Some (first_modes (three_columns (index d) cS cE cP)))) /\
    (forall l o, l <> imp -> s !! l = Some o -> s' !! l = Some o) /\
    index out = index d /\
    columns out = indicators "Sex" (imputed cS cS)
                  ++ indicators "Embarked" (imputed cE cE)
                  ++ indicators "Pclass" (imputed cP cP).
Proof.
  intros Hsel Himp HX HS HE HP Hvalue.
  assert (imp < length s) as Hlt by (eapply lookup_lt_Some; exact Himp).
  unfold cat_pipeline. simpl Pipeline_fit_transform.
  unfold bind at 1. rewrite fit_transform_selector.
  rewrite (CustomSelector_transform_run s sel X d true Hsel HX).
  rewrite (getitem_cols_categorical d cS cE cP HS HE HP).
  set (sd := three_columns (index d) cS cE cP).
  set (s1 := s ++ [OFrame sd]).
  unfold bind at 1.
  rewrite (fit_transform_imputer_run s1 imp (length s) y sd f0);
    [|apply lookup_app_l_Some; exact Himp|apply lookup_snoc_new
     |intros Hm; apply Hvalue, (three_columns_missing _ _ _ _ Hm)].
  unfold sd at 2 3. rewrite fillna_three_columns.
  set (s2 := <[imp := OCustomCategoricalImputer (Some (first_modes sd))]> s1).
  set (s3 := s2 ++ [OFrame (three_columns (index d) (imputed cS cS)
                              (imputed cE cE) (imputed cP cP))]).
  assert (length s1 = length s2) as Hlen12
    by (unfold s2; rewrite length_insert; reflexivity).
  unfold bind at 1. rewrite fit_transform_encoder. rewrite Hlen12.
  destruct (encoder_three_columns s3 enc (length s2) (index d)
              (imputed cS cS) (imputed cE cE) (imputed cP cP))
    as (out & s' & Hrun & Hout & Hkeep & Hidx & Hcols);
    [apply lookup_snoc_new|].
  assert (length s3 + 2 = length s + 4) as Hlen
    by (unfold s3; rewrite length_app, <- Hlen12; unfold s1;
        rewrite length_app; simpl; lia).
  rewrite Hlen in Hrun, Hout.
  exists out, s'. unfold ret. rewrite Hrun.
  split; [reflexivity|]. split; [exact Hout|].
  split.
  { apply Hkeep. unfold s3. apply lookup_app_l_Some. unfold s2.
    apply list_lookup_insert_eq. unfold s1. rewrite length_app. lia. }
  split; [|split; [exact Hidx|exact Hcols]].
  intros l o Hne Hl. apply Hkeep. unfold s3. apply lookup_app_l_Some.
  unfold s2. rewrite list_lookup_insert_ne by congruence.
  unfold s1. apply lookup_app_l_Some. exact Hl.
Qed.

End CategoricalPipeline.

Section CategoricalPipelineProperties.
Import Shapes ManualTitanic Mixin.
Local Open Scope py_scope.

Lemma elem_of_indicators (prefix col : string) (v : value)
    (p c : list cell) :
  (Dummy col v, p) ∈ indicators prefix c ->
  col = prefix /\ (v ∈ tail (levels c)) /\ p = map (indicator v) c.
Proof.
  unfold indicators, get_dummies. cbn [columns]. intros H.
  apply list_elem_of_fmap in H as (v' & [= -> -> ->] & Hv). auto.
Qed.

(** X21. [cat_pipeline.fit_transform(X, y)] on the training frame and
    then [cat_pipeline.transform(X')] on the test frame: both return,
    when the frames have [Sex], [Embarked] and [Pclass] and a training
    cell of these holds a value. Each result has the rows of its frame
    and nothing but indicator columns, those of [Sex], [Embarked] and
    [Pclass] in this order, made after the gaps of every column were
    closed with the first mode of the training column, for the test
    frame too. The two frames passed in are as they were. *)
Theorem cat_pipeline_train_then_test (s : store) (sel imp enc X X' : loc)
    (y : labels) (d d' : DataFrame) f0 (cS cE cP cS' cE' cP' : list cell) :
  s !! sel = Some (OCustomSelector true) ->
  s !! imp = Some (OCustomCategoricalImputer f0) ->
  s !! X = Some (OFrame d) ->
  s !! X' = Some (OFrame d') ->
  assoc (Name "Sex") (columns d) = Some cS ->
  assoc (Name "Embarked") (columns d) = Some cE ->
  assoc (Name "Pclass") (columns d) = Some cP ->
  assoc (Name "Sex") (columns d') = Some cS' ->
  assoc (Name "Embarked") (columns d') = Some cE' ->
  assoc (Name "Pclass") (columns d') = Some cP' ->
  ~ (present cS = [] /\ present cE = [] /\ present cP = []) ->
  exists Xt Xt' s' out out',
    (let* Xt := Pipeline_fit_transform (cat_pipeline sel imp enc) X y in
     let* Xt' := Pipeline_transform (cat_pipeline sel imp enc) X' in
     ret (Xt, Xt')) s
    = (Ok (Xt, Xt'), s') /\
    s' !! Xt = Some (OFrame out) /\
    s' !! Xt' = Some (OFrame out') /\
    index out = index d /\
    index out' = index d' /\
    columns out = indicators "Sex" (imputed cS cS)
                  ++ indicators "Embarked" (imputed cE cE)
                  ++ indicators "Pclass" (imputed cP cP) /\
    columns out' = indicators "Sex" (imputed cS cS')
                   ++ indicators "Embarked" (imputed cE cE')
                   ++ indicators "Pclass" (imputed cP cP') /\
    s' !! X = Some (OFrame d) /\
    s' !! X' = Some (OFrame d').
Proof.
  intros Hsel Himp HX HX' HS HE HP HS' HE' HP' Hvalue.
  destruct (cat_pipeline_fit_transform_run s sel imp enc X y d f0
              cS cE cP Hsel Himp HX HS HE HP Hvalue)
    as (out & s1 & Hrun & Hout & Hfitted & Hkeep & Hidx & Hcols).
  assert (s1 !! sel = Some (OCustomSelector true)) as Hsel1
    by (apply Hkeep; [intros ->; congruence|exact Hsel]).
  assert (s1 !! X = Some (OFrame d)) as HX1
    by (apply Hkeep; [intros ->; congruence|exact HX]).
  assert (s1 !! X' = Some (OFrame d')) as HX'1
    by (apply Hkeep; [intros ->; congruence|exact HX']).
  destruct (cat_pipeline_transform_run s1 sel imp enc X' d' (index d)
              cS cE cP cS' cE' cP' Hsel1 Hfitted HX'1 HS' HE' HP')
    as (out' & s2 & Hrun' & Hout' & Hkeep' & Hidx' & Hcols').
  exists (length s + 4), (length s1 + 4), s2, out, out'.
  split; [unfold bind at 1; rewrite Hrun; unfold bind; rewrite Hrun';
          reflexivity|].
  split; [apply Hkeep', Hout|].
  split; [exact Hout'|].
  repeat (split; [assumption|]).
  split; apply Hkeep'; assumption.
Qed.

(** X22. The test frame is imputed with what the training frame showed:
    after [cat_pipeline.fit_transform] on the training frame, a row of
    the test frame whose cell of a categorical feature is missing is
    encoded by [cat_pipeline.transform] as a row that holds the first
    mode of the training column: its indicator of a category is 1
    exactly for the category of that mode. *)
Theorem cat_pipeline_test_gap_takes_training_mode (s : store)
    (sel imp enc X X' : loc) (y : labels) (d d' : DataFrame) f0
    (col : string) (c c' : list cell) (i : nat) (m : value) :
  s !! sel = Some (OCustomSelector true) ->
  s !! imp = Some (OCustomCategoricalImputer f0) ->
  s !! X = Some (OFrame d) ->
  s !! X' = Some (OFrame d') ->
  Forall (fun n => has_column n d) categorical_features ->
  Forall (fun n => has_column n d') categorical_features ->
  col ∈ categorical_features ->
  assoc (Name col) (columns d) = Some c ->
  assoc (Name col) (columns d') = Some c' ->
  head (mode1 c) = Some m ->
  c' !! i = Some None ->
  exists Xt Xt' s' out',
    (let* Xt := Pipeline_fit_transform (cat_pipeline sel imp enc) X y in
     let* Xt' := Pipeline_transform (cat_pipeline sel imp enc) X' in
     ret (Xt, Xt')) s
    = (Ok (Xt, Xt'), s') /\
    s' !! Xt' = Some (OFrame out') /\
    forall v p, (Dummy col v, p) ∈ columns out' ->
      (p !! i = Some (Some (VInt 1)) <-> value_eqb m v = true).
Proof.
  intros Hsel Himp HX HX' Hcols Hcols' Hcol Hc Hc' Hm Hi.
  apply Forall_cons in Hcols as [[cS HS] Hcols].
  apply Forall_cons in Hcols as [[cE HE] Hcols].
  apply Forall_cons in Hcols as [[cP HP] _].
  apply Forall_cons in Hcols' as [[cS' HS'] Hcols'].
  apply Forall_cons in Hcols' as [[cE' HE'] Hcols'].
  apply Forall_cons in Hcols' as [[cP' HP'] _].
  assert (~ (present cS = [] /\ present cE = [] /\ present cP = []))
    as Hvalue.
  { assert (present c <> []) as Hpc.
    { intros Hnil. unfold mode1 in Hm. rewrite Hnil in Hm. discriminate. }
    unfold categorical_features in Hcol.
    rewrite !elem_of_cons, elem_of_nil in Hcol.
    intros (H1 & H2 & H3).
    destruct Hcol as [->|[->|[->|[]]]]; congruence. }
  destruct (cat_pipeline_fit_transform_run s sel imp enc X y d f0
              cS cE cP Hsel Himp HX HS HE HP Hvalue)
    as (out & s1 & Hrun & Hout & Hfitted & Hkeep & Hidx & Hcolumns).
  assert (s1 !! sel = Some (OCustomSelector true)) as Hsel1
    by (apply Hkeep; [intros ->; congruence|exact Hsel]).
  assert (s1 !! X' = Some (OFrame d')) as HX'1
    by (apply Hkeep; [intros ->; congruence|exact HX']).
  destruct (cat_pipeline_transform_run s1 sel imp enc X' d' (index d)
              cS cE cP cS' cE' cP' Hsel1 Hfitted HX'1 HS' HE' HP')
    as (out' & s2 & Hrun' & Hout' & _ & _ & Hcolumns').
  exists (length s + 4), (length s1 + 4), s2, out'.
  split; [unfold bind at 1; rewrite Hrun; unfold bind; rewrite Hrun';
          reflexivity|].
  split; [exact Hout'|].
  intros v p Hp. rewrite Hcolumns' in Hp.
  assert (p = map (indicator v) (imputed c c')) as ->.
  { rewrite !elem_of_app in Hp.
    destruct Hp as [Hp|[Hp|Hp]];
      apply elem_of_indicators in Hp as (-> & _ & ->); congruence. }
  assert (imputed c c' !! i = Some (Some m)) as Hfilled.
  { unfold imputed. rewrite Hm.
    apply (lookup_fillna_scalar (Some m) c' i None Hi). }
  rewrite lookup_indicators. split.
  - intros (x & Hx & Hone).
    assert (Some x = Some (Some m)) as [= ->]
      by (rewrite <- Hx; exact Hfilled).
    symmetry in Hone. apply indicator_one in Hone as (w & [= <-] & Hw).
    exact Hw.
  - intros Hmv. exists (Some m). split; [exact Hfilled|].
    symmetry. apply indicator_one. exists m. auto.
Qed.

End CategoricalPipelineProperties.

Section CategoricalPipelineWitnesses.
Import Shapes ManualTitanic Mixin.
Local Open Scope py_scope.

Lemma cat_pipeline_train_then_test_witness :
  exists Xt Xt' s' out out',
    (let* Xt := Pipeline_fit_transform (cat_pipeline 1 2 3) 0 None in
     let* Xt' := Pipeline_transform (cat_pipeline 1 2 3) 4 in
     ret (Xt, Xt'))
      (FittingExamples.titanic_store FittingExamples.four_passengers
         ++ [OFrame FittingExamples.two_men])
    = (Ok (Xt, Xt'), s') /\
    s' !! Xt = Some (OFrame out) /\
    s' !! Xt' = Some (OFrame out') /\
    index out = [0; 1; 2; 3]%Z /\
    index out' = [4; 5]%Z.
Proof.
  destruct (cat_pipeline_train_then_test
              (FittingExamples.titanic_store FittingExamples.four_passengers
                 ++ [OFrame FittingExamples.two_men])
              1 2 3 0 4 None
              FittingExamples.four_passengers FittingExamples.two_men None
              _ _ _ _ _ _
              eq_refl eq_refl eq_refl eq_refl
              eq_refl eq_refl eq_refl eq_refl eq_refl eq_refl)
    as (Xt & Xt' & s' & out & out' & Hrun & Hout & Hout' & Hidx & Hidx' & _).
  - intros (H & _). discriminate H.
  - exists Xt, Xt', s', out, out'. auto.
Defined.

Lemma cat_pipeline_test_gap_takes_training_mode_witness :
  exists Xt Xt' s' out',
    (let* Xt := Pipeline_fit_transform (cat_pipeline 1 2 3) 0 None in
     let* Xt' := Pipeline_transform (cat_pipeline 1 2 3) 4 in
     ret (Xt, Xt'))
      (FittingExamples.titanic_store FittingExamples.four_passengers
         ++ [OFrame FittingExamples.two_men])
    = (Ok (Xt, Xt'), s') /\
    s' !! Xt' = Some (OFrame out') /\
    forall v p, (Dummy "Embarked" v, p) ∈ columns out' ->
      (p !! 1%nat = Some (Some (VInt 1))
       <-> value_eqb (VStr "S") v = true).
Proof.
  apply (cat_pipeline_test_gap_takes_training_mode
           (FittingExamples.titanic_store FittingExamples.four_passengers
              ++ [OFrame FittingExamples.two_men])
           1 2 3 0 4 None
           FittingExamples.four_passengers FittingExamples.two_men None
           "Embarked"
           [Some (VStr "S"); None; Some (VStr "C"); Some (VStr "S")]
           [Some (VStr "S"); None] 1 (VStr "S")
           eq_refl eq_refl eq_refl eq_refl
           (four_passengers_columns true) two_men_columns).
  - right. left.
  - reflexivity.
  - reflexivity.
  - reflexivity.
  - reflexivity.
Defined.

End CategoricalPipelineWitnesses.

(** ** More on the imputation block of the manual cell *)

Section ManualImputationMore.
Import Shapes ManualTitanic.

Lemma length_insert_sorted {A} (leb : A -> A -> bool) (x : A) (l : list A) :
  length (insert_sorted leb x l) = S (length l).
Proof.
  induction l as [|y l IH]; [reflexivity|]. simpl.
  destruct (leb x y); simpl; [reflexivity|]. rewrite IH. reflexivity.
Qed.

Lemma length_isort {A} (leb : A -> A -> bool) (l : list A) :
  length (isort leb l) = length l.
Proof.
  induction l as [|a l IH]; [reflexivity|].
  change (isort leb (a :: l)) with (insert_sorted leb a (isort leb l)).
  rewrite length_insert_sorted, IH. reflexivity.
Qed.

(** The median is NaN only when there is no number. *)
Lemma median_sorted_None (qs : list Q) :
  median_sorted qs = None <-> qs = [].
Proof.
  split; [|intros ->; reflexivity].
  unfold median_sorted. destruct qs as [|q qs]; [reflexivity|].
  set (l := q :: qs). set (n := length l).
  assert (0 < n) as Hn by (unfold n, l; simpl; lia).
  destruct (Nat.eqb_spec n 0) as [H0|_]; [lia|].
  assert (n / 2 < n) as Hhalf by (apply Nat.div_lt; lia).
  destruct (lookup_lt_is_Some_2 l (n / 2) Hhalf) as [b Hb].
  destruct (Nat.odd n).
  - rewrite Hb. discriminate.
  - assert (n / 2 - 1 < n) as Hprev by lia.
    destruct (lookup_lt_is_Some_2 l (n / 2 - 1) Hprev) as [a Ha].
    rewrite Ha, Hb. discriminate.
Qed.

Lemma numbers_nil (s : list cell) (qs : list Q) :
  numbers s = Ok qs -> (qs = [] <-> present s = []).
Proof.
  revert qs. induction s as [|x s IH]; intros qs; simpl.
  - intros [= <-]. tauto.
  - destruct x as [v|]; [|exact (IH qs)].
    destruct (num v) as [q|]; [|discriminate].
    destruct (numbers s) as [qs'|]; [|discriminate].
    simpl. intros [= <-]. split; discriminate.
Qed.

Lemma median_None (t : list cell) (m : cell) :
  median t = Ok m -> (m = None <-> present t = []).
Proof.
  unfold median. destruct (numbers t) as [qs|] eqn:Hqs; [|discriminate].
  simpl. intros [= <-]. rewrite median_sorted_None.
  rewrite <- (numbers_nil t qs Hqs). split.
  - apply isort_nil.
  - intros ->. reflexivity.
Qed.

Lemma labels_setcol (c : colname) (s : list cell)
    (cols : list (colname * list cell)) :
  map fst (setcol c s cols) = map fst cols.
Proof.
  induction cols as [|[c' old] cols IH]; [reflexivity|]. simpl.
  destruct (decide (c = c')); simpl; [reflexivity|]. rewrite IH.
  reflexivity.
Qed.

Lemma fillna_scalar_complete (v : value) (s : list cell) :
  complete (fillna_scalar (Some v) s).
Proof.
  unfold complete, fillna_scalar. apply Forall_forall. intros x Hx.
  apply list_elem_of_fmap in Hx as (y & -> & _).
  destruct y; discriminate.
Qed.

Lemma fillna_scalar_None (s : list cell) : fillna_scalar None s = s.
Proof.
  unfold fillna_scalar. induction s as [|x s IH]; [reflexivity|].
  simpl. rewrite IH. destruct x; reflexivity.
Qed.

(** X23. What the medians of the block achieve. When the test frame has
    a number in [Fare] (in [Age]), no fare (age) is missing in either
    frame after the block. When it has none, the median is NaN, nothing
    is raised, and the fares (ages) of both frames are as they were. *)
Theorem manual_imputation_closes_numeric_gaps (f : frames) (col : string)
    (t : list cell) :
  titanic_split f ->
  col = "Fare" \/ col = "Age" ->
  assoc (Name col) (columns (X_test f)) = Some t ->
  exists out,
    impute f = Ok out /\
    (present t <> [] ->
     forall X, X = X_train out \/ X = X_test out ->
       forall i x, at_row col i X = Some x -> x <> None) /\
    (present t = [] ->
     forall i, at_row col i (X_train out) = at_row col i (X_train f) /\
               at_row col i (X_test out) = at_row col i (X_test f)).
Proof.
  intros Hsplit Hcol Ht.
  destruct (titanic_split_columns f Hsplit)
    as (sF & sA & sE & tF & tA & tE & mF & mA
        & HsF & HsA & HsE & HtF & HtA & HtE & HmF & HmA).
  assert (Name "Fare" <> Name "Age") as HFA by discriminate.
  eexists. split;
    [apply (impute_run f sF sA sE tF tA tE mF mA); assumption|].
  assert (exists s m,
             assoc (Name col) (columns (X_train f)) = Some s /\
             median t = Ok m /\
             (forall i, at_row col i
                          (mkFrame (index (X_train f))
                             (setcol (Name "Embarked")
                                (fillna_aligned (index (X_train f))
                                   (Series_mode tE) sE)
                                (setcol (Name "Age") (fillna_scalar mA sA)
                                   (setcol (Name "Fare")
                                      (fillna_scalar mF sF)
                                      (columns (X_train f))))))
                        = fillna_scalar m s !! i) /\
             (forall i, at_row col i
                          (mkFrame (index (X_test f))
                             (setcol (Name "Embarked")
                                (fillna_aligned (index (X_test f))
                                   (Series_mode tE) tE)
                                (setcol (Name "Age") (fillna_scalar mA tA)
                                   (setcol (Name "Fare")
                                      (fillna_scalar mF tF)
                                      (columns (X_test f))))))
                        = fillna_scalar m t !! i))
    as (s & m & Hs & Hm & Htrain & Htest).
  { unfold column_median, getitem in HmF, HmA.
    rewrite HtF in HmF. rewrite HtA in HmA. simpl in HmF, HmA.
    destruct Hcol as [->| ->].
    - rewrite HtF in Ht. injection Ht as <-.
      exists sF, mF. split; [exact HsF|]. split; [exact HmF|].
      split; intros i; unfold at_row; cbn [columns];
        rewrite !assoc_setcol_ne by discriminate.
      + rewrite (assoc_setcol_eq _ _ sF _ HsF). reflexivity.
      + rewrite (assoc_setcol_eq _ _ tF _ HtF). reflexivity.
    - rewrite HtA in Ht. injection Ht as <-.
      exists sA, mA. split; [exact HsA|]. split; [exact HmA|].
      split; intros i; unfold at_row; cbn [columns];
        rewrite assoc_setcol_ne by discriminate.
      + rewrite (assoc_setcol_eq _ _ sA)
          by (rewrite assoc_setcol_ne by exact HFA; exact HsA).
        reflexivity.
      + rewrite (assoc_setcol_eq _ _ tA)
          by (rewrite assoc_setcol_ne by exact HFA; exact HtA).
        reflexivity. }
  cbn [X_train X_test]. split.
  - intros Hpresent X HX i x Hx.
    destruct m as [v|]; [|exfalso; apply Hpresent;
                           apply (median_None t None Hm); reflexivity].
    assert (exists c, fillna_scalar (Some v) c !! i = Some x) as [c Hc].
    { destruct HX as [-> | ->].
      - exists s. rewrite <- Htrain. exact Hx.
      - exists t. rewrite <- Htest. exact Hx. }
    pose proof (fillna_scalar_complete v c) as Hall.
    unfold complete in Hall. rewrite Forall_lookup in Hall.
    exact (Hall i x Hc).
  - intros Hnone i.
    assert (m = None) as -> by (apply (median_None t m Hm); exact Hnone).
    rewrite Htrain, Htest, !fillna_scalar_None.
    unfold at_row. rewrite Hs, Ht. split; reflexivity.
Qed.

(** X24. The block changes cells of [Fare], [Age] and [Embarked] and
    nothing else: both frames keep their rows, their column labels in
    their order, and every other column as it is. *)
Theorem manual_imputation_keeps_shape (f : frames) :
  titanic_split f ->
  exists out,
    impute f = Ok out /\
    index (X_train out) = index (X_train f) /\
    index (X_test out) = index (X_test f) /\
    labels_of (X_train out) = labels_of (X_train f) /\
    labels_of (X_test out) = labels_of (X_test f) /\
    forall c,
      c <> Name "Fare" -> c <> Name "Age" -> c <> Name "Embarked" ->
      assoc c (columns (X_train out)) = assoc c (columns (X_train f)) /\
      assoc c (columns (X_test out)) = assoc c (columns (X_test f)).
Proof.
  intros Hsplit.
  destruct (titanic_split_columns f Hsplit)
    as (sF & sA & sE & tF & tA & tE & mF & mA
        & HsF & HsA & HsE & HtF & HtA & HtE & HmF & HmA).
  eexists. split;
    [apply (impute_run f sF sA sE tF tA tE mF mA); assumption|].
  cbn [X_train X_test index]. unfold labels_of. cbn [columns].
  rewrite !labels_setcol.
  repeat (split; [reflexivity|]).
  intros c HF HA HE.
  rewrite !assoc_setcol_ne by congruence. split; reflexivity.
Qed.



End ManualImputationMore.

Section ManualImputationMoreWitnesses.
Import Shapes ManualTitanic.

Lemma manual_imputation_closes_numeric_gaps_witness :
  exists out,
    impute Examples.small_split = Ok out /\
    forall i x, at_row "Fare" i (X_train out) = Some x -> x <> None.
Proof.
  destruct (manual_imputation_closes_numeric_gaps Examples.small_split
              "Fare" [Some (VFloat 8); Some (VFloat 10)]
              small_split_is_titanic (or_introl eq_refl) eq_refl)
    as (out & Hrun & Hfull & _).
  exists out. split; [exact Hrun|].
  apply Hfull; [discriminate|left; reflexivity].
Defined.

Lemma manual_imputation_keeps_shape_witness :
  exists out,
    impute Examples.small_split = Ok out /\
    index (X_train out) = [0; 3]%Z /\
    labels_of (X_test out) = [Name "Fare"; Name "Age"; Name "Embarked"].
Proof.
  destruct (manual_imputation_keeps_shape Examples.small_split
              small_split_is_titanic)
    as (out & Hrun & Hidx & _ & _ & Hlabels & _).
  exists out. split; [exact Hrun|]. split; assumption.
Defined.


End ManualImputationMoreWitnesses.

(** ** Standardizing twice *)

Section MyScalerTwice.




End MyScalerTwice.

(** ** What the cells pass for the random state *)

Section Seeding.
Import Notebook NotebookCalls.
Context {world : Type} (lib : library world).

(** What holds of every call a program can make holds of every call it
    makes. *)
Lemma every_call_trace (P : string * list pyval * list (string * pyval)
                            -> Prop) (p : prog) :
  every_call P p -> forall w, Forall P (trace lib w p).
Proof.
  induction p as [v|f args kwargs k IH|body IHb handler IHh k IHk];
    simpl.
  - intros _ w. constructor.
  - intros [HP Hk] w. constructor; [exact HP|].
    destruct (lib w f args kwargs) as [[v|e] w'];
      [apply IH, Hk|constructor].
  - intros (Hb & Hh & Hk) w.
    apply Forall_app. split; [apply IHb, Hb|].
    destruct (run lib w body) as [[v|e] w']; [apply IHk, Hk|].
    apply Forall_app. split; [apply IHh, Hh|].
    destruct (run lib w' (handler e)) as [[v|e'] w''];
      [apply IHk, Hk|constructor].
Qed.

Lemma manual_cell_seeding : every_call titanic_seeding manual_cell.
Proof.
  simpl. repeat (split || intro); try discriminate; reflexivity.
Qed.

Lemma pipeline_cell_seeding : every_call titanic_seeding pipeline_cell.
Proof.
  simpl. repeat (split || intro); try discriminate; reflexivity.
Qed.

Lemma intro_cell_seeding : every_call unseeded_split intro_cell.
Proof.
  simpl. repeat (split || intro); try discriminate; reflexivity.
Qed.

(** X27. Whatever the library does, the two Titanic cells seed the
    split and nothing else: every [train_test_split] they call gets
    [random_state=0], every [RandomForestClassifier] is built without
    arguments, and no [GridSearchCV] gets a [random_state]. The first
    pipeline example does not seed its split either. *)
Theorem titanic_cells_seed_only_the_split (w : world) :
  Forall titanic_seeding (trace lib w manual_cell) /\
  Forall titanic_seeding (trace lib w pipeline_cell) /\
  Forall unseeded_split (trace lib w intro_cell).
Proof.
  split; [|split].
  - apply every_call_trace, manual_cell_seeding.
  - apply every_call_trace, pipeline_cell_seeding.
  - apply every_call_trace, intro_cell_seeding.
Qed.

End Seeding.

(** ** Building a selector *)

Section SelectorDefault.
Import Shapes ManualTitanic.

Lemma CustomSelector_new_transform (s : store) (X : loc) (d : DataFrame)
    (c : arg bool) :
  s !! X = Some (OFrame d) ->
  Forall (fun n => has_column n d)
         (if with_default true c then categorical_features
          else numerical_features) ->
  exists out s',
    bind (CustomSelector_new c)
         (fun self => CustomSelector_transform self X) s
    = (Ok (S (length s)), s') /\
    s' !! S (length s) = Some (OFrame out) /\
    labels_of out
    = map Name (if with_default true c then categorical_features
                else numerical_features).
Proof.
  intros HX Hcols.
  unfold bind at 1. unfold CustomSelector_new, alloc.
  rewrite (CustomSelector_transform_run (s ++ [OCustomSelector _])
             (length s) X d (with_default true c)
             (lookup_snoc_new s _) (lookup_app_l_Some _ _ _ _ HX)).
  destruct (select_total _ d Hcols) as [cs Hcs].
  unfold getitem_cols. rewrite Hcs. simpl rbind.
  exists (mkFrame (index d) cs). eexists.
  rewrite length_app. simpl length.
  replace (length s + 1) with (S (length s)) by lia.
  split; [reflexivity|]. split.
  - replace (S (length s)) with (length (s ++ [OCustomSelector
                                                 (with_default true c)]))
      by (rewrite length_app; simpl; lia).
    apply lookup_snoc_new.
  - unfold labels_of. cbn [columns].
    apply (select_Ok _ d cs Hcs).
Qed.

(** X28. A selector built without an argument is a categorical one:
    [CustomSelector().transform(X)] returns the columns [Sex],
    [Embarked], [Pclass] of [X], and
    [CustomSelector(categorical=False).transform(X)] the columns [Fare],
    [Age], [SibSp], [Parch]. *)
Theorem CustomSelector_default_is_categorical (s : store) (X : loc)
    (d : DataFrame) :
  s !! X = Some (OFrame d) ->
  (Forall (fun n => has_column n d) categorical_features ->
   exists out s',
     bind (CustomSelector_new Omitted)
          (fun self => CustomSelector_transform self X) s
     = (Ok (S (length s)), s') /\
     s' !! S (length s) = Some (OFrame out) /\
     labels_of out = [Name "Sex"; Name "Embarked"; Name "Pclass"]) /\
  (Forall (fun n => has_column n d) numerical_features ->
   exists out s',
     bind (CustomSelector_new (Passed false))
          (fun self => CustomSelector_transform self X) s
     = (Ok (S (length s)), s') /\
     s' !! S (length s) = Some (OFrame out) /\
     labels_of out
     = [Name "Fare"; Name "Age"; Name "SibSp"; Name "Parch"]).
Proof.
  intros HX. split; intros Hcols.
  - exact (CustomSelector_new_transform s X d Omitted HX Hcols).
  - exact (CustomSelector_new_transform s X d (Passed false) HX Hcols).
Qed.

Lemma CustomSelector_default_is_categorical_witness :
  exists out s',
    bind (CustomSelector_new Omitted)
         (fun self => CustomSelector_transform self 0)
         [OFrame FittingExamples.four_passengers]
    = (Ok 2, s') /\
    s' !! 2%nat = Some (OFrame out) /\
    labels_of out = [Name "Sex"; Name "Embarked"; Name "Pclass"].
Proof.
  apply (proj1 (CustomSelector_default_is_categorical
                  [OFrame FittingExamples.four_passengers] 0
                  FittingExamples.four_passengers eq_refl)).
  exact (four_passengers_columns true).
Defined.

End SelectorDefault.
